(** * schedulebot: the schedule book, the date-range resolver and the
      ingestion weekday parser

    A shallow embedding of [schedulebot/schedule.py] and of
    [parse_weekday] from [schedulebot/parser.py], followed by the
    properties of the written specification that they decide.

    Python values are modelled as follows.
    - [str] is a list of Unicode code points.
    - A [date] is held by its proleptic Gregorian ordinal, the number
      [date.toordinal()] returns: day 1 is 0001-01-01 and the last
      representable day, 9999-12-31, is day 3652059.  [datetime] itself
      does [date + timedelta] on ordinals and orders dates as their
      ordinals are ordered.
    - An exception is a [Raise e] result; [Ok v] is a normal return. *)

From Stdlib Require Import ZArith List Bool Lia String Ascii Sorted FinFun.
From Equations Require Import Equations.
Import ListNotations.

Local Open Scope Z_scope.

(* ================================================================== *)
(** * Python: exceptions, strings, dictionaries                        *)
(* ================================================================== *)

Inductive exn : Type :=
| ValueError
| TypeError
| OverflowError
| IndexError
| KeyError.

Inductive result (A : Type) : Type :=
| Ok (value : A)
| Raise (e : exn).

Arguments Ok {A} value.
Arguments Raise {A} e.

Definition bind {A B : Type} (c : result A) (k : A -> result B) : result B :=
  match c with
  | Ok v => k v
  | Raise e => Raise e
  end.

Notation "x <- c ;; k" := (bind c (fun x => k))
  (at level 61, c at next level, right associativity).

(** A character is its code point. *)
Definition char : Type := Z.
Definition str : Type := list char.

Fixpoint str_eqb (a b : str) : bool :=
  match a, b with
  | [], [] => true
  | x :: a', y :: b' => (x =? y) && str_eqb a' b'
  | _, _ => false
  end.

Definition char_in (c : char) (s : str) : bool := existsb (Z.eqb c) s.

(** String literals of the source are written as UTF-8 text and decoded
    to code points. *)
Fixpoint utf8_go (pending : nat) (acc : Z) (s : string) : str :=
  match s with
  | EmptyString => []
  | String b s' =>
      let v := Z.of_N (N_of_ascii b) in
      if v <? 128 then v :: utf8_go 0 0 s'
      else if v <? 192 then
        let acc' := acc * 64 + (v - 128) in
        match pending with
        | 1%nat => acc' :: utf8_go 0 0 s'
        | S p => utf8_go p acc' s'
        | O => utf8_go 0 0 s'
        end
      else if v <? 224 then utf8_go 1 (v - 192) s'
      else if v <? 240 then utf8_go 2 (v - 224) s'
      else utf8_go 3 (v - 240) s'
  end.

Definition u (s : string) : str := utf8_go 0 0 s.

(** [s.split(sep)] for a one-character separator: the pieces between
    the separators, empty pieces included; never an empty list. *)
Fixpoint str_split (sep : char) (s : str) : list str :=
  match s with
  | [] => [[]]
  | c :: s' =>
      if c =? sep then [] :: str_split sep s'
      else
        match str_split sep s' with
        | [] => [[c]]
        | piece :: pieces => (c :: piece) :: pieces
        end
  end.

(** [s.replace(c, '')] for a one-character [c]. *)
Definition str_remove (c : char) (s : str) : str :=
  filter (fun x => negb (x =? c)) s.

(** The values whose type the code inspects at run time. *)
Inductive pyvalue : Type :=
| PyStr (s : str)
| PyInt (n : Z)
| PyBool (b : bool)
| PyNone
| PyObject (type_name : str).

(** A [dict] with string keys, in insertion order, keys unique. *)
Definition dict (V : Type) : Type := list (str * V).

Fixpoint dict_get {V : Type} (key : str) (d : dict V) : option V :=
  match d with
  | [] => None
  | (k, v) :: d' => if str_eqb key k then Some v else dict_get key d'
  end.

Definition dict_contains {V : Type} (key : str) (d : dict V) : bool :=
  match dict_get key d with
  | Some _ => true
  | None => false
  end.

(** [d[key] = v]: an existing key keeps its place, a new one goes last. *)
Fixpoint dict_set {V : Type} (key : str) (v : V) (d : dict V) : dict V :=
  match d with
  | [] => [(key, v)]
  | (k, w) :: d' =>
      if str_eqb key k then (k, v) :: d' else (k, w) :: dict_set key v d'
  end.

Definition dict_keys {V : Type} (d : dict V) : list str := map fst d.

(** [d.get(key, default)]. *)
Definition dict_get_default {V : Type} (key : str) (default : V) (d : dict V) : V :=
  match dict_get key d with
  | Some v => v
  | None => default
  end.

(* ================================================================== *)
(** * The [datetime] module                                            *)
(* ================================================================== *)

Definition _MAXORDINAL : Z := 3652059.

Record date : Type := mkdate { toordinal : Z }.

(** The ordinals [date] can hold; arithmetic that leaves them raises
    [OverflowError]. *)
Definition ordinal_ok (o : Z) : bool := (0 <? o) && (o <=? _MAXORDINAL).

Definition valid_date (d : date) : Prop := 1 <= toordinal d <= _MAXORDINAL.

Definition date_eqb (a b : date) : bool := toordinal a =? toordinal b.
Definition date_le (a b : date) : bool := toordinal a <=? toordinal b.

Definition _is_leap (year : Z) : bool :=
  (year mod 4 =? 0) && (negb (year mod 100 =? 0) || (year mod 400 =? 0)).

Definition _days_before_year (year : Z) : Z :=
  let y := year - 1 in
  y * 365 + y / 4 - y / 100 + y / 400.

Definition _DAYS_BEFORE_MONTH : list Z :=
  [-1; 0; 31; 59; 90; 120; 151; 181; 212; 243; 273; 304; 334].

Definition _days_before_month (year month : Z) : Z :=
  nth (Z.to_nat month) _DAYS_BEFORE_MONTH 0
  + (if (2 <? month) && _is_leap year then 1 else 0).

Definition _ymd2ord (year month day : Z) : Z :=
  _days_before_year year + _days_before_month year month + day.

(** [date(year, month, day)]. *)
Definition date_of_ymd (year month day : Z) : date :=
  mkdate (_ymd2ord year month day).

Definition _DI400Y : Z := 146097.
Definition _DI100Y : Z := 36524.
Definition _DI4Y : Z := 1461.

(** The year component of [_ord2ymd]. *)
Definition year_of_ordinal (n : Z) : Z :=
  let n := n - 1 in
  let n400 := n / _DI400Y in
  let n := n mod _DI400Y in
  let n100 := n / _DI100Y in
  let n := n mod _DI100Y in
  let n4 := n / _DI4Y in
  let n := n mod _DI4Y in
  let n1 := n / 365 in
  let year := n400 * 400 + 1 + n100 * 100 + n4 * 4 + n1 in
  if (n1 =? 4) || (n100 =? 4) then year - 1 else year.

Definition date_year (d : date) : Z := year_of_ordinal (toordinal d).

(** [d.weekday()]: Monday is 0. *)
Definition date_weekday (d : date) : Z := (toordinal d + 6) mod 7.

Definition _isoweek1monday (year : Z) : Z :=
  let firstday := _ymd2ord year 1 1 in
  let firstweekday := (firstday + 6) mod 7 in
  let week1monday := firstday - firstweekday in
  if 3 <? firstweekday then week1monday + 7 else week1monday.

(** [d.isocalendar()[1]], the ISO week number. *)
Definition date_isoweek (d : date) : Z :=
  let year := date_year d in
  let today := toordinal d in
  let week := (today - _isoweek1monday year) / 7 in
  if week <? 0 then (today - _isoweek1monday (year - 1)) / 7 + 1
  else if (52 <=? week) && (_isoweek1monday (year + 1) <=? today) then 1
  else week + 1.

(** A [timedelta] in its normal form: [0 <= seconds < 86400] and
    [0 <= microseconds < 1000000]. *)
Record timedelta : Type := mktimedelta {
  days : Z;
  seconds : Z;
  microseconds : Z
}.

Definition timedelta_new (d s us : Z) : timedelta :=
  let total := (d * 86400 + s) * 1000000 + us in
  {| days := total / 86400000000;
     seconds := (total mod 86400000000) / 1000000;
     microseconds := total mod 1000000 |}.

Definition timedelta_days (n : Z) : timedelta := timedelta_new n 0 0.
Definition timedelta_minutes (m : Z) : timedelta := timedelta_new 0 (m * 60) 0.

(** [d + delta]: only the days of [delta] count. *)
Definition date_add (d : date) (delta : timedelta) : result date :=
  let o := toordinal d + days delta in
  if ordinal_ok o then Ok (mkdate o) else Raise OverflowError.

(** [d - delta] is [d + timedelta(-delta.days)]. *)
Definition date_sub (d : date) (delta : timedelta) : result date :=
  date_add d (timedelta_days (- days delta)).

(** A naive time of day. *)
Record time : Type := mktime {
  hour : Z;
  minute : Z;
  second : Z;
  microsecond : Z
}.

Definition valid_time (t : time) : Prop :=
  0 <= hour t < 24 /\ 0 <= minute t < 60 /\ 0 <= second t < 60
  /\ 0 <= microsecond t < 1000000.

Record datetime : Type := mkdatetime {
  dt_date : date;
  dt_time : time
}.

(** [datetime.combine(d, t)]. *)
Definition combine (d : date) (t : time) : datetime :=
  {| dt_date := d; dt_time := t |}.

(** The sum [datetime.__add__] forms before it checks the range. *)
Definition datetime_plus (dt : datetime) (delta : timedelta) : datetime :=
  let t := dt_time dt in
  let sum :=
    timedelta_new (toordinal (dt_date dt) + days delta)
                  (hour t * 3600 + minute t * 60 + second t + seconds delta)
                  (microsecond t + microseconds delta) in
  let rem := seconds sum mod 3600 in
  {| dt_date := mkdate (days sum);
     dt_time := {| hour := seconds sum / 3600;
                   minute := rem / 60;
                   second := rem mod 60;
                   microsecond := microseconds sum |} |}.

Definition datetime_add (dt : datetime) (delta : timedelta) : result datetime :=
  let r := datetime_plus dt delta in
  if ordinal_ok (toordinal (dt_date r)) then Ok r else Raise OverflowError.

(** [a - b] for two naive datetimes. *)
Definition datetime_sub (a b : datetime) : timedelta :=
  let secs (t : time) := second t + minute t * 60 + hour t * 3600 in
  timedelta_new (toordinal (dt_date a) - toordinal (dt_date b))
                (secs (dt_time a) - secs (dt_time b))
                (microsecond (dt_time a) - microsecond (dt_time b)).

(* ================================================================== *)
(** * [schedulebot/schedule.py]                                        *)
(* ================================================================== *)

Inductive WeekParity : Type := ODD | EVEN.

Definition WeekParity_eqb (a b : WeekParity) : bool :=
  match a, b with
  | ODD, ODD | EVEN, EVEN => true
  | _, _ => false
  end.

Record ScheduleTemplateItem : Type := mkScheduleTemplateItem {
  slot : Z;
  name : str;
  weekday : Z;
  start : time;
  groups : list str;
  week_parity : option WeekParity;
  dates : option (list date)
}.

Record ScheduleItem : Type := mkScheduleItem {
  item_slot : Z;
  item_name : str;
  item_start : datetime;
  item_end : datetime
}.

(** The [duration] property. *)
Definition duration (x : ScheduleItem) : timedelta :=
  datetime_sub (item_end x) (item_start x).

Record ScheduleBook : Type := mkScheduleBook {
  _templates : list ScheduleTemplateItem;
  _group_index : dict (list ScheduleTemplateItem)
}.

(** [ScheduleBook()]. *)
Definition ScheduleBook_new : ScheduleBook :=
  {| _templates := []; _group_index := [] |}.

(** One turn of the inner loop of [add_template]: create the bucket of
    [group] when it is missing, then append [item] to it.  The lookup
    that follows the creation always finds the bucket. *)
Definition index_append (index : dict (list ScheduleTemplateItem))
    (item : ScheduleTemplateItem) (group : str)
  : dict (list ScheduleTemplateItem) :=
  let index :=
    if negb (dict_contains group index) then dict_set group [] index
    else index in
  match dict_get group index with
  | Some bucket => dict_set group (bucket ++ [item]) index
  | None => index
  end.

Definition add_template (self : ScheduleBook)
    (template : list ScheduleTemplateItem) : ScheduleBook :=
  {| _templates := _templates self ++ template;
     _group_index :=
       fold_left
         (fun index item =>
            fold_left (fun index group => index_append index item group)
                      (groups item) index)
         template (_group_index self) |}.

(** ** The [re] calls of [find_groups]

    [find_groups] compiles [re.escape(pattern)] with [re.IGNORECASE] and
    searches each group name.  The pattern syntax is modelled as far as
    escaped patterns reach into it: literal characters, a backslash in
    front of a character that is no ASCII letter or digit, and the dot.
    [sre_parse] answers [None] on all other syntax. *)

(** The characters [re.escape] puts a backslash in front of. *)
Definition _special_chars : str :=
  u "()[]{}?*+-|^$\.&~# " ++ [9; 10; 13; 11; 12].

Definition re_escape (pattern : str) : str :=
  flat_map (fun c => if char_in c _special_chars then [92; c] else [c]) pattern.

(** The characters the pattern parser does not read as themselves. *)
Definition SPECIAL_CHARS : str := u ".\[{()*+?^$|".

Definition is_ascii_alnum (c : char) : bool :=
  ((48 <=? c) && (c <=? 57)) || ((65 <=? c) && (c <=? 90))
  || ((97 <=? c) && (c <=? 122)).

Inductive opcode : Type :=
| LITERAL (c : char)
| ANY.

Fixpoint sre_parse (source : str) : option (list opcode) :=
  match source with
  | [] => Some []
  | this :: rest =>
      if this =? 92 then
        match rest with
        | [] => None
        | c :: rest' =>
            if is_ascii_alnum c then None
            else option_map (cons (LITERAL c)) (sre_parse rest')
        end
      else if negb (char_in this SPECIAL_CHARS) then
        option_map (cons (LITERAL this)) (sre_parse rest)
      else if this =? 46 then option_map (cons ANY) (sre_parse rest)
      else None
  end.

Record Pattern : Type := mkPattern {
  code : list opcode;
  ignorecase : bool
}.

Definition re_compile (pattern : str) (IGNORECASE : bool) : option Pattern :=
  option_map (fun ops => {| code := ops; ignorecase := IGNORECASE |})
             (sre_parse pattern).

Section Search.

(** [char_ieq p c]: the pattern character [p] matches the subject
    character [c] when case is ignored.  The Unicode case tables
    behind this test are a parameter. *)
Variable char_ieq : char -> char -> bool.

Definition match_op (icase : bool) (op : opcode) (c : char) : bool :=
  match op with
  | LITERAL p => if icase then char_ieq p c else p =? c
  | ANY => negb (c =? 10)
  end.

(** The pattern matches at the start of [s]. *)
Fixpoint match_here (icase : bool) (ops : list opcode) (s : str) : bool :=
  match ops, s with
  | [], _ => true
  | _ :: _, [] => false
  | op :: ops', c :: s' => match_op icase op c && match_here icase ops' s'
  end.

(** [regex.search(s)] as a truth value: the pattern matches at some
    position of [s]. *)
Fixpoint regex_search (regex : Pattern) (s : str) : bool :=
  match_here (ignorecase regex) (code regex) s
  || match s with
     | [] => false
     | _ :: s' => regex_search regex s'
     end.

(** [None]: the pattern left the modelled syntax. *)
Definition find_groups (self : ScheduleBook) (pattern : str)
  : option (list str) :=
  match re_compile (re_escape pattern) true with
  | None => None
  | Some regex =>
      Some (filter (regex_search regex) (dict_keys (_group_index self)))
  end.

End Search.

(** ** [calculate_schedule] *)

(** [current_date not in item.dates] is only asked of a non-empty list. *)
Definition dates_truthy (ds : option (list date)) : bool :=
  match ds with
  | Some (_ :: _) => true
  | _ => false
  end.

Definition date_in (d : date) (ds : option (list date)) : bool :=
  match ds with
  | Some l => existsb (date_eqb d) l
  | None => false
  end.

Definition parity_of (d : date) : WeekParity :=
  if negb (date_isoweek d mod 2 =? 0) then ODD else EVEN.

(** The body of [for item in self._group_index[group]]. *)
Definition for_body (current_date : date) (weekday' : Z)
    (week_parity' : WeekParity) (schedule : list ScheduleItem)
    (item : ScheduleTemplateItem) : result (list ScheduleItem) :=
  if (weekday item =? weekday')
     && match week_parity item with
        | None => true
        | Some p => WeekParity_eqb p week_parity'
        end
  then
    if dates_truthy (dates item) && negb (date_in current_date (dates item))
    then Ok schedule
    else
      let start_datetime := combine current_date (start item) in
      end_datetime <- datetime_add start_datetime (timedelta_minutes 90) ;;
      let schedule_item :=
        {| item_slot := slot item;
           item_name := name item;
           item_start := start_datetime;
           item_end := end_datetime |} in
      Ok (schedule ++ [schedule_item])
  else Ok schedule.

Fixpoint for_items (current_date : date) (weekday' : Z)
    (week_parity' : WeekParity) (items : list ScheduleTemplateItem)
    (schedule : list ScheduleItem) : result (list ScheduleItem) :=
  match items with
  | [] => Ok schedule
  | item :: rest =>
      schedule' <- for_body current_date weekday' week_parity' schedule item ;;
      for_items current_date weekday' week_parity' rest schedule'
  end.

(** A value together with the proof that it is the value of [x]. *)
Definition inspect {A : Type} (x : A) : {y : A | x = y} := exist _ x eq_refl.

(** [while current_date <= end]: each turn either raises or moves
    [current_date] one day closer to [end]. *)
Equations? while_loop (bucket : list ScheduleTemplateItem) (end_ : date)
    (current_date : date) (schedule : list ScheduleItem)
  : result (list ScheduleItem)
  by wf (Z.to_nat (toordinal end_ - toordinal current_date + 1)) lt :=
  while_loop bucket end_ current_date schedule
    with inspect (date_le current_date end_) := {
    | exist _ false _ => Ok schedule
    | exist _ true Hle
        with for_items current_date (date_weekday current_date)
                       (parity_of current_date) bucket schedule := {
        | Raise e => Raise e
        | Ok schedule'
            with inspect (date_add current_date (timedelta_days 1)) := {
            | exist _ (Raise e) _ => Raise e
            | exist _ (Ok next) Hnext => while_loop bucket end_ next schedule' } } }.
Proof.
  unfold date_le in Hle. apply Z.leb_le in Hle.
  unfold date_add in Hnext.
  destruct (ordinal_ok _); [ | discriminate ].
  injection Hnext as <-. cbn [toordinal].
  change (86400000000 / 86400000000) with 1. lia.
Qed.

Definition calculate_schedule (self : ScheduleBook) (group : str)
    (start_ end_ : date) : result (list ScheduleItem) :=
  if negb (dict_contains group (_group_index self)) then Ok []
  else
    match dict_get group (_group_index self) with
    | Some bucket => while_loop bucket end_ start_ []
    | None => Raise KeyError
    end.

(** ** [get_date_range] *)

Inductive DateRangeRequest : Type :=
| TODAY
| YESTERDAY
| TOMORROW
| CURRENT_WEEK
| LAST_WEEK
| NEXT_WEEK.

(** What a caller can pass as [request]: a member of the enumeration,
    or some other object. *)
Inductive request_value : Type :=
| Member (r : DateRangeRequest)
| Foreign (v : pyvalue).

Definition DateRangeRequest_eqb (a b : DateRangeRequest) : bool :=
  match a, b with
  | TODAY, TODAY | YESTERDAY, YESTERDAY | TOMORROW, TOMORROW
  | CURRENT_WEEK, CURRENT_WEEK | LAST_WEEK, LAST_WEEK
  | NEXT_WEEK, NEXT_WEEK => true
  | _, _ => false
  end.

(** [request == member]: a plain [Enum] member equals only itself. *)
Definition request_eq (request : request_value) (member : DateRangeRequest)
  : bool :=
  match request with
  | Member r => DateRangeRequest_eqb r member
  | Foreign _ => false
  end.

(** [clock] is what [date.today()] would answer. *)
Definition get_date_range (clock : date) (request : request_value)
    (today : option date) : result (date * date) :=
  let today := match today with Some d => d | None => clock end in
  if request_eq request TODAY then Ok (today, today)
  else if request_eq request YESTERDAY then
    yesterday <- date_sub today (timedelta_days 1) ;;
    Ok (yesterday, yesterday)
  else if request_eq request TOMORROW then
    tomorrow <- date_add today (timedelta_days 1) ;;
    Ok (tomorrow, tomorrow)
  else if request_eq request CURRENT_WEEK then
    start_of_week <- date_sub today (timedelta_days (date_weekday today)) ;;
    end_of_week <- date_add start_of_week (timedelta_days 6) ;;
    Ok (start_of_week, end_of_week)
  else if request_eq request LAST_WEEK then
    start_of_last_week <-
      date_sub today (timedelta_days (date_weekday today + 7)) ;;
    end_of_last_week <- date_add start_of_last_week (timedelta_days 6) ;;
    Ok (start_of_last_week, end_of_last_week)
  else if request_eq request NEXT_WEEK then
    start_of_next_week <-
      date_sub today (timedelta_days (date_weekday today - 7)) ;;
    end_of_next_week <- date_add start_of_next_week (timedelta_days 6) ;;
    Ok (start_of_next_week, end_of_next_week)
  else Raise ValueError.

(* ================================================================== *)
(** * [schedulebot/parser.py]: [parse_weekday]                         *)
(* ================================================================== *)

Definition weekday_names : dict Z :=
  [ (u "понеділок", 0);
    (u "вівторок", 1);
    (u "середа", 2);
    (u "четвер", 3);
    (u "пятниця", 4);
    (u "субота", 5);
    (u "неділя", 6) ].

Section ParseWeekday.

(** [str.lower()]; the Unicode tables behind it are a parameter. *)
Variable str_lower : str -> str.

Definition parse_weekday (value : pyvalue) : result Z :=
  match value with
  | PyStr s =>
      match str_split 32 (str_lower s) with
      | [] => Raise IndexError
      | first :: _ =>
          let value := str_remove 34 (str_remove 39 first) in
          let weekday := dict_get_default value 0 weekday_names in
          Ok weekday
      end
  | PyInt n => Ok (n mod 7)
  | PyBool b => Ok ((if b then 1 else 0) mod 7)
  | PyNone | PyObject _ => Raise TypeError
  end.

End ParseWeekday.

(* ================================================================== *)
(** * Notions the statements are written with                          *)
(* ================================================================== *)

(** The days from [start_] to [end_], both included, in ascending order;
    empty when [end_] is before [start_]. *)
Definition date_range (start_ end_ : date) : list date :=
  map (fun k => mkdate (toordinal start_ + Z.of_nat k))
      (seq 0 (Z.to_nat (toordinal end_ - toordinal start_ + 1))).

Definition matches_weekday (d : date) (item : ScheduleTemplateItem) : bool :=
  weekday item =? date_weekday d.

Definition matches_parity (d : date) (item : ScheduleTemplateItem) : bool :=
  match week_parity item with
  | None => true
  | Some p => WeekParity_eqb p (parity_of d)
  end.

(** The third condition as the code applies it: an empty list of dates
    passes like an absent one. *)
Definition passes_dates (d : date) (item : ScheduleTemplateItem) : bool :=
  match dates item with
  | None => true
  | Some [] => true
  | Some l => existsb (date_eqb d) l
  end.

Definition occurs_on (d : date) (item : ScheduleTemplateItem) : bool :=
  matches_weekday d item && matches_parity d item && passes_dates d item.

(** The third condition in the words of the specification: [dates] is
    absent or [d] is a member of it. *)
Definition spec_passes_dates (d : date) (item : ScheduleTemplateItem) : bool :=
  match dates item with
  | None => true
  | Some l => existsb (date_eqb d) l
  end.

Definition spec_occurs_on (d : date) (item : ScheduleTemplateItem) : bool :=
  matches_weekday d item && matches_parity d item && spec_passes_dates d item.

(** The occurrence of [item] on day [d]. *)
Definition occurrence (d : date) (item : ScheduleTemplateItem) : ScheduleItem :=
  {| item_slot := slot item;
     item_name := name item;
     item_start := combine d (start item);
     item_end := datetime_plus (combine d (start item)) (timedelta_minutes 90) |}.

Definition day_occurrences (bucket : list ScheduleTemplateItem) (d : date)
  : list ScheduleItem :=
  map (occurrence d) (filter (occurs_on d) bucket).

(** Day after day, the occurrences of the bucket's items in bucket
    order. *)
Definition expand (bucket : list ScheduleTemplateItem) (start_ end_ : date)
  : list ScheduleItem :=
  flat_map (day_occurrences bucket) (date_range start_ end_).

(** The occurrence [x] falls on day [d]. *)
Definition on_date (d : date) (x : ScheduleItem) : bool :=
  date_eqb (dt_date (item_start x)) d.

Definition date_ascending (x y : ScheduleItem) : Prop :=
  toordinal (dt_date (item_start x)) <= toordinal (dt_date (item_start y)).

(** [item_end] is what adding ninety minutes to [item_start] returned. *)
Definition ends_after_90_minutes (x : ScheduleItem) : Prop :=
  datetime_add (item_start x) (timedelta_minutes 90) = Ok (item_end x).

(** The items of [template] that name [group], in template order, once
    for every mention of the group. *)
Definition bucket_of (group : str) (template : list ScheduleTemplateItem)
  : list ScheduleTemplateItem :=
  flat_map
    (fun item => map (fun _ => item) (filter (str_eqb group) (groups item)))
    template.

(** A bucket after [more] items were appended to it; a bucket that
    never got an item does not exist. *)
Definition bucket_extend (bucket : option (list ScheduleTemplateItem))
    (more : list ScheduleTemplateItem) : option (list ScheduleTemplateItem) :=
  match bucket, more with
  | Some b, _ => Some (b ++ more)
  | None, [] => None
  | None, _ :: _ => Some more
  end.




(** The Monday on or before [d], as an ordinal. *)
Definition monday_of (d : date) : Z := toordinal d - date_weekday d.

(** The window from day [s] to day [e], when [date] can hold both. *)
Definition window (s e : Z) : result (date * date) :=
  if ordinal_ok s && ordinal_ok e then Ok (mkdate s, mkdate e)
  else Raise OverflowError.

(** [pattern] occurs in [s] as a run of characters, each compared with
    [char_ieq]. *)
Definition icontains (char_ieq : char -> char -> bool) (pattern s : str) : Prop :=
  exists before run after,
    s = before ++ run ++ after
    /\ Forall2 (fun p c => char_ieq p c = true) pattern run.

(** The part of [s] in front of its first space. *)
Fixpoint first_token (s : str) : str :=
  match s with
  | [] => []
  | c :: s' => if c =? 32 then [] else c :: first_token s'
  end.

Definition strip_quotes (s : str) : str := str_remove 34 (str_remove 39 s).

Definition normalized_token (str_lower : str -> str) (s : str) : str :=
  strip_quotes (first_token (str_lower s)).

(** [str.isspace] for one character. *)
Definition is_whitespace (c : char) : bool :=
  ((9 <=? c) && (c <=? 13)) || ((28 <=? c) && (c <=? 32))
  || (c =? 133) || (c =? 160) || (c =? 5760)
  || ((8192 <=? c) && (c <=? 8202))
  || (c =? 8232) || (c =? 8233) || (c =? 8239) || (c =? 8287) || (c =? 12288).

Fixpoint skip_whitespace (s : str) : str :=
  match s with
  | [] => []
  | c :: s' => if is_whitespace c then skip_whitespace s' else s
  end.

Fixpoint until_whitespace (s : str) : str :=
  match s with
  | [] => []
  | c :: s' => if is_whitespace c then [] else c :: until_whitespace s'
  end.

(** The first whitespace-delimited token in the words of the
    specification: the first run of characters that are not whitespace. *)
Definition spec_first_token (s : str) : str :=
  until_whitespace (skip_whitespace s).

Definition spec_normalized_token (str_lower : str -> str) (s : str) : str :=
  strip_quotes (spec_first_token (str_lower s)).

(** ** Sample data *)

(** Lower case for Basic Latin and for the Cyrillic capitals
    U+0400..U+042F, as [str.lower()] has it there. *)
Definition lower_char (c : char) : char :=
  if (65 <=? c) && (c <=? 90) then c + 32
  else if (1040 <=? c) && (c <=? 1071) then c + 32
  else if (1024 <=? c) && (c <=? 1039) then c + 80
  else c.

Definition sample_lower (s : str) : str := map lower_char s.

Definition sample_ieq (p c : char) : bool := lower_char p =? lower_char c.

(** The fixture of [tests/test_schedule.py]. *)
Definition math : ScheduleTemplateItem :=
  {| slot := 1; name := u "Math"; weekday := 0; start := mktime 9 0 0 0;
     groups := [u "GroupA"; u "GroupB"]; week_parity := Some ODD;
     dates := None |}.

Definition physics : ScheduleTemplateItem :=
  {| slot := 2; name := u "Physics"; weekday := 2; start := mktime 11 0 0 0;
     groups := [u "GroupA"]; week_parity := Some EVEN; dates := None |}.

Definition chemistry : ScheduleTemplateItem :=
  {| slot := 3; name := u "Chemistry"; weekday := 4; start := mktime 14 0 0 0;
     groups := [u "GroupB"]; week_parity := None; dates := None |}.

Definition test_book : ScheduleBook :=
  add_template ScheduleBook_new [math; physics; chemistry].

(** A Monday item whose list of dates is empty. *)
Definition seminar : ScheduleTemplateItem :=
  {| slot := 4; name := u "Seminar"; weekday := 0; start := mktime 16 0 0 0;
     groups := [u "GroupC"]; week_parity := None; dates := Some [] |}.

(** Two Monday items, loaded later slot first. *)
Definition lab : ScheduleTemplateItem :=
  {| slot := 3; name := u "Lab"; weekday := 0; start := mktime 14 0 0 0;
     groups := [u "GroupD"]; week_parity := None; dates := None |}.

Definition lecture : ScheduleTemplateItem :=
  {| slot := 1; name := u "Lecture"; weekday := 0; start := mktime 9 0 0 0;
     groups := [u "GroupD"]; week_parity := None; dates := None |}.

Definition late_first : list ScheduleTemplateItem := [lab; lecture].

Definition sample_book : ScheduleBook :=
  add_template test_book (seminar :: late_first).

Definition date_min : date := date_of_ymd 1 1 1.
Definition date_max : date := date_of_ymd 9999 12 31.

From Stdlib Require Import DecimalString Permutation.

(* ================================================================== *)
(** * Further notions: books, weeks, ranges                            *)
(* ================================================================== *)

(** The books a program can hold: [ScheduleBook()] and what
    [add_template] makes of a book. *)
Inductive loaded : ScheduleBook -> Prop :=
| loaded_new : loaded ScheduleBook_new
| loaded_add (self : ScheduleBook) (template : list ScheduleTemplateItem) :
    loaded self -> loaded (add_template self template).

(** [d] moved by [n] days, when no check of the range is wanted. *)
Definition shift_days (d : date) (n : Z) : date := mkdate (toordinal d + n).

(* ================================================================== *)
(** * [schedulebot/bot.py]: [parse_date_range]                         *)
(* ================================================================== *)

(** [s.startswith(prefix)]. *)
Fixpoint str_startswith (prefix s : str) : bool :=
  match prefix, s with
  | [], _ => true
  | _ :: _, [] => false
  | p :: prefix', c :: s' => (p =? c) && str_startswith prefix' s'
  end.

(** [sub in s] for two strings. *)
Fixpoint str_contains (sub s : str) : bool :=
  str_startswith sub s
  || match s with
     | [] => false
     | _ :: s' => str_contains sub s'
     end.

(** The literal dictionary of [parse_date_range], in its order. *)
Definition date_range_keywords : list (str * DateRangeRequest) :=
  [ (u "сьогодні", TODAY);
    (u "завтра", TOMORROW);
    (u "вчора", YESTERDAY);
    (u "поточний тиждень", CURRENT_WEEK);
    (u "наступний тиждень", NEXT_WEEK);
    (u "минулий тиждень", LAST_WEEK) ].

(** The [for] loop over the items: the first key found in [text] decides;
    falling off the end returns [None]. *)
Fixpoint first_keyword (items : list (str * DateRangeRequest)) (text : str)
  : option DateRangeRequest :=
  match items with
  | [] => None
  | (key, value) :: rest =>
      if str_contains key text then Some value else first_keyword rest text
  end.

Section ParseDateRange.

Variable str_lower : str -> str.

Definition parse_date_range (text : str) : option DateRangeRequest :=
  let text := str_lower text in
  first_keyword date_range_keywords text.

End ParseDateRange.

(** [sub] occurs in [s]. *)
Definition occurs_in (sub s : str) : Prop :=
  exists before after, s = before ++ sub ++ after.

(* ================================================================== *)
(** * [schedulebot/bot.py]: [format_schedule_for_telegram]             *)
(* ================================================================== *)

(** [sorted(l, key=key)].  The sort is stable, so its result is fixed
    by the keys: the insertion sort that puts an element in front of
    the first element whose key is not smaller returns it. *)
Fixpoint insert_by {A : Type} (key : A -> Z) (x : A) (l : list A) : list A :=
  match l with
  | [] => [x]
  | y :: l' => if key x <=? key y then x :: l else y :: insert_by key x l'
  end.

Definition sorted_by {A : Type} (key : A -> Z) (l : list A) : list A :=
  fold_right (insert_by key) [] l.

(** [schedule_by_day]: a [defaultdict(list)] with dates as keys, in
    insertion order. *)
Definition day_dict : Type := list (date * list ScheduleItem).

(** [schedule_by_day[day].append(item)]. *)
Fixpoint day_append (day : date) (item : ScheduleItem) (days : day_dict)
  : day_dict :=
  match days with
  | [] => [(day, [item])]
  | (k, items) :: days' =>
      if date_eqb day k then (k, items ++ [item]) :: days'
      else (k, items) :: day_append day item days'
  end.

(** The first loop: the items of each day, in the order received. *)
Definition group_by_day (schedule_items : list ScheduleItem) : day_dict :=
  fold_left (fun days item => day_append (dt_date (item_start item)) item days)
            schedule_items [].

(** The second loop: every day's items sorted by slot. *)
Definition sort_each_day (days : day_dict) : day_dict :=
  map (fun entry => (fst entry, sorted_by item_slot (snd entry))) days.

(** [sorted(schedule_by_day.items())]: the keys differ, so that the
    dates alone decide the order. *)
Definition days_in_order (schedule_items : list ScheduleItem) : day_dict :=
  sorted_by (fun entry => toordinal (fst entry))
            (sort_each_day (group_by_day schedule_items)).

(** [str(n)] for an integer. *)
Definition str_of_int (n : Z) : str := u (NilZero.string_of_int (Z.to_int n)).

(** Two decimal digits, as [%H] and [%M] print an hour and a minute. *)
Definition two_digits (n : Z) : str := [48 + n / 10; 48 + n mod 10].

(** [dt.strftime('%H:%M')]. *)
Definition strftime_HM (dt : datetime) : str :=
  two_digits (hour (dt_time dt)) ++ [58] ++ two_digits (minute (dt_time dt)).

(** [sep.join(pieces)]. *)
Fixpoint str_join (sep : str) (pieces : list str) : str :=
  match pieces with
  | [] => []
  | piece :: rest =>
      match rest with
      | [] => piece
      | _ :: _ => piece ++ sep ++ str_join sep rest
      end
  end.

Section FormatSchedule.

(** babel's [format_date(day, locale='uk_UA')]. *)
Variable format_date : date -> str.

(** What one item adds to [message_lines]. *)
Definition item_lines (item : ScheduleItem) : list str :=
  [ str_of_int (item_slot item) ++ u " (" ++ strftime_HM (item_start item)
    ++ u " - " ++ strftime_HM (item_end item) ++ u "): " ++ item_name item
    ++ u " ";
    [10] ].

(** The message of one day. *)
Definition day_message (entry : date * list ScheduleItem) : str :=
  let day_str := format_date (fst entry) in
  let message_lines :=
    [ [42] ++ day_str ++ [42; 10] ] ++ flat_map item_lines (snd entry) ++ [ [] ]
  in
  str_join [10] message_lines.

(** The messages the generator yields, in order. *)
Definition format_schedule_for_telegram (schedule_items : list ScheduleItem)
  : list str :=
  map day_message (days_in_order schedule_items).

End FormatSchedule.

(** The items a [day_dict] holds for [day]. *)
Fixpoint day_get (day : date) (days : day_dict) : list ScheduleItem :=
  match days with
  | [] => []
  | (k, items) :: days' => if date_eqb day k then items else day_get day days'
  end.

(** The days of a range on which [bucket] has an occurrence, each with
    its occurrences sorted by slot. *)
Definition occurrence_days (bucket : list ScheduleTemplateItem)
    (start_ end_ : date) : day_dict :=
  flat_map
    (fun d =>
       match day_occurrences bucket d with
       | [] => []
       | x :: l => [(d, sorted_by item_slot (x :: l))]
       end)
    (date_range start_ end_).

(* ================================================================== *)
(** * [schedulebot/parser.py]: [parse_time], [parse_dates_from_text]   *)
(* ================================================================== *)


Definition _DAYS_IN_MONTH : list Z :=
  [-1; 31; 28; 31; 30; 31; 30; 31; 31; 30; 31; 30; 31].

Definition _days_in_month (year month : Z) : Z :=
  if (month =? 2) && _is_leap year then 29
  else nth (Z.to_nat month) _DAYS_IN_MONTH 0.

(** [date(year, month, day)]: the constructor checks the three fields. *)
Definition date_new (year month day : Z) : result date :=
  if (1 <=? year) && (year <=? 9999) && (1 <=? month) && (month <=? 12)
     && (1 <=? day) && (day <=? _days_in_month year month)
  then Ok (date_of_ymd year month day)
  else Raise ValueError.

(** [pieces[i]]. *)
Definition list_index {A : Type} (pieces : list A) (i : nat) : result A :=
  match nth_error pieces i with
  | Some piece => Ok piece
  | None => Raise IndexError
  end.

(** A list comprehension over a function that can raise: the first
    exception ends it. *)
Fixpoint map_result {A B : Type} (f : A -> result B) (l : list A)
  : result (list B) :=
  match l with
  | [] => Ok []
  | x :: l' => y <- f x ;; ys <- map_result f l' ;; Ok (y :: ys)
  end.

Section Parser.

(** [int(s)] for a string, [None] when it raises [ValueError]; the
    spellings of numbers it accepts are a parameter. *)
Variable py_int : str -> option Z.

Definition int_of_str (s : str) : result Z :=
  match py_int s with
  | Some n => Ok n
  | None => Raise ValueError
  end.


(** [\d] and [\w] of the [re] module; the Unicode tables behind them
    are parameters. *)
Variable is_digit : char -> bool.
Variable is_word : char -> bool.

(** What [datetime.now().year] answers. *)
Variable current_year : Z.

Definition is_word_at (c : option char) : bool :=
  match c with
  | Some c => is_word c
  | None => false
  end.

(** [\b] between two neighbours, the ends of the text counting as no
    word character. *)
Definition word_boundary (prev next : option char) : bool :=
  xorb (is_word_at prev) (is_word_at next).

(** [\b\d{2}\.\d{2}\b] matches at the start of [s], the character
    before being [prev]. *)
Definition date_pattern_here (prev : option char) (s : str) : bool :=
  match s with
  | c1 :: c2 :: c3 :: c4 :: c5 :: rest =>
      word_boundary prev (Some c1)
      && is_digit c1 && is_digit c2 && (c3 =? 46)
      && is_digit c4 && is_digit c5
      && word_boundary (Some c5) (hd_error rest)
  | _ => false
  end.

(** [DATE_PATTERN.findall(text)]: the matches from left to right, the
    search going on behind each match; [skip] counts the characters of
    the last match still to pass. *)
Fixpoint findall_dates (skip : nat) (prev : option char) (s : str) : list str :=
  match s with
  | [] => []
  | c :: s' =>
      match skip with
      | S k => findall_dates k (Some c) s'
      | O =>
          if date_pattern_here prev s
          then firstn 5 s :: findall_dates 4 (Some c) s'
          else findall_dates 0 (Some c) s'
      end
  end.

(** [date(current_year, int(d.split('.')[1]), int(d.split('.')[0]))]. *)
Definition date_of_match (d : str) : result date :=
  month_str <- list_index (str_split 46 d) 1 ;;
  month <- int_of_str month_str ;;
  day_str <- list_index (str_split 46 d) 0 ;;
  day <- int_of_str day_str ;;
  date_new current_year month day.

Definition parse_dates_from_text (text : str) : result (list date) :=
  let found_dates := findall_dates 0 None text in
  map_result date_of_match found_dates.

End Parser.

(** The matches occur in [text] one behind the other. *)
Fixpoint occur_in_order (matches : list str) (text : str) : Prop :=
  match matches with
  | [] => True
  | m :: rest =>
      exists before after,
        text = before ++ m ++ after /\ occur_in_order rest after
  end.

(** [int] for strings of ASCII digits, and [\d], [\w] for ASCII. *)
Definition sample_digit (c : char) : bool := (48 <=? c) && (c <=? 57).

Definition sample_word (c : char) : bool := is_ascii_alnum c || (c =? 95).

Definition sample_int (s : str) : option Z :=
  match s with
  | [] => None
  | _ :: _ =>
      if forallb sample_digit s
      then Some (fold_left (fun n c => 10 * n + (c - 48)) s 0)
      else None
  end.

(* ================================================================== *)
(** * [schedulebot/bot.py]: [UserCatalog]                              *)
(* ================================================================== *)

(** [add_user_info] stores the very dict object it is given and later
    updates that object in place, so that the dict objects are kept in
    a store and named by references.  The keys of the user-info dicts
    are of any type with an equality test. *)
Section UserCatalogModel.

Context {K V : Type} (key_eqb : K -> K -> bool).

(** What a dict object holds, in insertion order. *)
Definition info : Type := list (K * V).

Fixpoint info_get (key : K) (d : info) : option V :=
  match d with
  | [] => None
  | (k, v) :: d' => if key_eqb key k then Some v else info_get key d'
  end.

Fixpoint info_set (key : K) (v : V) (d : info) : info :=
  match d with
  | [] => [(key, v)]
  | (k, w) :: d' =>
      if key_eqb key k then (k, v) :: d' else (k, w) :: info_set key v d'
  end.

(** [d.update(other)] for two different objects. *)
Definition info_update (d other : info) : info :=
  fold_left (fun d entry => info_set (fst entry) (snd entry) d) other d.

(** The dict objects that exist; a reference is a position. *)
Definition store : Type := list info.

Definition deref (s : store) (r : nat) : info := nth r s [].

Fixpoint store_set (s : store) (r : nat) (d : info) : store :=
  match s, r with
  | [], _ => []
  | _ :: s', O => d :: s'
  | d0 :: s', S r' => d0 :: store_set s' r' d
  end.

(** [self._info]: user ids to dict objects. *)
Record UserCatalog : Type := mkUserCatalog {
  _info : list (Z * nat)
}.

Definition UserCatalog_new : UserCatalog := {| _info := [] |}.

Fixpoint user_get (user_id : Z) (users : list (Z * nat)) : option nat :=
  match users with
  | [] => None
  | (k, r) :: users' => if user_id =? k then Some r else user_get user_id users'
  end.

Fixpoint user_set (user_id : Z) (r : nat) (users : list (Z * nat))
  : list (Z * nat) :=
  match users with
  | [] => [(user_id, r)]
  | (k, r0) :: users' =>
      if user_id =? k then (k, r) :: users'
      else (k, r0) :: user_set user_id r users'
  end.

(** [find_user_info]: the dict object itself, or [None]. *)
Definition find_user_info (self : UserCatalog) (user_id : Z) : option nat :=
  user_get user_id (_info self).

(** [add_user_info]: a known user's object is updated in place (an
    update of an object with itself changes nothing); for a new user
    the object given is stored as it is, not a copy of it. *)
Definition add_user_info (s : store) (self : UserCatalog) (user_id : Z)
    (info_ref : nat) : store * UserCatalog :=
  match user_get user_id (_info self) with
  | Some r =>
      if Nat.eqb r info_ref then (s, self)
      else (store_set s r (info_update (deref s r) (deref s info_ref)), self)
  | None => (s, {| _info := user_set user_id info_ref (_info self) |})
  end.

(** Every object has each key once, and the catalog names only objects
    that exist. *)
Definition store_ok (s : store) : Prop :=
  Forall (fun d : info => NoDup (map fst d)) s.

Definition catalog_ok (s : store) (self : UserCatalog) : Prop :=
  forall user_id r,
    find_user_info self user_id = Some r -> (r < List.length s)%nat.

End UserCatalogModel.

(* ================================================================== *)
(** * Basic facts                                                      *)
(* ================================================================== *)

Lemma str_eqb_eq (a b : str) : str_eqb a b = true <-> a = b.
Proof.
  revert b. induction a as [ | x a IH ]; intros [ | y b ]; simpl;
    try (split; intro; (reflexivity || discriminate)).
  rewrite andb_true_iff, Z.eqb_eq, IH.
  split; [ intros [-> ->]; reflexivity | intros [= -> ->]; auto ].
Qed.

Lemma str_eqb_refl (a : str) : str_eqb a a = true.
Proof. apply str_eqb_eq. reflexivity. Qed.

Lemma str_eqb_neq (a b : str) : str_eqb a b = false <-> a <> b.
Proof.
  rewrite <- str_eqb_eq. destruct (str_eqb a b); split; congruence.
Qed.

Lemma date_eqb_eq (a b : date) : date_eqb a b = true <-> a = b.
Proof.
  destruct a as [x], b as [y]. unfold date_eqb. simpl.
  rewrite Z.eqb_eq. split; [ intros -> | intros [= ->] ]; reflexivity.
Qed.

Lemma existsb_date_In (d : date) (l : list date) :
  existsb (date_eqb d) l = true <-> In d l.
Proof.
  rewrite existsb_exists. split.
  - intros (x & Hx & Heq). apply date_eqb_eq in Heq. subst. exact Hx.
  - intro H. exists d. split; [ exact H | apply date_eqb_eq; reflexivity ].
Qed.

Lemma days_timedelta_days (n : Z) : days (timedelta_days n) = n.
Proof.
  unfold timedelta_days, timedelta_new. cbn [days].
  replace ((n * 86400 + 0) * 1000000 + 0) with (n * 86400000000) by lia.
  apply Z.div_mul. discriminate.
Qed.

Lemma date_add_days (d : date) (n : Z) :
  date_add d (timedelta_days n) =
  if ordinal_ok (toordinal d + n) then Ok (mkdate (toordinal d + n))
  else Raise OverflowError.
Proof. unfold date_add. rewrite days_timedelta_days. reflexivity. Qed.

Lemma date_sub_days (d : date) (n : Z) :
  date_sub d (timedelta_days n) =
  if ordinal_ok (toordinal d - n) then Ok (mkdate (toordinal d - n))
  else Raise OverflowError.
Proof.
  unfold date_sub. rewrite days_timedelta_days, date_add_days.
  replace (toordinal d + - n) with (toordinal d - n) by lia. reflexivity.
Qed.

Lemma ordinal_ok_iff (o : Z) : ordinal_ok o = true <-> 1 <= o <= _MAXORDINAL.
Proof.
  unfold ordinal_ok. rewrite andb_true_iff, Z.ltb_lt, Z.leb_le. lia.
Qed.

Lemma date_weekday_range (d : date) : 0 <= date_weekday d <= 6.
Proof.
  unfold date_weekday.
  pose proof (Z.mod_pos_bound (toordinal d + 6) 7 ltac:(lia)). lia.
Qed.

(** Ninety minutes after a time of day is the same day or the next. *)
Lemma plus_90_minutes_day (d : date) (t : time) :
  valid_time t ->
  let r := datetime_plus (combine d t) (timedelta_minutes 90) in
  toordinal d <= toordinal (dt_date r) <= toordinal d + 1.
Proof.
  intros (Hh & Hm & Hs & Hus).
  unfold datetime_plus.
  change (timedelta_minutes 90)
    with {| days := 0; seconds := 5400; microseconds := 0 |}.
  cbn [combine dt_date dt_time toordinal days seconds microseconds timedelta_new].
  split.
  - apply Z.div_le_lower_bound; lia.
  - apply Z.lt_succ_r, Z.div_lt_upper_bound; lia.
Qed.

(** The duration of the sum: what was added. *)
Lemma datetime_sub_plus (dt : datetime) (delta : timedelta) :
  datetime_sub (datetime_plus dt delta) dt =
  timedelta_new (days delta) (seconds delta) (microseconds delta).
Proof.
  unfold datetime_sub, datetime_plus, timedelta_new.
  cbn [dt_date dt_time toordinal days seconds microseconds hour minute second
       microsecond].
  set (o := toordinal (dt_date dt)).
  set (s := hour (dt_time dt) * 3600 + minute (dt_time dt) * 60
            + second (dt_time dt)).
  set (total := ((o + days delta) * 86400 + (s + seconds delta)) * 1000000
                + (microsecond (dt_time dt) + microseconds delta)).
  set (secs := total mod 86400000000 / 1000000).
  assert (Hsecs : secs mod 3600 mod 60 + secs mod 3600 / 60 * 60
                  + secs / 3600 * 3600 = secs).
  { pose proof (Z.div_mod secs 3600 ltac:(lia)).
    pose proof (Z.div_mod (secs mod 3600) 60 ltac:(lia)). lia. }
  assert (Htotal : (total / 86400000000 * 86400 + secs) * 1000000
                   + total mod 1000000 = total).
  { subst secs.
    pose proof (Z.div_mod total 86400000000 ltac:(lia)) as H1.
    pose proof (Z.div_mod (total mod 86400000000) 1000000 ltac:(lia)) as H2.
    assert (H3 : (total mod 86400000000) mod 1000000 = total mod 1000000).
    { change 86400000000 with (86400 * 1000000).
      rewrite Z.mul_comm, Z.rem_mul_r by lia.
      rewrite Z.add_mod, Z.mul_comm, Z.mod_mul, Z.add_0_r by lia.
      rewrite Z.mod_mod by lia. apply Z.mod_mod. lia. }
    lia. }
  match goal with
  | |- {| days := ?a / _; seconds := _; microseconds := _ |}
       = {| days := ?b / _; seconds := _; microseconds := _ |} =>
      assert (E : a = b); [ | rewrite E; reflexivity ]
  end.
  rewrite Hsecs.
  assert (Hdef : total = ((o + days delta) * 86400 + (s + seconds delta)) * 1000000
                         + (microsecond (dt_time dt) + microseconds delta))
    by reflexivity.
  clearbody secs. clearbody total.
  generalize dependent (total / 86400000000).
  generalize dependent (total mod 1000000).
  intros. subst s. lia.
Qed.

(* ================================================================== *)
(** * The loops of [calculate_schedule]                                *)
(* ================================================================== *)

Lemma datetime_add_Ok (dt : datetime) (delta : timedelta) (r : datetime) :
  datetime_add dt delta = Ok r -> r = datetime_plus dt delta.
Proof.
  unfold datetime_add.
  destruct (ordinal_ok _); [ intros [= <-]; reflexivity | discriminate ].
Qed.

(** The guard of the loop body is [occurs_on]. *)
Lemma for_body_guard (d : date) (schedule : list ScheduleItem)
    (item : ScheduleTemplateItem) :
  for_body d (date_weekday d) (parity_of d) schedule item =
  if occurs_on d item then
    end_datetime <- datetime_add (combine d (start item)) (timedelta_minutes 90) ;;
    Ok (schedule ++ [ {| item_slot := slot item;
                         item_name := name item;
                         item_start := combine d (start item);
                         item_end := end_datetime |} ])
  else Ok schedule.
Proof.
  unfold for_body, occurs_on, matches_weekday, matches_parity, passes_dates,
    dates_truthy, date_in.
  destruct (weekday item =? date_weekday d); [ | reflexivity ].
  destruct (week_parity item) as [ p | ];
    [ destruct (WeekParity_eqb p (parity_of d)); [ | reflexivity ] | ];
    cbn [andb];
    (destruct (dates item) as [ [ | x l ] | ]; cbn [andb negb];
     [ reflexivity | | reflexivity ]);
    destruct (existsb (date_eqb d) (x :: l)); reflexivity.
Qed.

Lemma for_items_Ok (d : date) (items : list ScheduleTemplateItem) :
  forall schedule r,
    for_items d (date_weekday d) (parity_of d) items schedule = Ok r ->
    r = schedule ++ day_occurrences items d.
Proof.
  unfold day_occurrences.
  induction items as [ | item rest IH ]; intros schedule r; cbn [for_items].
  - intros [= <-]. cbn. now rewrite app_nil_r.
  - rewrite for_body_guard. cbn [filter].
    destruct (occurs_on d item).
    + destruct (datetime_add _ _) as [ e | ] eqn:Hadd; cbn [bind];
        [ | discriminate ].
      apply datetime_add_Ok in Hadd. subst e.
      intro H. apply IH in H. subst r.
      cbn [map]. rewrite <- app_assoc. reflexivity.
    + cbn [bind]. apply IH.
Qed.

Lemma for_items_total (d : date) (items : list ScheduleTemplateItem) :
  Forall (fun item => valid_time (start item)) items ->
  1 <= toordinal d < _MAXORDINAL ->
  forall schedule,
    for_items d (date_weekday d) (parity_of d) items schedule =
    Ok (schedule ++ day_occurrences items d).
Proof.
  unfold day_occurrences.
  intros Hvalid Hd.
  induction Hvalid as [ | item rest Hitem _ IH ]; intro schedule;
    cbn [for_items].
  - cbn. now rewrite app_nil_r.
  - rewrite for_body_guard. cbn [filter].
    destruct (occurs_on d item); cbn [bind]; [ | apply IH ].
    unfold datetime_add.
    pose proof (plus_90_minutes_day d (start item) Hitem) as Hday.
    cbv zeta in Hday.
    assert (Hok : ordinal_ok
              (toordinal (dt_date (datetime_plus (combine d (start item))
                                                 (timedelta_minutes 90))))
            = true) by (apply ordinal_ok_iff; lia).
    rewrite Hok. cbn [bind]. rewrite IH.
    cbn [map]. rewrite <- app_assoc. reflexivity.
Qed.

Lemma date_range_nil (start_ end_ : date) :
  toordinal end_ < toordinal start_ -> date_range start_ end_ = [].
Proof.
  intro H. unfold date_range.
  replace (Z.to_nat (toordinal end_ - toordinal start_ + 1)) with 0%nat by lia.
  reflexivity.
Qed.

Lemma date_range_cons (start_ end_ : date) :
  toordinal start_ <= toordinal end_ ->
  date_range start_ end_ =
  start_ :: date_range (mkdate (toordinal start_ + 1)) end_.
Proof.
  intro H. unfold date_range. cbn [toordinal].
  replace (Z.to_nat (toordinal end_ - toordinal start_ + 1))
    with (S (Z.to_nat (toordinal end_ - (toordinal start_ + 1) + 1))) by lia.
  cbn [seq map]. f_equal.
  - destruct start_ as [o]. cbn. f_equal. lia.
  - rewrite <- seq_shift, map_map. apply map_ext. intro k. f_equal. lia.
Qed.

Lemma In_date_range (start_ end_ d : date) :
  In d (date_range start_ end_) <->
  toordinal start_ <= toordinal d <= toordinal end_.
Proof.
  unfold date_range. rewrite in_map_iff. split.
  - intros (k & <- & Hk). apply in_seq in Hk. cbn [toordinal]. lia.
  - intro H. exists (Z.to_nat (toordinal d - toordinal start_)). split.
    + destruct d as [o]. cbn [toordinal] in *. f_equal. lia.
    + apply in_seq. lia.
Qed.

Lemma while_loop_step (bucket : list ScheduleTemplateItem)
    (end_ current_date : date) (schedule : list ScheduleItem) :
  while_loop bucket end_ current_date schedule =
  if date_le current_date end_ then
    schedule' <- for_items current_date (date_weekday current_date)
                           (parity_of current_date) bucket schedule ;;
    next <- date_add current_date (timedelta_days 1) ;;
    while_loop bucket end_ next schedule'
  else Ok schedule.
Proof.
  funelim (while_loop bucket end_ current_date schedule);
    repeat match goal with
      | H : date_le _ _ = _ |- _ => rewrite H
      | H : for_items _ _ _ _ _ = _ |- _ => rewrite H
      | H : date_add _ _ = _ |- _ => rewrite H
      end; reflexivity.
Qed.

(** Whatever the loop returns is the expansion of the bucket over the
    days that were left. *)
Lemma while_loop_Ok (bucket : list ScheduleTemplateItem) (end_ : date) :
  forall (n : nat) (current_date : date) (schedule r : list ScheduleItem),
    Z.to_nat (toordinal end_ - toordinal current_date + 1) = n ->
    while_loop bucket end_ current_date schedule = Ok r ->
    r = schedule ++ expand bucket current_date end_.
Proof.
  unfold expand.
  induction n as [ | n IH ]; intros current_date schedule r Hn;
    rewrite while_loop_step; unfold date_le.
  - destruct (Z.leb_spec (toordinal current_date) (toordinal end_)) as [ Hle | Hlt ];
      [ lia | ].
    intros [= <-]. rewrite date_range_nil by lia. cbn. now rewrite app_nil_r.
  - destruct (Z.leb_spec (toordinal current_date) (toordinal end_)) as [ Hle | Hlt ];
      [ | lia ].
    destruct (for_items _ _ _ _ _) as [ schedule' | ] eqn:Hfor; cbn [bind];
      [ | discriminate ].
    apply for_items_Ok in Hfor. subst schedule'.
    rewrite date_add_days.
    destruct (ordinal_ok _); cbn [bind]; [ | discriminate ].
    intro H. apply IH in H; [ | cbn [toordinal]; lia ].
    subst r. rewrite (date_range_cons current_date end_) by lia.
    cbn [flat_map]. now rewrite app_assoc.
Qed.

(** Away from the last representable day the loop returns. *)
Lemma while_loop_total (bucket : list ScheduleTemplateItem) (end_ : date) :
  Forall (fun item => valid_time (start item)) bucket ->
  toordinal end_ < _MAXORDINAL ->
  forall (n : nat) (current_date : date) (schedule : list ScheduleItem),
    Z.to_nat (toordinal end_ - toordinal current_date + 1) = n ->
    1 <= toordinal current_date ->
    while_loop bucket end_ current_date schedule =
    Ok (schedule ++ expand bucket current_date end_).
Proof.
  unfold expand. intros Hvalid Hend.
  induction n as [ | n IH ]; intros current_date schedule Hn Hcur;
    rewrite while_loop_step; unfold date_le.
  - destruct (Z.leb_spec (toordinal current_date) (toordinal end_)) as [ Hle | Hlt ];
      [ lia | ].
    rewrite date_range_nil by lia. cbn. now rewrite app_nil_r.
  - destruct (Z.leb_spec (toordinal current_date) (toordinal end_)) as [ Hle | Hlt ];
      [ | lia ].
    rewrite for_items_total by (auto; lia). cbn [bind].
    rewrite date_add_days.
    assert (Hok : ordinal_ok (toordinal current_date + 1) = true)
      by (apply ordinal_ok_iff; lia).
    rewrite Hok. cbn [bind].
    rewrite IH by (cbn [toordinal]; lia).
    rewrite (date_range_cons current_date end_) by lia.
    cbn [flat_map]. now rewrite app_assoc.
Qed.

Lemma dict_contains_get {V : Type} (key : str) (d : dict V) (v : V) :
  dict_get key d = Some v -> dict_contains key d = true.
Proof. unfold dict_contains. now intros ->. Qed.

Lemma calculate_schedule_indexed (self : ScheduleBook) (group : str)
    (start_ end_ : date) (bucket : list ScheduleTemplateItem) :
  dict_get group (_group_index self) = Some bucket ->
  calculate_schedule self group start_ end_ = while_loop bucket end_ start_ [].
Proof.
  intro H. unfold calculate_schedule.
  rewrite (dict_contains_get _ _ _ H), H. reflexivity.
Qed.

Lemma calculate_schedule_Ok (self : ScheduleBook) (group : str)
    (start_ end_ : date) (bucket : list ScheduleTemplateItem)
    (schedule : list ScheduleItem) :
  dict_get group (_group_index self) = Some bucket ->
  calculate_schedule self group start_ end_ = Ok schedule ->
  schedule = expand bucket start_ end_.
Proof.
  intros Hget. rewrite (calculate_schedule_indexed _ _ _ _ _ Hget).
  intro H. apply (while_loop_Ok _ _ _ _ _ _ eq_refl) in H. exact H.
Qed.

Lemma calculate_schedule_total (self : ScheduleBook) (group : str)
    (start_ end_ : date) (bucket : list ScheduleTemplateItem) :
  dict_get group (_group_index self) = Some bucket ->
  Forall (fun item => valid_time (start item)) bucket ->
  1 <= toordinal start_ ->
  toordinal end_ < _MAXORDINAL ->
  calculate_schedule self group start_ end_ = Ok (expand bucket start_ end_).
Proof.
  intros Hget Hvalid Hstart Hend.
  rewrite (calculate_schedule_indexed _ _ _ _ _ Hget).
  now rewrite (while_loop_total _ _ Hvalid Hend _ _ _ eq_refl Hstart).
Qed.

Lemma WeekParity_eqb_eq (a b : WeekParity) : WeekParity_eqb a b = true <-> a = b.
Proof. destruct a, b; simpl; split; congruence. Qed.

Lemma parity_of_cases (d : date) :
  parity_of d = if Z.odd (date_isoweek d) then ODD else EVEN.
Proof.
  unfold parity_of. rewrite Zmod_odd.
  destruct (Z.odd (date_isoweek d)); reflexivity.
Qed.

Lemma matches_parity_iff (d : date) (item : ScheduleTemplateItem) :
  matches_parity d item = true <->
  week_parity item = None \/ week_parity item = Some (parity_of d).
Proof.
  unfold matches_parity. destruct (week_parity item) as [ p | ].
  - rewrite WeekParity_eqb_eq. split.
    + intros ->. now right.
    + intros [ H | [= ->] ]; [ discriminate | reflexivity ].
  - split; auto.
Qed.

Lemma passes_dates_iff (d : date) (item : ScheduleTemplateItem) :
  passes_dates d item = true <->
  dates item = None \/ dates item = Some []
  \/ exists l, dates item = Some l /\ In d l.
Proof.
  unfold passes_dates. destruct (dates item) as [ [ | x l ] | ].
  - split; auto.
  - rewrite existsb_date_In. split.
    + intro H. right. right. exists (x :: l). auto.
    + intros [ H | [ H | (l' & [= <-] & H) ] ];
        [ discriminate | discriminate | exact H ].
  - split; auto.
Qed.

(** [occurs_on] spelled out: the three conditions, the third with the
    empty list passing. *)
Lemma occurs_on_iff (d : date) (item : ScheduleTemplateItem) :
  occurs_on d item = true <->
  weekday item = date_weekday d
  /\ (week_parity item = None \/ week_parity item = Some (parity_of d))
  /\ (dates item = None \/ dates item = Some []
      \/ exists l, dates item = Some l /\ In d l).
Proof.
  unfold occurs_on, matches_weekday.
  rewrite !andb_true_iff, Z.eqb_eq, matches_parity_iff, passes_dates_iff.
  tauto.
Qed.

Lemma In_expand (bucket : list ScheduleTemplateItem) (start_ end_ : date)
    (x : ScheduleItem) :
  In x (expand bucket start_ end_) <->
  exists d item,
    toordinal start_ <= toordinal d <= toordinal end_
    /\ In item bucket /\ occurs_on d item = true /\ x = occurrence d item.
Proof.
  unfold expand, day_occurrences. rewrite in_flat_map. split.
  - intros (d & Hd & Hx). apply in_map_iff in Hx.
    destruct Hx as (item & <- & Hitem). apply filter_In in Hitem.
    exists d, item. rewrite <- In_date_range. tauto.
  - intros (d & item & Hd & Hitem & Hocc & ->).
    exists d. rewrite In_date_range. split; [ exact Hd | ].
    apply in_map, filter_In. auto.
Qed.

Lemma on_date_occurrence (d d' : date) (item : ScheduleTemplateItem) :
  on_date d (occurrence d' item) = date_eqb d' d.
Proof. reflexivity. Qed.

Lemma filter_on_date_day (bucket : list ScheduleTemplateItem) (d d' : date) :
  filter (on_date d) (day_occurrences bucket d') =
  if date_eqb d' d then day_occurrences bucket d' else [].
Proof.
  unfold day_occurrences.
  induction (filter (occurs_on d') bucket) as [ | item rest IH ]; cbn [map filter].
  - now destruct (date_eqb d' d).
  - rewrite on_date_occurrence, IH. now destruct (date_eqb d' d).
Qed.

Lemma filter_on_date_days (bucket : list ScheduleTemplateItem) (d : date)
    (ds : list date) :
  NoDup ds ->
  filter (on_date d) (flat_map (day_occurrences bucket) ds) =
  if existsb (date_eqb d) ds then day_occurrences bucket d else [].
Proof.
  induction 1 as [ | d' ds Hnotin Hnodup IH ]; cbn [flat_map existsb];
    [ reflexivity | ].
  rewrite filter_app, filter_on_date_day, IH.
  destruct (date_eqb d' d) eqn:Heq.
  - apply date_eqb_eq in Heq. subst d'.
    assert (Hd : date_eqb d d = true) by now apply date_eqb_eq.
    rewrite Hd. cbn [orb].
    destruct (existsb (date_eqb d) ds) eqn:Hex.
    + apply existsb_date_In in Hex. contradiction.
    + apply app_nil_r.
  - assert (Hd : date_eqb d d' = false).
    { destruct (date_eqb d d') eqn:E; [ | reflexivity ].
      apply date_eqb_eq in E. subst d'.
      assert (date_eqb d d = true) by now apply date_eqb_eq. congruence. }
    rewrite Hd. reflexivity.
Qed.

Lemma NoDup_date_range (start_ end_ : date) : NoDup (date_range start_ end_).
Proof.
  unfold date_range. apply Injective_map_NoDup.
  - intros a b [= H]. lia.
  - apply seq_NoDup.
Qed.

(** The part of the expansion that falls on one day of the range. *)
Lemma filter_on_date_expand (bucket : list ScheduleTemplateItem)
    (start_ end_ d : date) :
  toordinal start_ <= toordinal d <= toordinal end_ ->
  filter (on_date d) (expand bucket start_ end_) = day_occurrences bucket d.
Proof.
  intro H. unfold expand.
  rewrite filter_on_date_days by apply NoDup_date_range.
  apply In_date_range, existsb_date_In in H. now rewrite H.
Qed.


(** Both loops keep [ends_after_90_minutes] of every item collected. *)
Lemma for_items_ends (d : date) (weekday' : Z) (week_parity' : WeekParity)
    (items : list ScheduleTemplateItem) :
  forall schedule r,
    Forall ends_after_90_minutes schedule ->
    for_items d weekday' week_parity' items schedule = Ok r ->
    Forall ends_after_90_minutes r.
Proof.
  induction items as [ | item rest IH ]; intros schedule r Hinv;
    cbn [for_items].
  - now intros [= <-].
  - unfold for_body.
    destruct (_ && _); cbn [bind]; [ | now apply IH ].
    destruct (_ && _); cbn [bind]; [ now apply IH | ].
    destruct (datetime_add _ _) as [ e | ] eqn:Hadd; cbn [bind];
      [ | discriminate ].
    apply IH. apply Forall_app. split; [ exact Hinv | ].
    constructor; [ exact Hadd | constructor ].
Qed.

Lemma while_loop_ends (bucket : list ScheduleTemplateItem) (end_ : date) :
  forall (n : nat) (current_date : date) (schedule r : list ScheduleItem),
    Z.to_nat (toordinal end_ - toordinal current_date + 1) = n ->
    Forall ends_after_90_minutes schedule ->
    while_loop bucket end_ current_date schedule = Ok r ->
    Forall ends_after_90_minutes r.
Proof.
  induction n as [ | n IH ]; intros current_date schedule r Hn Hinv;
    rewrite while_loop_step; unfold date_le;
    destruct (Z.leb_spec (toordinal current_date) (toordinal end_))
      as [ Hle | Hlt ]; try lia; try (now intros [= <-]).
  destruct (for_items _ _ _ _ _) as [ schedule' | ] eqn:Hfor; cbn [bind];
    [ | discriminate ].
  apply for_items_ends in Hfor; [ | exact Hinv ].
  rewrite date_add_days.
  destruct (ordinal_ok _); cbn [bind]; [ | discriminate ].
  apply IH; [ cbn [toordinal]; lia | exact Hfor ].
Qed.

Lemma dict_get_None_keys {V : Type} (key : str) (d : dict V) :
  dict_get key d = None <-> ~ In key (dict_keys d).
Proof.
  induction d as [ | [k v] d IH ]; cbn [dict_get dict_keys map fst In].
  - tauto.
  - destruct (str_eqb key k) eqn:E.
    + apply str_eqb_eq in E. subst k. split; [ discriminate | tauto ].
    + apply str_eqb_neq in E. rewrite IH. unfold dict_keys.
      split; [ intros H [ H' | H' ]; congruence | tauto ].
Qed.

(* ================================================================== *)
(** * Schedule resolution                                              *)
(* ================================================================== *)

(** C1 (amended).  For a group of the index whose items start at a
    time of day, as every [time] is, a first day that [date] can hold
    and a last day before 9999-12-31, [calculate_schedule] returns a schedule whose part on every day [d] of the range is one
    occurrence for each item of the group's bucket, in bucket order,
    that satisfies all three of: the item's weekday is [d]'s weekday;
    its parity is absent or is the parity of [d]'s ISO week number (odd
    number, [ODD]; even number, [EVEN]); its dates are absent, or an
    empty list, or contain [d]. *)
Theorem calculate_schedule_occurrences (self : ScheduleBook) (group : str)
    (start_ end_ : date) (bucket : list ScheduleTemplateItem) :
  dict_get group (_group_index self) = Some bucket ->
  Forall (fun item => valid_time (start item)) bucket ->
  1 <= toordinal start_ ->
  toordinal end_ < _MAXORDINAL ->
  exists schedule,
    calculate_schedule self group start_ end_ = Ok schedule
    /\ (forall d,
          toordinal start_ <= toordinal d <= toordinal end_ ->
          filter (on_date d) schedule =
          map (occurrence d) (filter (occurs_on d) bucket))
    /\ (forall x,
          In x schedule <->
          exists d item,
            toordinal start_ <= toordinal d <= toordinal end_
            /\ In item bucket /\ occurs_on d item = true
            /\ x = occurrence d item)
    /\ (forall d item,
          occurs_on d item = true <->
          weekday item = date_weekday d
          /\ (week_parity item = None
              \/ week_parity item
                 = Some (if Z.odd (date_isoweek d) then ODD else EVEN))
          /\ (dates item = None \/ dates item = Some []
              \/ exists l, dates item = Some l /\ In d l)).
Proof.
  intros Hget Hvalid Hstart Hend.
  exists (expand bucket start_ end_). split; [ | split; [ | split ] ].
  - now apply calculate_schedule_total.
  - intros d Hd. now apply filter_on_date_expand.
  - intro x. apply In_expand.
  - intros d item. rewrite <- parity_of_cases. apply occurs_on_iff.
Qed.

Lemma calculate_schedule_occurrences_witness :
  exists schedule,
    calculate_schedule test_book (u "GroupB")
                       (date_of_ymd 2024 10 7) (date_of_ymd 2024 10 11)
    = Ok schedule
    /\ filter (on_date (date_of_ymd 2024 10 11)) schedule
       = [occurrence (date_of_ymd 2024 10 11) chemistry].
Proof.
  destruct (calculate_schedule_occurrences test_book (u "GroupB")
              (date_of_ymd 2024 10 7) (date_of_ymd 2024 10 11)
              [math; chemistry])
    as (schedule & Hcalc & Hday & _).
  - reflexivity.
  - repeat constructor; vm_compute; congruence.
  - vm_compute. congruence.
  - reflexivity.
  - exists schedule. split; [ exact Hcalc | ].
    rewrite Hday; [ reflexivity | vm_compute; split; congruence ].
Defined.

(** With an empty list of dates the Monday seminar occurs on a Monday
    although its dates are neither absent nor contain that day; and for
    a range ending on 9999-12-31 nothing is returned, although the lab
    matches Monday 9999-12-27. *)
Lemma calculate_schedule_occurrences_counterexample :
  (calculate_schedule sample_book (u "GroupC")
                      (date_of_ymd 2024 10 7) (date_of_ymd 2024 10 7)
   = Ok [occurrence (date_of_ymd 2024 10 7) seminar]
   /\ spec_occurs_on (date_of_ymd 2024 10 7) seminar = false)
  /\ (calculate_schedule sample_book (u "GroupD")
                         (date_of_ymd 9999 12 27) date_max
      = Raise OverflowError
      /\ dict_get (u "GroupD") (_group_index sample_book) = Some late_first
      /\ Forall (fun item =>
                   spec_occurs_on (date_of_ymd 9999 12 27) item = true)
                late_first).
Proof.
  split; [ split; reflexivity | ].
  split; [ reflexivity | split; [ reflexivity | ] ].
  repeat constructor.
Qed.

(** C2.  Every item [calculate_schedule] returns starts at the matched
    day combined with the template item's time of day, and ends where
    adding ninety minutes to that start lands: its duration is ninety
    minutes. *)
Theorem calculate_schedule_times (self : ScheduleBook) (group : str)
    (start_ end_ : date) (schedule : list ScheduleItem) :
  calculate_schedule self group start_ end_ = Ok schedule ->
  forall x,
    In x schedule ->
    (exists bucket item d,
        dict_get group (_group_index self) = Some bucket
        /\ In item bucket
        /\ toordinal start_ <= toordinal d <= toordinal end_
        /\ occurs_on d item = true
        /\ item_slot x = slot item
        /\ item_name x = name item
        /\ item_start x = combine d (start item))
    /\ datetime_add (item_start x) (timedelta_minutes 90) = Ok (item_end x)
    /\ duration x = timedelta_minutes 90.
Proof.
  intros Hcalc x Hx.
  destruct (dict_get group (_group_index self)) as [ bucket | ] eqn:Hget.
  - pose proof (calculate_schedule_Ok _ _ _ _ _ _ Hget Hcalc) as Hexp.
    rewrite (calculate_schedule_indexed _ _ _ _ _ Hget) in Hcalc.
    apply (while_loop_ends _ _ _ _ _ _ eq_refl (Forall_nil _)) in Hcalc.
    rewrite Forall_forall in Hcalc. specialize (Hcalc x Hx).
    subst schedule. apply In_expand in Hx.
    destruct Hx as (d & item & Hd & Hitem & Hocc & ->).
    split; [ | split ].
    + exists bucket, item, d. repeat split; auto; apply Hd.
    + exact Hcalc.
    + unfold duration. cbn [occurrence item_end item_start].
      apply datetime_sub_plus.
  - unfold calculate_schedule, dict_contains in Hcalc. rewrite Hget in Hcalc.
    cbn in Hcalc. injection Hcalc as <-. destruct Hx.
Qed.

Lemma calculate_schedule_times_witness :
  calculate_schedule test_book (u "GroupA")
                     (date_of_ymd 2024 10 7) (date_of_ymd 2024 10 11)
  = Ok [occurrence (date_of_ymd 2024 10 7) math]
  /\ item_end (occurrence (date_of_ymd 2024 10 7) math)
     = combine (date_of_ymd 2024 10 7) (mktime 10 30 0 0)
  /\ datetime_add (item_start (occurrence (date_of_ymd 2024 10 7) math))
                  (timedelta_minutes 90)
     = Ok (item_end (occurrence (date_of_ymd 2024 10 7) math))
  /\ duration (occurrence (date_of_ymd 2024 10 7) math) = timedelta_minutes 90.
Proof.
  split; [ reflexivity | split; [ reflexivity | ] ].
  apply (calculate_schedule_times test_book (u "GroupA")
           (date_of_ymd 2024 10 7) (date_of_ymd 2024 10 11)
           [occurrence (date_of_ymd 2024 10 7) math]).
  - reflexivity.
  - left. reflexivity.
Defined.

(** C4.  For a group that is no key of the index, and for a range whose
    start is after its end, [calculate_schedule] returns the empty
    list; it does not raise. *)
Theorem calculate_schedule_empty (self : ScheduleBook) (group : str)
    (start_ end_ : date) :
  ~ In group (dict_keys (_group_index self))
  \/ toordinal end_ < toordinal start_ ->
  calculate_schedule self group start_ end_ = Ok [].
Proof.
  intros [ Hgroup | Hrange ].
  - apply dict_get_None_keys in Hgroup.
    unfold calculate_schedule, dict_contains. now rewrite Hgroup.
  - unfold calculate_schedule, dict_contains.
    destruct (dict_get group (_group_index self)) as [ bucket | ];
      [ | reflexivity ].
    cbn [negb]. rewrite while_loop_step. unfold date_le.
    destruct (Z.leb_spec (toordinal start_) (toordinal end_)); [ lia | ].
    reflexivity.
Qed.

Lemma calculate_schedule_empty_witness :
  calculate_schedule test_book (u "NonexistentGroup")
                     (date_of_ymd 2024 10 7) (date_of_ymd 2024 10 11) = Ok []
  /\ calculate_schedule test_book (u "GroupA")
                        (date_of_ymd 2024 10 11) (date_of_ymd 2024 10 7) = Ok [].
Proof.
  split; apply calculate_schedule_empty.
  - left. vm_compute. intuition discriminate.
  - right. vm_compute. reflexivity.
Defined.

(* ================================================================== *)
(** * The order of the schedule and of the buckets                     *)
(* ================================================================== *)

Lemma StronglySorted_app {A : Type} (R : A -> A -> Prop) (l1 l2 : list A) :
  StronglySorted R l1 ->
  StronglySorted R l2 ->
  (forall x y, In x l1 -> In y l2 -> R x y) ->
  StronglySorted R (l1 ++ l2).
Proof.
  intros H1 H2 Hcross.
  induction H1 as [ | a l1 Hsorted IH Hall ]; cbn [app]; [ exact H2 | ].
  constructor.
  - apply IH. intros x y Hx Hy. apply Hcross; [ now right | exact Hy ].
  - apply Forall_app. split; [ exact Hall | ].
    apply Forall_forall. intros y Hy. apply Hcross; [ now left | exact Hy ].
Qed.

Lemma StronglySorted_map_seq {A : Type} (R : A -> A -> Prop) (f : nat -> A) :
  (forall i j, (i <= j)%nat -> R (f i) (f j)) ->
  forall n a, StronglySorted R (map f (seq a n)).
Proof.
  intros Hmono. induction n as [ | n IH ]; intro a; cbn [seq map].
  - constructor.
  - constructor; [ apply IH | ].
    apply Forall_forall. intros y Hy. apply in_map_iff in Hy.
    destruct Hy as (k & <- & Hk). apply in_seq in Hk. apply Hmono. lia.
Qed.

Lemma date_range_ascending (start_ end_ : date) :
  StronglySorted (fun a b => toordinal a <= toordinal b)
                 (date_range start_ end_).
Proof.
  unfold date_range. apply StronglySorted_map_seq.
  intros i j Hij. cbn [toordinal]. lia.
Qed.

Lemma day_occurrences_date (bucket : list ScheduleTemplateItem) (d : date)
    (x : ScheduleItem) :
  In x (day_occurrences bucket d) -> dt_date (item_start x) = d.
Proof.
  unfold day_occurrences. rewrite in_map_iff.
  intros (item & <- & _). reflexivity.
Qed.

Lemma day_occurrences_sorted (bucket : list ScheduleTemplateItem) (d : date) :
  StronglySorted date_ascending (day_occurrences bucket d).
Proof.
  assert (Hall : forall l,
             Forall (fun x => dt_date (item_start x) = d) l ->
             StronglySorted date_ascending l).
  { induction 1 as [ | x l Hx Hl IH ]; constructor; [ exact IH | ].
    apply Forall_forall. intros y Hy.
    rewrite Forall_forall in Hl. unfold date_ascending.
    rewrite Hx, (Hl y Hy). lia. }
  apply Hall, Forall_forall. intro x. apply day_occurrences_date.
Qed.

Lemma flat_map_days_sorted (bucket : list ScheduleTemplateItem)
    (ds : list date) :
  StronglySorted (fun a b => toordinal a <= toordinal b) ds ->
  StronglySorted date_ascending (flat_map (day_occurrences bucket) ds).
Proof.
  induction 1 as [ | d ds Hsorted IH Hall ]; cbn [flat_map];
    [ constructor | ].
  apply StronglySorted_app;
    [ apply day_occurrences_sorted | exact IH | ].
  intros x y Hx Hy. apply day_occurrences_date in Hx.
  apply in_flat_map in Hy. destruct Hy as (d' & Hd' & Hy).
  apply day_occurrences_date in Hy.
  rewrite Forall_forall in Hall. unfold date_ascending.
  rewrite Hx, Hy. now apply Hall.
Qed.

Lemma expand_sorted (bucket : list ScheduleTemplateItem) (start_ end_ : date) :
  StronglySorted date_ascending (expand bucket start_ end_).
Proof. apply flat_map_days_sorted, date_range_ascending. Qed.

Lemma dict_get_set_same {V : Type} (key : str) (v : V) (d : dict V) :
  dict_get key (dict_set key v d) = Some v.
Proof.
  induction d as [ | [k w] d IH ]; cbn [dict_set dict_get].
  - now rewrite str_eqb_refl.
  - destruct (str_eqb key k) eqn:E; cbn [dict_get]; rewrite E;
      [ reflexivity | exact IH ].
Qed.

Lemma dict_get_set_other {V : Type} (key key' : str) (v : V) (d : dict V) :
  str_eqb key key' = false ->
  dict_get key (dict_set key' v d) = dict_get key d.
Proof.
  intro Hne. induction d as [ | [k w] d IH ]; cbn [dict_set dict_get].
  - now rewrite Hne.
  - destruct (str_eqb key' k) eqn:E; cbn [dict_get].
    + apply str_eqb_eq in E. subst k. now rewrite Hne.
    + now rewrite IH.
Qed.

Lemma index_append_get (index : dict (list ScheduleTemplateItem))
    (item : ScheduleTemplateItem) (group group' : str) :
  dict_get group (index_append index item group') =
  if str_eqb group group'
  then bucket_extend (dict_get group index) [item]
  else dict_get group index.
Proof.
  unfold index_append, dict_contains.
  destruct (str_eqb group group') eqn:E.
  - apply str_eqb_eq in E. subst group'.
    destruct (dict_get group index) as [ b | ] eqn:Hget; cbn [negb].
    + rewrite Hget. apply dict_get_set_same.
    + rewrite dict_get_set_same. cbn [app bucket_extend].
      apply dict_get_set_same.
  - assert (E' : forall (v : list ScheduleTemplateItem) d,
               dict_get group (dict_set group' v d) = dict_get group d)
      by (intros; now apply dict_get_set_other).
    destruct (dict_get group' index) as [ b | ] eqn:Hget; cbn [negb].
    + rewrite Hget. apply E'.
    + rewrite dict_get_set_same. now rewrite !E'.
Qed.

Lemma bucket_extend_app (bucket : option (list ScheduleTemplateItem))
    (l1 l2 : list ScheduleTemplateItem) :
  bucket_extend (bucket_extend bucket l1) l2 = bucket_extend bucket (l1 ++ l2).
Proof.
  destruct bucket as [ b | ]; cbn [bucket_extend].
  - now rewrite app_assoc.
  - destruct l1 as [ | x l1 ]; cbn [bucket_extend app]; reflexivity.
Qed.

Lemma bucket_extend_nil (bucket : option (list ScheduleTemplateItem)) :
  bucket_extend bucket [] = bucket.
Proof.
  destruct bucket as [ b | ]; cbn [bucket_extend]; [ | reflexivity ].
  now rewrite app_nil_r.
Qed.

Lemma fold_groups_get (item : ScheduleTemplateItem) (group : str)
    (gs : list str) :
  forall index,
    dict_get group
      (fold_left (fun index group' => index_append index item group') gs index)
    = bucket_extend (dict_get group index)
        (map (fun _ => item) (filter (str_eqb group) gs)).
Proof.
  induction gs as [ | g gs IH ]; intro index; cbn [fold_left filter map].
  - now rewrite bucket_extend_nil.
  - rewrite IH, index_append_get.
    destruct (str_eqb group g); [ | reflexivity ].
    cbn [map]. now rewrite bucket_extend_app.
Qed.

(** The bucket of a group after [add_template]: what it held before,
    then the template's items that name the group, in template order. *)
Lemma add_template_bucket (self : ScheduleBook)
    (template : list ScheduleTemplateItem) (group : str) :
  dict_get group (_group_index (add_template self template)) =
  bucket_extend (dict_get group (_group_index self)) (bucket_of group template).
Proof.
  unfold add_template, bucket_of. cbn [_group_index].
  generalize (_group_index self) as index.
  induction template as [ | item rest IH ]; intro index;
    cbn [fold_left flat_map].
  - now rewrite bucket_extend_nil.
  - rewrite IH, fold_groups_get. apply bucket_extend_app.
Qed.

(** C6.  What [calculate_schedule] returns lists the days of the range
    in ascending order and, within a day, the occurrences in the order
    of the group's bucket; the bucket holds the items in the order
    [add_template] received them; no sorting by slot or by start time
    takes place: a lab loaded first stays in front of an earlier
    lecture of the same day. *)
Theorem calculate_schedule_order :
  (forall (self : ScheduleBook) (group : str) (start_ end_ : date)
          (bucket : list ScheduleTemplateItem) (schedule : list ScheduleItem),
      dict_get group (_group_index self) = Some bucket ->
      calculate_schedule self group start_ end_ = Ok schedule ->
      schedule =
      flat_map (fun d => map (occurrence d) (filter (occurs_on d) bucket))
               (date_range start_ end_)
      /\ StronglySorted date_ascending schedule)
  /\ (forall (self : ScheduleBook) (template : list ScheduleTemplateItem)
             (group : str),
         dict_get group (_group_index (add_template self template)) =
         bucket_extend (dict_get group (_group_index self))
                       (bucket_of group template))
  /\ (calculate_schedule sample_book (u "GroupD")
                         (date_of_ymd 2024 10 7) (date_of_ymd 2024 10 7)
      = Ok [occurrence (date_of_ymd 2024 10 7) lab;
            occurrence (date_of_ymd 2024 10 7) lecture]
      /\ slot lecture < slot lab
      /\ hour (start lecture) < hour (start lab)).
Proof.
  split; [ | split ].
  - intros self group start_ end_ bucket schedule Hget Hcalc.
    apply (calculate_schedule_Ok _ _ _ _ _ _ Hget) in Hcalc. subst schedule.
    split; [ reflexivity | apply expand_sorted ].
  - apply add_template_bucket.
  - split; [ reflexivity | ]. split; reflexivity.
Qed.

Lemma calculate_schedule_order_witness :
  calculate_schedule test_book (u "GroupB")
                     (date_of_ymd 2024 10 7) (date_of_ymd 2024 10 11)
  = Ok [occurrence (date_of_ymd 2024 10 7) math;
        occurrence (date_of_ymd 2024 10 11) chemistry]
  /\ StronglySorted date_ascending
       [occurrence (date_of_ymd 2024 10 7) math;
        occurrence (date_of_ymd 2024 10 11) chemistry].
Proof.
  split; [ reflexivity | ].
  apply (proj1 calculate_schedule_order test_book (u "GroupB")
           (date_of_ymd 2024 10 7) (date_of_ymd 2024 10 11)
           [math; chemistry]).
  - reflexivity.
  - reflexivity.
Defined.

(* ================================================================== *)
(** * An empty list of dates                                           *)
(* ================================================================== *)












(* ================================================================== *)
(** * The date-range resolver                                          *)
(* ================================================================== *)

(** What [get_date_range] answers to each member of the enumeration. *)
Lemma get_date_range_member (clock : date) (r : DateRangeRequest)
    (anchor : date) :
  get_date_range clock (Member r) (Some anchor) =
  match r with
  | TODAY => Ok (anchor, anchor)
  | YESTERDAY => window (toordinal anchor - 1) (toordinal anchor - 1)
  | TOMORROW => window (toordinal anchor + 1) (toordinal anchor + 1)
  | CURRENT_WEEK => window (monday_of anchor) (monday_of anchor + 6)
  | LAST_WEEK => window (monday_of anchor - 7) (monday_of anchor - 1)
  | NEXT_WEEK => window (monday_of anchor + 7) (monday_of anchor + 13)
  end.
Proof.
  unfold get_date_range, window, monday_of.
  destruct r; cbn [request_eq DateRangeRequest_eqb];
    rewrite ?date_sub_days, ?date_add_days; try reflexivity.
  - destruct (ordinal_ok (toordinal anchor - 1)); reflexivity.
  - destruct (ordinal_ok (toordinal anchor + 1)); reflexivity.
  - destruct (ordinal_ok (toordinal anchor - date_weekday anchor));
      cbn [bind andb]; [ | reflexivity ].
    rewrite date_add_days. cbn [toordinal].
    destruct (ordinal_ok _); reflexivity.
  - replace (toordinal anchor - (date_weekday anchor + 7))
      with (toordinal anchor - date_weekday anchor - 7) by lia.
    destruct (ordinal_ok (toordinal anchor - date_weekday anchor - 7));
      cbn [bind andb]; [ | reflexivity ].
    rewrite date_add_days. cbn [toordinal].
    replace (toordinal anchor - date_weekday anchor - 7 + 6)
      with (toordinal anchor - date_weekday anchor - 1) by lia.
    destruct (ordinal_ok _); reflexivity.
  - replace (toordinal anchor - (date_weekday anchor - 7))
      with (toordinal anchor - date_weekday anchor + 7) by lia.
    destruct (ordinal_ok (toordinal anchor - date_weekday anchor + 7));
      cbn [bind andb]; [ | reflexivity ].
    rewrite date_add_days. cbn [toordinal].
    replace (toordinal anchor - date_weekday anchor + 7 + 6)
      with (toordinal anchor - date_weekday anchor + 13) by lia.
    destruct (ordinal_ok _); reflexivity.
Qed.

Lemma get_date_range_default (clock : date) (request : request_value) :
  get_date_range clock request None = get_date_range clock request (Some clock).
Proof. reflexivity. Qed.

Lemma monday_of_weekday (d : date) : date_weekday (mkdate (monday_of d)) = 0.
Proof.
  unfold monday_of, date_weekday. cbn [toordinal].
  replace (toordinal d - (toordinal d + 6) mod 7 + 6)
    with (toordinal d + 6 - (toordinal d + 6) mod 7) by lia.
  rewrite Zminus_mod, Z.mod_mod, Z.sub_diag by lia. reflexivity.
Qed.

Lemma window_Ok (s e : Z) :
  1 <= s -> s <= e -> e <= _MAXORDINAL ->
  window s e = Ok (mkdate s, mkdate e).
Proof.
  intros H1 H2 H3. unfold window.
  assert (Hs : ordinal_ok s = true) by (apply ordinal_ok_iff; lia).
  assert (He : ordinal_ok e = true) by (apply ordinal_ok_iff; lia).
  now rewrite Hs, He.
Qed.

(** C3 (amended).  With [monday_of anchor] the anchor less its weekday
    number of days, a Monday: TODAY gives (anchor, anchor); YESTERDAY,
    TOMORROW, CURRENT_WEEK, LAST_WEEK and NEXT_WEEK give the day
    before, the day after, Monday to Monday + 6, the seven days before
    that Monday and the seven days after that week, whenever [date] can
    hold both ends, and raise [OverflowError] otherwise.  With anchor
    2024-10-03 the three weeks are 2024-09-30 to 2024-10-06, 2024-09-23
    to 2024-09-29 and 2024-10-07 to 2024-10-13. *)
Theorem get_date_range_windows :
  (forall clock anchor : date,
      get_date_range clock (Member TODAY) (Some anchor) = Ok (anchor, anchor)
      /\ get_date_range clock (Member YESTERDAY) (Some anchor)
         = window (toordinal anchor - 1) (toordinal anchor - 1)
      /\ get_date_range clock (Member TOMORROW) (Some anchor)
         = window (toordinal anchor + 1) (toordinal anchor + 1)
      /\ get_date_range clock (Member CURRENT_WEEK) (Some anchor)
         = window (monday_of anchor) (monday_of anchor + 6)
      /\ get_date_range clock (Member LAST_WEEK) (Some anchor)
         = window (monday_of anchor - 7) (monday_of anchor - 1)
      /\ get_date_range clock (Member NEXT_WEEK) (Some anchor)
         = window (monday_of anchor + 7) (monday_of anchor + 13)
      /\ date_weekday (mkdate (monday_of anchor)) = 0)
  /\ (forall s e : Z,
         window s e =
         if ordinal_ok s && ordinal_ok e then Ok (mkdate s, mkdate e)
         else Raise OverflowError)
  /\ (forall clock : date,
         get_date_range clock (Member CURRENT_WEEK) (Some (date_of_ymd 2024 10 3))
         = Ok (date_of_ymd 2024 9 30, date_of_ymd 2024 10 6)
         /\ get_date_range clock (Member LAST_WEEK) (Some (date_of_ymd 2024 10 3))
            = Ok (date_of_ymd 2024 9 23, date_of_ymd 2024 9 29)
         /\ get_date_range clock (Member NEXT_WEEK) (Some (date_of_ymd 2024 10 3))
            = Ok (date_of_ymd 2024 10 7, date_of_ymd 2024 10 13)).
Proof.
  split; [ | split ].
  - intros clock anchor.
    repeat split; try apply get_date_range_member. apply monday_of_weekday.
  - reflexivity.
  - intro clock. rewrite !get_date_range_member. repeat split; reflexivity.
Qed.

(** On 0001-01-01 there is no day before to return. *)
Lemma get_date_range_windows_counterexample :
  valid_date date_min
  /\ get_date_range (date_of_ymd 2024 10 3) (Member YESTERDAY) (Some date_min)
     = Raise OverflowError.
Proof. split; [ vm_compute; split; congruence | reflexivity ]. Qed.




(* ================================================================== *)
(** * Group search                                                     *)
(* ================================================================== *)

Lemma char_in_iff (c : char) (s : str) : char_in c s = true <-> In c s.
Proof.
  unfold char_in. rewrite existsb_exists. split.
  - intros (x & Hx & Heq). apply Z.eqb_eq in Heq. now subst x.
  - intro H. exists c. split; [ exact H | apply Z.eqb_refl ].
Qed.

(** No escaped character is an ASCII letter or digit. *)
Lemma special_not_alnum (c : char) :
  char_in c _special_chars = true -> is_ascii_alnum c = false.
Proof.
  rewrite char_in_iff. intro H. vm_compute in H.
  repeat (destruct H as [ <- | H ]; [ reflexivity | ]). destruct H.
Qed.

(** Every character with a meaning in the pattern syntax is escaped. *)
Lemma syntax_special_escaped (c : char) :
  char_in c SPECIAL_CHARS = true -> char_in c _special_chars = true.
Proof.
  rewrite (char_in_iff c SPECIAL_CHARS). intro H. vm_compute in H.
  repeat (destruct H as [ <- | H ]; [ reflexivity | ]). destruct H.
Qed.

Lemma sre_parse_backslash (c : char) (rest : str) :
  sre_parse (92 :: c :: rest) =
  if is_ascii_alnum c then None
  else option_map (cons (LITERAL c)) (sre_parse rest).
Proof. reflexivity. Qed.

Lemma sre_parse_plain (c : char) (rest : str) :
  char_in c _special_chars = false ->
  sre_parse (c :: rest) = option_map (cons (LITERAL c)) (sre_parse rest).
Proof.
  intro H. cbn [sre_parse].
  assert (Hbackslash : (c =? 92) = false).
  { destruct (c =? 92) eqn:E; [ | reflexivity ].
    apply Z.eqb_eq in E. subst c. discriminate H. }
  assert (Hsyntax : char_in c SPECIAL_CHARS = false).
  { destruct (char_in c SPECIAL_CHARS) eqn:E; [ | reflexivity ].
    apply syntax_special_escaped in E. congruence. }
  now rewrite Hbackslash, Hsyntax.
Qed.

(** An escaped pattern parses to its own characters, each a literal. *)
Lemma sre_parse_escape (pattern : str) :
  sre_parse (re_escape pattern) = Some (map LITERAL pattern).
Proof.
  unfold re_escape.
  induction pattern as [ | c pattern IH ]; cbn [flat_map map];
    [ reflexivity | ].
  destruct (char_in c _special_chars) eqn:Hspecial; cbn [app].
  - rewrite sre_parse_backslash, (special_not_alnum _ Hspecial), IH.
    reflexivity.
  - rewrite (sre_parse_plain _ _ Hspecial), IH. reflexivity.
Qed.

Section SearchFacts.

Variable char_ieq : char -> char -> bool.

Lemma match_here_literals (pattern s : str) :
  match_here char_ieq true (map LITERAL pattern) s = true <->
  exists run after,
    s = run ++ after
    /\ Forall2 (fun p c => char_ieq p c = true) pattern run.
Proof.
  revert s. induction pattern as [ | p pattern IH ]; intro s;
    cbn [map match_here].
  - split; [ intros _; exists [], s; split; [ reflexivity | constructor ]
           | reflexivity ].
  - destruct s as [ | c s ].
    + split; [ discriminate | ].
      intros (run & after & Hs & Hrun). inversion Hrun; subst. discriminate.
    + cbn [match_op]. rewrite andb_true_iff, IH. split.
      * intros (Hpc & run & after & -> & Hrun).
        exists (c :: run), after. split; [ reflexivity | now constructor ].
      * intros (run & after & Hs & Hrun).
        inversion Hrun as [ | p' c' pattern' run' Hpc Hrest ]; subst.
        injection Hs as -> ->. split; [ exact Hpc | ].
        exists run', after. split; [ reflexivity | exact Hrest ].
Qed.

Lemma regex_search_literals (pattern s : str) :
  regex_search char_ieq
    {| code := map LITERAL pattern; ignorecase := true |} s = true
  <-> icontains char_ieq pattern s.
Proof.
  unfold icontains.
  induction s as [ | c s IH ]; cbn [regex_search code ignorecase];
    rewrite orb_true_iff, match_here_literals.
  - split.
    + intros [ (run & after & Hs & Hrun) | H ]; [ | discriminate ].
      exists [], run, after. split; [ exact Hs | exact Hrun ].
    + intros (before & run & after & Hs & Hrun). left.
      destruct before; [ | discriminate ].
      exists run, after. split; [ exact Hs | exact Hrun ].
  - rewrite IH. split.
    + intros [ (run & after & Hs & Hrun)
             | (before & run & after & -> & Hrun) ].
      * exists [], run, after. split; [ exact Hs | exact Hrun ].
      * exists (c :: before), run, after.
        split; [ reflexivity | exact Hrun ].
    + intros (before & run & after & Hs & Hrun).
      destruct before as [ | b before ]; cbn [app] in Hs.
      * left. exists run, after. split; [ exact Hs | exact Hrun ].
      * right. injection Hs as -> ->.
        exists before, run, after. split; [ reflexivity | exact Hrun ].
Qed.

Lemma find_groups_eq (self : ScheduleBook) (pattern : str) :
  find_groups char_ieq self pattern =
  Some (filter (regex_search char_ieq
                  {| code := map LITERAL pattern; ignorecase := true |})
               (dict_keys (_group_index self))).
Proof.
  unfold find_groups, re_compile. rewrite sre_parse_escape. reflexivity.
Qed.

End SearchFacts.

(** C5.  Whatever relation compares one character with another when
    case is ignored, [find_groups] returns, without an error, the keys
    of the index, in index order, that contain the pattern as a run of
    characters compared one by one: the escaped pattern parses to its
    own characters as literals, so that no character of the pattern
    acts as pattern syntax; when no key contains the pattern the result
    is empty. *)
Theorem find_groups_literal (char_ieq : char -> char -> bool)
    (self : ScheduleBook) (pattern : str) :
  exists found,
    find_groups char_ieq self pattern = Some found
    /\ (exists keep,
           found = filter keep (dict_keys (_group_index self))
           /\ forall g, keep g = true <-> icontains char_ieq pattern g)
    /\ (forall g,
           In g found <->
           In g (dict_keys (_group_index self))
           /\ icontains char_ieq pattern g)
    /\ ((forall g,
            In g (dict_keys (_group_index self)) ->
            ~ icontains char_ieq pattern g) ->
        found = [])
    /\ sre_parse (re_escape pattern) = Some (map LITERAL pattern).
Proof.
  eexists. split; [ apply find_groups_eq | ].
  split; [ | split; [ | split ] ].
  - eexists. split; [ reflexivity | ].
    intro g. apply regex_search_literals.
  - intro g. rewrite filter_In, regex_search_literals. reflexivity.
  - intro Hnone.
    induction (dict_keys (_group_index self)) as [ | g keys IH ];
      cbn [filter]; [ reflexivity | ].
    destruct (regex_search _ _ g) eqn:Hsearch.
    + apply regex_search_literals in Hsearch.
      exfalso. apply (Hnone g); [ now left | exact Hsearch ].
    + apply IH. intros g' Hg'. apply Hnone. now right.
  - apply sre_parse_escape.
Qed.

Lemma find_groups_literal_witness :
  (exists found,
      find_groups sample_ieq test_book (u "oupa") = Some found
      /\ In (u "GroupA") found)
  /\ find_groups sample_ieq test_book (u "oupa") = Some [u "GroupA"]
  /\ find_groups sample_ieq test_book (u "group")
     = Some [u "GroupA"; u "GroupB"]
  /\ find_groups sample_ieq test_book (u "Gr.upA") = Some []
  /\ find_groups sample_ieq test_book (u "GroupC") = Some [].
Proof.
  split; [ | repeat split; reflexivity ].
  destruct (find_groups_literal sample_ieq test_book (u "oupa"))
    as (found & Hfound & _ & Hin & _).
  exists found. split; [ exact Hfound | ].
  apply Hin. split.
  - vm_compute. auto.
  - exists (u "Gr"), (u "oupA"), []. split; [ reflexivity | ].
    repeat constructor.
Defined.

(* ================================================================== *)
(** * The weekday parser                                               *)
(* ================================================================== *)

(** [split(' ')] never answers an empty list, and its first piece is
    the part of the string in front of the first space. *)
Lemma str_split_first (s : str) :
  exists pieces, str_split 32 s = first_token s :: pieces.
Proof.
  induction s as [ | c s (pieces & IH) ]; cbn [str_split first_token].
  - now exists [].
  - destruct (c =? 32).
    + now exists (str_split 32 s).
    + rewrite IH. now exists pieces.
Qed.

Lemma first_token_prefix (s : str) :
  exists rest,
    s = first_token s ++ rest
    /\ ~ In 32 (first_token s)
    /\ (rest = [] \/ exists rest', rest = 32 :: rest').
Proof.
  induction s as [ | c s (rest & Hs & Hnotin & Hrest) ]; cbn [first_token].
  - exists []. split; [ reflexivity | split; [ auto | now left ] ].
  - destruct (c =? 32) eqn:E.
    + apply Z.eqb_eq in E. subst c. exists (32 :: s).
      split; [ reflexivity | split; [ auto | right; now exists s ] ].
    + apply Z.eqb_neq in E. exists rest.
      split; [ cbn [app]; now rewrite <- Hs | ].
      split; [ | exact Hrest ].
      intros [ H | H ]; [ congruence | contradiction ].
Qed.

Lemma strip_quotes_filter (s : str) :
  strip_quotes s = filter (fun c => negb ((c =? 39) || (c =? 34))) s.
Proof.
  unfold strip_quotes, str_remove.
  induction s as [ | c s IH ]; cbn [filter]; [ reflexivity | ].
  destruct (c =? 39); cbn [negb orb filter]; [ exact IH | ].
  destruct (c =? 34); cbn [negb]; [ exact IH | now rewrite IH ].
Qed.

Lemma dict_get_value {V : Type} (key : str) (d : dict V) (v : V) :
  dict_get key d = Some v -> In v (map snd d).
Proof.
  induction d as [ | [k w] d IH ]; cbn [dict_get map snd]; [ discriminate | ].
  destruct (str_eqb key k); [ intros [= <-]; now left | right; auto ].
Qed.

Lemma weekday_names_range (token : str) (k : Z) :
  dict_get token weekday_names = Some k -> 0 <= k <= 6.
Proof.
  intro H. apply dict_get_value in H. vm_compute in H.
  repeat (destruct H as [ <- | H ]; [ lia | ]). destruct H.
Qed.

Section ParseWeekdayFacts.

Variable str_lower : str -> str.

Lemma parse_weekday_str (s : str) :
  parse_weekday str_lower (PyStr s) =
  Ok (dict_get_default (normalized_token str_lower s) 0 weekday_names).
Proof.
  unfold parse_weekday, normalized_token, strip_quotes.
  destruct (str_split_first (str_lower s)) as (pieces & ->). reflexivity.
Qed.

End ParseWeekdayFacts.

(** C8 (amended).  Whatever [str.lower] is: given a string,
    [parse_weekday] looks up the part of the lowercased input in front
    of its first space (U+0020; no other whitespace ends it, and it is
    empty when the input starts with a space), with apostrophes and
    double quotes removed, and returns the number, from 0 to 6, of the weekday so
    named; given an integer it returns the integer modulo 7, from 0 to
    6 also for a negative one; given any other value it raises
    [TypeError]. *)
Theorem parse_weekday_contract (str_lower : str -> str) :
  (forall s,
      parse_weekday str_lower (PyStr s) =
      Ok (dict_get_default (strip_quotes (first_token (str_lower s))) 0
                           weekday_names))
  /\ (forall s k,
         dict_get (strip_quotes (first_token (str_lower s))) weekday_names
         = Some k ->
         parse_weekday str_lower (PyStr s) = Ok k /\ 0 <= k <= 6)
  /\ (forall s,
         exists rest,
           s = first_token s ++ rest
           /\ ~ In 32 (first_token s)
           /\ (rest = [] \/ exists rest', rest = 32 :: rest'))
  /\ (forall s,
         strip_quotes s = filter (fun c => negb ((c =? 39) || (c =? 34))) s)
  /\ (forall n,
         parse_weekday str_lower (PyInt n) = Ok (n mod 7) /\ 0 <= n mod 7 <= 6)
  /\ (forall b,
         parse_weekday str_lower (PyBool b) = Ok (if b then 1 else 0))
  /\ parse_weekday str_lower PyNone = Raise TypeError
  /\ (forall t, parse_weekday str_lower (PyObject t) = Raise TypeError).
Proof.
  repeat split.
  - apply parse_weekday_str.
  - rewrite parse_weekday_str. unfold dict_get_default, normalized_token.
    now rewrite H.
  - apply (weekday_names_range _ _ H).
  - apply (weekday_names_range _ _ H).
  - apply first_token_prefix.
  - apply strip_quotes_filter.
  - apply Z.mod_pos_bound. lia.
  - pose proof (Z.mod_pos_bound n 7 ltac:(lia)). lia.
  - now destruct b.
Qed.

Lemma parse_weekday_contract_witness :
  parse_weekday sample_lower (PyStr (u "Вівторок (чисельник)")) = Ok 1
  /\ 0 <= 1 <= 6.
Proof.
  apply (proj1 (proj2 (parse_weekday_contract sample_lower))).
  reflexivity.
Defined.

(** A tab is whitespace and does not end the token: the first
    whitespace-delimited token of the input names Tuesday, number 1,
    and the parser answers 0. *)
Lemma parse_weekday_contract_counterexample :
  spec_normalized_token sample_lower (u "вівторок" ++ [9] ++ u "ранок")
  = u "вівторок"
  /\ dict_get (u "вівторок") weekday_names = Some 1
  /\ parse_weekday sample_lower (PyStr (u "вівторок" ++ [9] ++ u "ранок"))
     = Ok 0.
Proof. repeat split; reflexivity. Qed.

Lemma until_whitespace_first_token (s : str) :
  Forall (fun c => is_whitespace c = false) (first_token s) ->
  until_whitespace s = first_token s.
Proof.
  induction s as [ | c s IH ]; cbn [first_token until_whitespace];
    [ reflexivity | ].
  destruct (c =? 32) eqn:E.
  - apply Z.eqb_eq in E. subst c. reflexivity.
  - intro H. inversion H as [ | c' l Hc Hl ]; subst.
    rewrite Hc. f_equal. now apply IH.
Qed.

Lemma spec_first_token_first_token (s : str) :
  Forall (fun c => is_whitespace c = false) (first_token s) ->
  first_token s <> [] ->
  spec_first_token s = first_token s.
Proof.
  intros Hall Hne. unfold spec_first_token.
  destruct s as [ | c s ]; [ reflexivity | ].
  assert (Hskip : skip_whitespace (c :: s) = c :: s).
  { cbn [first_token] in Hall, Hne. cbn [skip_whitespace].
    destruct (c =? 32); [ congruence | ].
    inversion Hall as [ | c' l Hc Hl ]; subst. now rewrite Hc. }
  rewrite Hskip. now apply until_whitespace_first_token.
Qed.

Lemma In_strip_quotes (c : char) (s : str) :
  In c s -> c = 39 \/ c = 34 \/ In c (strip_quotes s).
Proof.
  intro H. rewrite strip_quotes_filter, filter_In.
  destruct (c =? 39) eqn:E1; [ apply Z.eqb_eq in E1; auto | ].
  destruct (c =? 34) eqn:E2; [ apply Z.eqb_eq in E2; auto | ].
  right. right. split; [ exact H | reflexivity ].
Qed.

(** A token that strips to a weekday name holds no whitespace and is
    not empty. *)
Lemma recognized_token_shape (token : str) :
  In (strip_quotes token) (dict_keys weekday_names) ->
  Forall (fun c => is_whitespace c = false) token /\ token <> [].
Proof.
  intro Hname.
  assert (Hnames : forall n c,
             In n (dict_keys weekday_names) -> In c n ->
             is_whitespace c = false).
  { intros n c Hn Hc. vm_compute in Hn.
    repeat (destruct Hn as [ <- | Hn ];
            [ vm_compute in Hc;
              repeat (destruct Hc as [ <- | Hc ]; [ reflexivity | ]);
              destruct Hc | ]).
    destruct Hn. }
  split.
  - apply Forall_forall. intros c Hc.
    destruct (In_strip_quotes _ _ Hc) as [ -> | [ -> | Hin ] ];
      [ reflexivity | reflexivity | ].
    exact (Hnames _ _ Hname Hin).
  - intros ->. vm_compute in Hname.
    repeat (destruct Hname as [ Hname | Hname ]; [ discriminate | ]).
    destruct Hname.
Qed.

(** C10.  Whatever [str.lower] is: for a string whose normalized first
    token is none of the seven weekday names, with the token ended by
    the first space as the parser has it or by the first whitespace as
    the specification words it, [parse_weekday] returns 0 and does not
    raise; 0 is the number of Monday. *)
Theorem parse_weekday_unrecognized (str_lower : str -> str) (s : str) :
  ~ In (normalized_token str_lower s) (dict_keys weekday_names)
  \/ ~ In (spec_normalized_token str_lower s) (dict_keys weekday_names) ->
  parse_weekday str_lower (PyStr s) = Ok 0
  /\ dict_get (u "понеділок") weekday_names = Some 0.
Proof.
  intro H. split; [ | reflexivity ].
  rewrite parse_weekday_str. unfold dict_get_default.
  destruct (dict_get (normalized_token str_lower s) weekday_names)
    as [ k | ] eqn:Hget; [ | reflexivity ].
  exfalso.
  assert (Hin : In (normalized_token str_lower s) (dict_keys weekday_names)).
  { destruct (dict_get_None_keys (normalized_token str_lower s) weekday_names)
      as [ _ Hnone ].
    destruct (in_dec (list_eq_dec Z.eq_dec) (normalized_token str_lower s)
                     (dict_keys weekday_names)) as [ Hyes | Hno ];
      [ exact Hyes | ].
    apply Hnone in Hno. congruence. }
  destruct H as [ H | H ]; [ exact (H Hin) | ].
  apply H. unfold spec_normalized_token.
  unfold normalized_token in Hin.
  destruct (recognized_token_shape _ Hin) as [ Hall Hne ].
  now rewrite spec_first_token_first_token.
Qed.

Lemma parse_weekday_unrecognized_witness :
  parse_weekday sample_lower (PyStr (u "Вiвторок")) = Ok 0
  /\ dict_get (u "понеділок") weekday_names = Some 0.
Proof.
  apply parse_weekday_unrecognized.
  left. vm_compute. intuition discriminate.
Defined.

(* ================================================================== *)
(** * Loading templates                                                *)
(* ================================================================== *)

Lemma bucket_of_app (group : str) (t1 t2 : list ScheduleTemplateItem) :
  bucket_of group (t1 ++ t2) = bucket_of group t1 ++ bucket_of group t2.
Proof. unfold bucket_of. apply flat_map_app. Qed.

Lemma In_bucket_of (group : str) (template : list ScheduleTemplateItem)
    (item : ScheduleTemplateItem) :
  In item (bucket_of group template) <->
  In item template /\ In group (groups item).
Proof.
  unfold bucket_of. rewrite in_flat_map. split.
  - intros (x & Hx & Hin). apply in_map_iff in Hin.
    destruct Hin as (g & <- & Hg). apply filter_In in Hg.
    destruct Hg as [ Hg Heq ]. apply str_eqb_eq in Heq. subst g. auto.
  - intros [ Hitem Hgroup ]. exists item. split; [ exact Hitem | ].
    apply in_map_iff. exists group. split; [ reflexivity | ].
    apply filter_In. split; [ exact Hgroup | apply str_eqb_refl ].
Qed.

(** X1.  Loading one template after another is loading their
    concatenation at once: the master list and the whole index come
    out the same. *)
Theorem add_template_app (self : ScheduleBook)
    (t1 t2 : list ScheduleTemplateItem) :
  add_template (add_template self t1) t2 = add_template self (t1 ++ t2).
Proof.
  unfold add_template. cbn [_templates _group_index].
  now rewrite fold_left_app, app_assoc.
Qed.

Lemma loaded_consistent (book : ScheduleBook) :
  loaded book ->
  forall group,
    dict_get group (_group_index book) =
    bucket_extend None (bucket_of group (_templates book)).
Proof.
  induction 1 as [ | self template Hloaded IH ]; intro group.
  - reflexivity.
  - rewrite add_template_bucket, IH. cbn [add_template _templates].
    now rewrite bucket_extend_app, bucket_of_app.
Qed.

Lemma bucket_extend_None_Some (more bucket : list ScheduleTemplateItem) :
  bucket_extend None more = Some bucket -> bucket = more /\ more <> [].
Proof.
  destruct more as [ | x more ]; cbn [bucket_extend];
    [ discriminate | intros [= <-]; split; [ reflexivity | discriminate ] ].
Qed.

(** X2.  In every book that was built by [add_template] calls the index
    is in step with the master list: the bucket of a group holds the
    loaded items that name the group, in load order, and is never
    empty; every loaded item is in the bucket of each group it names;
    a group that no loaded item names has no bucket. *)
Theorem loaded_index (book : ScheduleBook) :
  loaded book ->
  (forall group bucket,
      dict_get group (_group_index book) = Some bucket ->
      bucket = bucket_of group (_templates book)
      /\ bucket <> []
      /\ forall item,
           In item bucket ->
           In item (_templates book) /\ In group (groups item))
  /\ (forall group item,
         In item (_templates book) ->
         In group (groups item) ->
         exists bucket,
           dict_get group (_group_index book) = Some bucket
           /\ In item bucket)
  /\ (forall group,
         In group (dict_keys (_group_index book)) <->
         exists item, In item (_templates book) /\ In group (groups item)).
Proof.
  intro Hloaded. pose proof (loaded_consistent book Hloaded) as Hindex.
  split; [ | split ].
  - intros group bucket Hget. rewrite Hindex in Hget.
    apply bucket_extend_None_Some in Hget. destruct Hget as [ -> Hne ].
    split; [ reflexivity | split; [ exact Hne | ] ].
    intro item. apply In_bucket_of.
  - intros group item Hitem Hgroup.
    assert (Hin : In item (bucket_of group (_templates book)))
      by (apply In_bucket_of; auto).
    rewrite Hindex.
    destruct (bucket_of group (_templates book)) as [ | x more ];
      [ destruct Hin | ].
    exists (x :: more). split; [ reflexivity | exact Hin ].
  - intro group. split.
    + intro Hkey.
      destruct (dict_get group (_group_index book)) as [ bucket | ] eqn:Hget.
      * rewrite Hindex in Hget. apply bucket_extend_None_Some in Hget.
        destruct Hget as [ -> Hne ].
        destruct (bucket_of group (_templates book)) as [ | item more ] eqn:E;
          [ congruence | ].
        exists item. apply In_bucket_of. rewrite E. now left.
      * apply dict_get_None_keys in Hget. contradiction.
    + intros (item & Hitem & Hgroup).
      destruct (in_dec (list_eq_dec Z.eq_dec) group
                       (dict_keys (_group_index book))) as [ Hkey | Habsent ];
        [ exact Hkey | exfalso ].
      assert (Hnone : dict_get group (_group_index book) = None).
      { apply dict_get_None_keys. exact Habsent. }
      rewrite Hindex in Hnone.
      assert (Hin : In item (bucket_of group (_templates book)))
        by (apply In_bucket_of; auto).
      destruct (bucket_of group (_templates book)); [ destruct Hin | ].
      discriminate.
Qed.

Lemma loaded_index_witness :
  exists bucket,
    dict_get (u "GroupB") (_group_index test_book) = Some bucket
    /\ In chemistry bucket.
Proof.
  apply (proj1 (proj2 (loaded_index test_book (loaded_add _ _ loaded_new)))).
  - right. right. left. reflexivity.
  - left. reflexivity.
Defined.

Lemma dict_contains_keys {V : Type} (key : str) (d : dict V) :
  dict_contains key d = false <-> ~ In key (dict_keys d).
Proof.
  rewrite <- dict_get_None_keys. unfold dict_contains.
  destruct (dict_get key d); split; congruence.
Qed.

Lemma dict_keys_set {V : Type} (key : str) (v : V) (d : dict V) :
  dict_keys (dict_set key v d) =
  if dict_contains key d then dict_keys d else dict_keys d ++ [key].
Proof.
  unfold dict_contains, dict_keys.
  induction d as [ | [k w] d IH ]; cbn [dict_set dict_get map fst app];
    [ reflexivity | ].
  destruct (str_eqb key k) eqn:E; cbn [map fst]; [ reflexivity | ].
  rewrite IH. now destruct (dict_get key d).
Qed.

Lemma index_append_keys (index : dict (list ScheduleTemplateItem))
    (item : ScheduleTemplateItem) (group : str) :
  dict_keys (index_append index item group) =
  if dict_contains group index then dict_keys index
  else dict_keys index ++ [group].
Proof.
  unfold index_append.
  destruct (dict_contains group index) eqn:Hc; cbn [negb].
  - unfold dict_contains in Hc.
    destruct (dict_get group index) as [ b | ] eqn:Hget; [ | discriminate ].
    rewrite dict_keys_set. unfold dict_contains. now rewrite Hget.
  - rewrite dict_get_set_same, !dict_keys_set, Hc.
    unfold dict_contains. now rewrite dict_get_set_same.
Qed.

Lemma index_append_keys_grow (index : dict (list ScheduleTemplateItem))
    (item : ScheduleTemplateItem) (group : str) :
  exists fresh,
    dict_keys (index_append index item group) = dict_keys index ++ fresh
    /\ (NoDup (dict_keys index) -> NoDup (dict_keys index ++ fresh)).
Proof.
  rewrite index_append_keys.
  destruct (dict_contains group index) eqn:Hc.
  - exists []. now rewrite app_nil_r.
  - exists [group]. split; [ reflexivity | ].
    intro Hnodup. apply dict_contains_keys in Hc.
    apply NoDup_app; [ exact Hnodup | repeat constructor; auto | ].
    intros x Hx [ <- | [] ]. contradiction.
Qed.

Lemma fold_append_keys_grow
    (step : dict (list ScheduleTemplateItem) -> str
            -> dict (list ScheduleTemplateItem)) :
  (forall index group,
      exists fresh,
        dict_keys (step index group) = dict_keys index ++ fresh
        /\ (NoDup (dict_keys index) -> NoDup (dict_keys index ++ fresh))) ->
  forall gs index,
    exists fresh,
      dict_keys (fold_left step gs index) = dict_keys index ++ fresh
      /\ (NoDup (dict_keys index) -> NoDup (dict_keys index ++ fresh)).
Proof.
  intros Hstep gs. induction gs as [ | g gs IH ]; intro index; cbn [fold_left].
  - exists []. now rewrite app_nil_r.
  - destruct (Hstep index g) as (fresh1 & Hkeys1 & Hnodup1).
    destruct (IH (step index g)) as (fresh2 & Hkeys2 & Hnodup2).
    exists (fresh1 ++ fresh2). rewrite Hkeys2, Hkeys1, app_assoc.
    split; [ reflexivity | ].
    intro Hnodup. rewrite <- Hkeys1. apply Hnodup2.
    rewrite Hkeys1. auto.
Qed.

Lemma add_template_keys_grow (self : ScheduleBook)
    (template : list ScheduleTemplateItem) :
  exists fresh,
    dict_keys (_group_index (add_template self template)) =
    dict_keys (_group_index self) ++ fresh
    /\ (NoDup (dict_keys (_group_index self)) ->
        NoDup (dict_keys (_group_index self) ++ fresh)).
Proof.
  unfold add_template. cbn [_group_index].
  generalize (_group_index self) as index.
  induction template as [ | item rest IH ]; intro index; cbn [fold_left].
  - exists []. now rewrite app_nil_r.
  - destruct (fold_append_keys_grow
                (fun index0 group => index_append index0 item group)
                (fun index0 group => index_append_keys_grow index0 item group)
                (groups item) index) as (fresh1 & Hkeys1 & Hnodup1).
    destruct (IH (fold_left
                    (fun index0 group => index_append index0 item group)
                    (groups item) index)) as (fresh2 & Hkeys2 & Hnodup2).
    exists (fresh1 ++ fresh2). rewrite Hkeys2, Hkeys1, app_assoc.
    split; [ reflexivity | ].
    intro Hnodup. rewrite <- Hkeys1. apply Hnodup2.
    rewrite Hkeys1. auto.
Qed.

Lemma loaded_keys_NoDup (book : ScheduleBook) :
  loaded book -> NoDup (dict_keys (_group_index book)).
Proof.
  induction 1 as [ | self template Hloaded IH ].
  - constructor.
  - destruct (add_template_keys_grow self template) as (fresh & -> & Hnodup).
    auto.
Qed.

(** X3.  [add_template] keeps the groups already known where they are
    in the index and puts new ones behind them; in a book built by
    [add_template] calls no group is a key twice, so that [find_groups]
    lists no group twice. *)
Theorem add_template_keys :
  (forall (self : ScheduleBook) (template : list ScheduleTemplateItem),
      exists fresh,
        dict_keys (_group_index (add_template self template)) =
        dict_keys (_group_index self) ++ fresh)
  /\ (forall book : ScheduleBook,
         loaded book -> NoDup (dict_keys (_group_index book)))
  /\ (forall (char_ieq : char -> char -> bool) (book : ScheduleBook)
             (pattern : str) (found : list str),
         loaded book ->
         find_groups char_ieq book pattern = Some found ->
         NoDup found).
Proof.
  split; [ | split ].
  - intros self template.
    destruct (add_template_keys_grow self template) as (fresh & Hkeys & _).
    now exists fresh.
  - apply loaded_keys_NoDup.
  - intros char_ieq book pattern found Hloaded.
    rewrite find_groups_eq. intros [= <-].
    apply NoDup_filter, loaded_keys_NoDup, Hloaded.
Qed.

Lemma add_template_keys_witness :
  NoDup [u "GroupA"; u "GroupB"].
Proof.
  apply (proj2 (proj2 add_template_keys) sample_ieq test_book (u "group")).
  - apply loaded_add, loaded_new.
  - reflexivity.
Defined.

(* ================================================================== *)
(** * More on schedule resolution                                      *)
(* ================================================================== *)

(** Whether the inner loop returns does not depend on what was
    collected before. *)
Lemma for_items_Ok_any (d : date) (items : list ScheduleTemplateItem) :
  forall schedule r,
    for_items d (date_weekday d) (parity_of d) items schedule = Ok r ->
    forall schedule',
      for_items d (date_weekday d) (parity_of d) items schedule' =
      Ok (schedule' ++ day_occurrences items d).
Proof.
  unfold day_occurrences.
  induction items as [ | item rest IH ]; intros schedule r H schedule';
    cbn [for_items filter] in *.
  - cbn. now rewrite app_nil_r.
  - rewrite for_body_guard in H |- *.
    destruct (occurs_on d item).
    + destruct (datetime_add _ _) as [ e | ] eqn:Hadd; cbn [bind] in *;
        [ | discriminate ].
      rewrite (IH _ _ H). cbn [map]. rewrite <- app_assoc. cbn [app].
      apply datetime_add_Ok in Hadd. now subst e.
    + cbn [bind] in *. exact (IH _ _ H schedule').
Qed.

Lemma while_loop_Ok_any (bucket : list ScheduleTemplateItem) (end_ : date) :
  forall (n : nat) (current_date : date) (schedule r : list ScheduleItem),
    Z.to_nat (toordinal end_ - toordinal current_date + 1) = n ->
    while_loop bucket end_ current_date schedule = Ok r ->
    forall schedule',
      while_loop bucket end_ current_date schedule' =
      Ok (schedule' ++ expand bucket current_date end_).
Proof.
  unfold expand.
  induction n as [ | n IH ]; intros current_date schedule r Hn H schedule';
    rewrite while_loop_step in H |- *; unfold date_le in *;
    destruct (Z.leb_spec (toordinal current_date) (toordinal end_))
      as [ Hle | Hlt ]; try lia.
  - rewrite date_range_nil by lia. cbn. now rewrite app_nil_r.
  - destruct (for_items _ _ _ _ schedule) as [ s1 | ] eqn:Hfor;
      cbn [bind] in H; [ | discriminate ].
    rewrite (for_items_Ok_any _ _ _ _ Hfor schedule'). cbn [bind].
    rewrite date_add_days in H |- *.
    destruct (ordinal_ok _); cbn [bind] in *; [ | discriminate ].
    rewrite (IH (mkdate (toordinal current_date + 1)) _ _
               ltac:(cbn [toordinal]; lia) H).
    rewrite (date_range_cons current_date end_) by lia.
    cbn [flat_map]. now rewrite app_assoc.
Qed.

Lemma for_items_app (d : date) (weekday' : Z) (week_parity' : WeekParity)
    (b1 b2 : list ScheduleTemplateItem) :
  forall schedule,
    for_items d weekday' week_parity' (b1 ++ b2) schedule =
    (schedule' <- for_items d weekday' week_parity' b1 schedule ;;
     for_items d weekday' week_parity' b2 schedule').
Proof.
  induction b1 as [ | item rest IH ]; intro schedule; cbn [app for_items];
    [ reflexivity | ].
  destruct (for_body _ _ _ _ _); cbn [bind]; [ apply IH | reflexivity ].
Qed.

Lemma day_occurrences_app (b1 b2 : list ScheduleTemplateItem) (d : date) :
  day_occurrences (b1 ++ b2) d = day_occurrences b1 d ++ day_occurrences b2 d.
Proof. unfold day_occurrences. now rewrite filter_app, map_app. Qed.

(** A bucket made of two buckets that both let the loop return lets it
    return. *)
Lemma while_loop_app_Ok (b1 b2 : list ScheduleTemplateItem) (end_ : date) :
  forall (n : nat) (current_date : date) (s1 s2 r1 r2 : list ScheduleItem),
    Z.to_nat (toordinal end_ - toordinal current_date + 1) = n ->
    while_loop b1 end_ current_date s1 = Ok r1 ->
    while_loop b2 end_ current_date s2 = Ok r2 ->
    forall schedule,
      while_loop (b1 ++ b2) end_ current_date schedule =
      Ok (schedule ++ expand (b1 ++ b2) current_date end_).
Proof.
  unfold expand.
  induction n as [ | n IH ]; intros current_date s1 s2 r1 r2 Hn H1 H2 schedule;
    rewrite while_loop_step in H1, H2 |- *; unfold date_le in *;
    destruct (Z.leb_spec (toordinal current_date) (toordinal end_))
      as [ Hle | Hlt ]; try lia.
  - rewrite date_range_nil by lia. cbn. now rewrite app_nil_r.
  - destruct (for_items _ _ _ b1 s1) as [ s1' | ] eqn:Hfor1;
      cbn [bind] in H1; [ | discriminate ].
    destruct (for_items _ _ _ b2 s2) as [ s2' | ] eqn:Hfor2;
      cbn [bind] in H2; [ | discriminate ].
    rewrite for_items_app.
    rewrite (for_items_Ok_any _ _ _ _ Hfor1 schedule). cbn [bind].
    rewrite (for_items_Ok_any _ _ _ _ Hfor2). cbn [bind].
    rewrite date_add_days in H1, H2 |- *.
    destruct (ordinal_ok _); cbn [bind] in *; [ | discriminate ].
    rewrite (IH (mkdate (toordinal current_date + 1)) _ _ _ _
               ltac:(cbn [toordinal]; lia) H1 H2).
    rewrite (date_range_cons current_date end_) by lia.
    cbn [flat_map]. rewrite day_occurrences_app. now rewrite !app_assoc.
Qed.

Lemma expand_app (b1 b2 : list ScheduleTemplateItem) (start_ end_ : date) :
  List.length (expand (b1 ++ b2) start_ end_) =
  (List.length (expand b1 start_ end_) + List.length (expand b2 start_ end_))%nat.
Proof.
  unfold expand.
  induction (date_range start_ end_) as [ | d ds IH ]; cbn [flat_map];
    [ reflexivity | ].
  rewrite day_occurrences_app, !List.length_app, IH. lia.
Qed.

Lemma filter_on_date_expand_any (bucket : list ScheduleTemplateItem)
    (start_ end_ d : date) :
  filter (on_date d) (expand bucket start_ end_) =
  if existsb (date_eqb d) (date_range start_ end_)
  then day_occurrences bucket d else [].
Proof. unfold expand. apply filter_on_date_days, NoDup_date_range. Qed.

(** X4.  [add_template] does not deduplicate: after the same template
    was loaded a second time, every query that returned before returns
    still, and on every day each occurrence is there twice, the second
    copies behind the first. *)
Theorem add_template_twice (template : list ScheduleTemplateItem)
    (group : str) (start_ end_ : date) (once : list ScheduleItem) :
  calculate_schedule (add_template ScheduleBook_new template)
                     group start_ end_ = Ok once ->
  exists twice,
    calculate_schedule
      (add_template (add_template ScheduleBook_new template) template)
      group start_ end_ = Ok twice
    /\ List.length twice = (2 * List.length once)%nat
    /\ forall d,
         filter (on_date d) twice =
         filter (on_date d) once ++ filter (on_date d) once.
Proof.
  intro Honce.
  pose proof (add_template_bucket ScheduleBook_new template group) as H1.
  pose proof (add_template_bucket (add_template ScheduleBook_new template)
                                  template group) as H2.
  rewrite H1 in H2. cbn [ScheduleBook_new _group_index dict_get] in H1, H2.
  destruct (bucket_of group template) as [ | x b ] eqn:Hbucket;
    cbn [bucket_extend app] in H1, H2.
  - exists []. unfold calculate_schedule, dict_contains in Honce |- *.
    rewrite H1 in Honce. rewrite H2. cbn [negb] in *.
    injection Honce as <-. repeat split.
  - pose proof (calculate_schedule_Ok _ _ _ _ _ _ H1 Honce) as Hexp.
    rewrite (calculate_schedule_indexed _ _ _ _ _ H1) in Honce.
    exists (expand ((x :: b) ++ (x :: b)) start_ end_).
    split; [ | split ].
    + rewrite (calculate_schedule_indexed _ _ _ _ _ H2).
      exact (while_loop_app_Ok _ _ _ _ _ _ _ _ _ eq_refl Honce Honce []).
    + rewrite expand_app, Hexp. lia.
    + intro d. rewrite Hexp, !filter_on_date_expand_any.
      destruct (existsb _ _); [ apply day_occurrences_app | reflexivity ].
Qed.

Lemma add_template_twice_witness :
  exists twice,
    calculate_schedule
      (add_template (add_template ScheduleBook_new [math; physics; chemistry])
                    [math; physics; chemistry])
      (u "GroupA") (date_of_ymd 2024 10 7) (date_of_ymd 2024 10 11) = Ok twice
    /\ List.length twice = 2%nat.
Proof.
  destruct (add_template_twice [math; physics; chemistry] (u "GroupA")
              (date_of_ymd 2024 10 7) (date_of_ymd 2024 10 11)
              [occurrence (date_of_ymd 2024 10 7) math] eq_refl)
    as (twice & Hcalc & Hlen & _).
  exists twice. split; [ exact Hcalc | exact Hlen ].
Defined.

Lemma date_range_split (start_ mid end_ : date) :
  toordinal start_ <= toordinal mid + 1 ->
  toordinal mid <= toordinal end_ ->
  date_range start_ end_ =
  date_range start_ mid ++ date_range (shift_days mid 1) end_.
Proof.
  intros Hsm Hme.
  remember (Z.to_nat (toordinal mid - toordinal start_ + 1)) as n eqn:Hn.
  revert start_ Hsm Hn.
  induction n as [ | n IH ]; intros start_ Hsm Hn.
  - rewrite (date_range_nil start_ mid) by lia. cbn [app].
    unfold shift_days. destruct start_ as [o]. cbn [toordinal] in *.
    f_equal. f_equal. lia.
  - rewrite (date_range_cons start_ end_), (date_range_cons start_ mid) by lia.
    cbn [app]. f_equal. apply IH; cbn [toordinal]; lia.
Qed.

Lemma while_loop_join (bucket : list ScheduleTemplateItem) (mid end_ : date) :
  toordinal mid <= toordinal end_ ->
  forall (n : nat) (current_date : date) (s1 s2 r1 r2 : list ScheduleItem),
    Z.to_nat (toordinal mid - toordinal current_date + 1) = n ->
    toordinal current_date <= toordinal mid + 1 ->
    while_loop bucket mid current_date s1 = Ok r1 ->
    while_loop bucket end_ (shift_days mid 1) s2 = Ok r2 ->
    forall schedule,
      while_loop bucket end_ current_date schedule =
      Ok (schedule ++ expand bucket current_date end_).
Proof.
  intro Hme.
  induction n as [ | n IH ];
    intros current_date s1 s2 r1 r2 Hn Hcur H1 H2 schedule.
  - assert (Hsame : current_date = shift_days mid 1).
    { unfold shift_days. destruct current_date as [o].
      cbn [toordinal] in *. f_equal. lia. }
    rewrite Hsame.
    exact (while_loop_Ok_any _ _ _ _ _ _ eq_refl H2 schedule).
  - rewrite while_loop_step in H1 |- *. unfold date_le in *.
    destruct (Z.leb_spec (toordinal current_date) (toordinal mid))
      as [ Hle | Hlt ]; [ | lia ].
    destruct (Z.leb_spec (toordinal current_date) (toordinal end_))
      as [ Hle' | Hlt' ]; [ | lia ].
    destruct (for_items _ _ _ _ s1) as [ s1' | ] eqn:Hfor;
      cbn [bind] in H1; [ | discriminate ].
    rewrite (for_items_Ok_any _ _ _ _ Hfor schedule). cbn [bind].
    rewrite date_add_days in H1 |- *.
    destruct (ordinal_ok _); cbn [bind] in *; [ | discriminate ].
    rewrite (IH (mkdate (toordinal current_date + 1)) _ _ _ _
               ltac:(cbn [toordinal]; lia) ltac:(cbn [toordinal]; lia) H1 H2).
    unfold expand. rewrite (date_range_cons current_date end_) by lia.
    cbn [flat_map]. now rewrite app_assoc.
Qed.

(** X5.  Ranges join: when the query for the days up to [mid] and the
    query for the days after [mid] both return, the query for the whole
    range returns the first answer followed by the second. *)
Theorem calculate_schedule_split (self : ScheduleBook) (group : str)
    (start_ mid end_ : date) (first second : list ScheduleItem) :
  toordinal start_ <= toordinal mid + 1 ->
  toordinal mid <= toordinal end_ ->
  calculate_schedule self group start_ mid = Ok first ->
  calculate_schedule self group (shift_days mid 1) end_ = Ok second ->
  calculate_schedule self group start_ end_ = Ok (first ++ second).
Proof.
  intros Hsm Hme H1 H2.
  destruct (dict_get group (_group_index self)) as [ bucket | ] eqn:Hget.
  - pose proof (calculate_schedule_Ok _ _ _ _ _ _ Hget H1) as E1.
    pose proof (calculate_schedule_Ok _ _ _ _ _ _ Hget H2) as E2.
    rewrite (calculate_schedule_indexed _ _ start_ mid _ Hget) in H1.
    rewrite (calculate_schedule_indexed _ _ _ end_ _ Hget) in H2.
    rewrite (calculate_schedule_indexed _ _ start_ end_ _ Hget).
    rewrite (while_loop_join _ _ _ Hme _ _ _ _ _ _ eq_refl Hsm H1 H2 []).
    cbn [app]. f_equal. subst first second. unfold expand.
    now rewrite (date_range_split start_ mid end_), flat_map_app.
  - unfold calculate_schedule, dict_contains in *. rewrite Hget in *.
    cbn [negb] in *. injection H1 as <-. injection H2 as <-. reflexivity.
Qed.

Lemma calculate_schedule_split_witness :
  calculate_schedule test_book (u "GroupB")
                     (date_of_ymd 2024 10 7) (date_of_ymd 2024 10 11)
  = Ok ([occurrence (date_of_ymd 2024 10 7) math]
        ++ [occurrence (date_of_ymd 2024 10 11) chemistry]).
Proof.
  apply (calculate_schedule_split test_book (u "GroupB")
           (date_of_ymd 2024 10 7) (date_of_ymd 2024 10 9)
           (date_of_ymd 2024 10 11)).
  - vm_compute. congruence.
  - vm_compute. congruence.
  - reflexivity.
  - reflexivity.
Defined.

Lemma for_items_raises (d : date) (weekday' : Z) (week_parity' : WeekParity)
    (items : list ScheduleTemplateItem) :
  forall schedule e,
    for_items d weekday' week_parity' items schedule = Raise e ->
    e = OverflowError.
Proof.
  induction items as [ | item rest IH ]; intros schedule e;
    cbn [for_items]; [ discriminate | ].
  unfold for_body.
  destruct (_ && _); cbn [bind]; [ | apply IH ].
  destruct (_ && _); cbn [bind]; [ apply IH | ].
  unfold datetime_add.
  destruct (ordinal_ok _); cbn [bind]; [ apply IH | now intros [= <-] ].
Qed.

Lemma while_loop_raises (bucket : list ScheduleTemplateItem) (end_ : date) :
  forall (n : nat) (current_date : date) (schedule : list ScheduleItem) e,
    Z.to_nat (toordinal end_ - toordinal current_date + 1) = n ->
    while_loop bucket end_ current_date schedule = Raise e ->
    e = OverflowError.
Proof.
  induction n as [ | n IH ]; intros current_date schedule e Hn;
    rewrite while_loop_step; unfold date_le;
    destruct (Z.leb_spec (toordinal current_date) (toordinal end_))
      as [ Hle | Hlt ]; try lia; try discriminate.
  destruct (for_items _ _ _ _ _) as [ schedule' | e' ] eqn:Hfor; cbn [bind].
  - rewrite date_add_days.
    destruct (ordinal_ok _); cbn [bind]; [ | now intros [= <-] ].
    apply IH. cbn [toordinal]. lia.
  - intros [= <-]. exact (for_items_raises _ _ _ _ _ _ Hfor).
Qed.

(** A loop that has to go past the last day [date] can hold does not
    return. *)
Lemma while_loop_past_max (bucket : list ScheduleTemplateItem) (end_ : date) :
  _MAXORDINAL <= toordinal end_ ->
  forall (n : nat) (current_date : date) (schedule r : list ScheduleItem),
    Z.to_nat (toordinal end_ - toordinal current_date + 1) = n ->
    toordinal current_date <= toordinal end_ ->
    while_loop bucket end_ current_date schedule <> Ok r.
Proof.
  intro Hend.
  induction n as [ | n IH ]; intros current_date schedule r Hn Hcur;
    [ lia | ].
  rewrite while_loop_step. unfold date_le.
  destruct (Z.leb_spec (toordinal current_date) (toordinal end_))
    as [ Hle | Hlt ]; [ | lia ].
  destruct (for_items _ _ _ _ _) as [ schedule' | e' ]; cbn [bind];
    [ | discriminate ].
  rewrite date_add_days.
  destruct (ordinal_ok (toordinal current_date + 1)) eqn:Hok; cbn [bind];
    [ | discriminate ].
  apply ordinal_ok_iff in Hok.
  apply IH; cbn [toordinal]; lia.
Qed.

(** X6.  The only exception [calculate_schedule] raises is
    [OverflowError], and for a group of the index and a range that is
    not empty and ends on 9999-12-31 it does raise it: the loop cannot
    step past the last day. *)
Theorem calculate_schedule_raises :
  (forall (self : ScheduleBook) (group : str) (start_ end_ : date) (e : exn),
      calculate_schedule self group start_ end_ = Raise e ->
      e = OverflowError)
  /\ (forall (self : ScheduleBook) (group : str) (start_ end_ : date),
         In group (dict_keys (_group_index self)) ->
         toordinal start_ <= toordinal end_ ->
         toordinal end_ = _MAXORDINAL ->
         calculate_schedule self group start_ end_ = Raise OverflowError).
Proof.
  assert (Hraise :
            forall (self : ScheduleBook) (group : str) (start_ end_ : date)
                   (e : exn),
              calculate_schedule self group start_ end_ = Raise e ->
              e = OverflowError).
  { intros self group start_ end_ e. unfold calculate_schedule, dict_contains.
    destruct (dict_get group (_group_index self)) as [ bucket | ];
      cbn [negb]; [ | discriminate ].
    apply (while_loop_raises _ _ _ _ _ _ eq_refl). }
  split; [ exact Hraise | ].
  intros self group start_ end_ Hkey Hrange Hend.
  destruct (calculate_schedule self group start_ end_) as [ r | e ] eqn:Hcalc.
  - exfalso.
    destruct (dict_get group (_group_index self)) as [ bucket | ] eqn:Hget.
    + rewrite (calculate_schedule_indexed _ _ _ _ _ Hget) in Hcalc.
      revert Hcalc.
      apply (while_loop_past_max bucket end_ ltac:(lia) _ _ _ _ eq_refl Hrange).
    + apply dict_get_None_keys in Hget. contradiction.
  - f_equal. exact (Hraise _ _ _ _ _ Hcalc).
Qed.

Lemma calculate_schedule_raises_witness :
  calculate_schedule test_book (u "GroupA") (date_of_ymd 9999 12 1) date_max
  = Raise OverflowError.
Proof.
  apply (proj2 calculate_schedule_raises).
  - left. reflexivity.
  - vm_compute. congruence.
  - reflexivity.
Defined.

Lemma date_weekday_shift (d : date) (k : Z) :
  date_weekday (shift_days d k) = (date_weekday d + k) mod 7.
Proof.
  unfold date_weekday, shift_days. cbn [toordinal].
  rewrite Zplus_mod_idemp_l. f_equal. lia.
Qed.



(* ================================================================== *)
(** * More on the date-range resolver                                  *)
(* ================================================================== *)

Lemma window_Ok_inv (s e : Z) (range : date * date) :
  window s e = Ok range ->
  range = (mkdate s, mkdate e) /\ 1 <= s <= _MAXORDINAL /\ 1 <= e <= _MAXORDINAL.
Proof.
  unfold window.
  destruct (ordinal_ok s) eqn:Hs; cbn [andb]; [ | discriminate ].
  destruct (ordinal_ok e) eqn:He; [ | discriminate ].
  apply ordinal_ok_iff in Hs, He. intros [= <-]. auto.
Qed.

Lemma monday_of_bounds (d : date) :
  monday_of d <= toordinal d <= monday_of d + 6.
Proof. unfold monday_of. pose proof (date_weekday_range d). lia. Qed.

Lemma monday_of_same_week (a d : date) :
  monday_of a <= toordinal d <= monday_of a + 6 ->
  monday_of d = monday_of a.
Proof.
  pose proof (monday_of_weekday a) as Hmonday.
  unfold monday_of, date_weekday in *. cbn [toordinal] in Hmonday.
  set (wa := (toordinal a + 6) mod 7) in *.
  intro Hd.
  pose proof (Z.div_mod (toordinal a - wa + 6) 7 ltac:(lia)) as E1.
  rewrite Hmonday in E1.
  pose proof (Z.div_mod (toordinal d + 6) 7 ltac:(lia)) as E2.
  pose proof (Z.mod_pos_bound (toordinal d + 6) 7 ltac:(lia)) as B2.
  lia.
Qed.

(** X8.  For an anchor at least seven days after 0001-01-01 and
    thirteen days before 9999-12-31, the last, the current and the next
    week are three windows of seven days, each from a Monday to a
    Sunday, one right after the other, and the anchor lies in the
    current one. *)
Theorem get_date_range_weeks (clock anchor : date) :
  8 <= toordinal anchor <= _MAXORDINAL - 13 ->
  exists s0 e0 s1 e1 s2 e2,
    get_date_range clock (Member LAST_WEEK) (Some anchor) = Ok (s0, e0)
    /\ get_date_range clock (Member CURRENT_WEEK) (Some anchor) = Ok (s1, e1)
    /\ get_date_range clock (Member NEXT_WEEK) (Some anchor) = Ok (s2, e2)
    /\ toordinal e0 + 1 = toordinal s1
    /\ toordinal e1 + 1 = toordinal s2
    /\ toordinal e0 = toordinal s0 + 6
    /\ toordinal e1 = toordinal s1 + 6
    /\ toordinal e2 = toordinal s2 + 6
    /\ date_weekday s0 = 0 /\ date_weekday s1 = 0 /\ date_weekday s2 = 0
    /\ date_weekday e0 = 6 /\ date_weekday e1 = 6 /\ date_weekday e2 = 6
    /\ toordinal s1 <= toordinal anchor <= toordinal e1.
Proof.
  intro Hanchor.
  pose proof (monday_of_bounds anchor) as Hbounds.
  pose proof (monday_of_weekday anchor) as Hmonday.
  assert (Hge : 8 <= monday_of anchor).
  { unfold date_weekday in Hmonday. cbn [toordinal] in Hmonday.
    pose proof (Z.div_mod (monday_of anchor + 6) 7 ltac:(lia)). lia. }
  assert (Hwd : forall k, date_weekday (mkdate (monday_of anchor + k)) = k mod 7).
  { intro k. change (mkdate (monday_of anchor + k))
      with (shift_days (mkdate (monday_of anchor)) k).
    now rewrite date_weekday_shift, Hmonday. }
  exists (mkdate (monday_of anchor - 7)), (mkdate (monday_of anchor - 1)),
         (mkdate (monday_of anchor)), (mkdate (monday_of anchor + 6)),
         (mkdate (monday_of anchor + 7)), (mkdate (monday_of anchor + 13)).
  rewrite !get_date_range_member. cbn [toordinal].
  repeat split; try lia; try (apply window_Ok; lia);
    first
      [ exact Hmonday
      | rewrite Hwd; reflexivity
      | replace (monday_of anchor - 7) with (monday_of anchor + -7) by lia;
        rewrite Hwd; reflexivity
      | replace (monday_of anchor - 1) with (monday_of anchor + -1) by lia;
        rewrite Hwd; reflexivity ].
Qed.

Lemma get_date_range_weeks_witness :
  exists s0 e0 s1 e1 s2 e2,
    get_date_range date_min (Member LAST_WEEK) (Some (date_of_ymd 2024 10 3))
    = Ok (s0, e0)
    /\ get_date_range date_min (Member CURRENT_WEEK)
                      (Some (date_of_ymd 2024 10 3)) = Ok (s1, e1)
    /\ get_date_range date_min (Member NEXT_WEEK)
                      (Some (date_of_ymd 2024 10 3)) = Ok (s2, e2)
    /\ toordinal e0 + 1 = toordinal s1
    /\ toordinal e1 + 1 = toordinal s2.
Proof.
  destruct (get_date_range_weeks date_min (date_of_ymd 2024 10 3))
    as (s0 & e0 & s1 & e1 & s2 & e2 & H0 & H1 & H2 & H3 & H4 & _).
  - vm_compute. split; congruence.
  - exists s0, e0, s1, e1, s2, e2. auto.
Defined.

(** X9.  The next week of an anchor is the current week of the day
    seven days later, and the last week the current week of the day
    seven days earlier, errors included; and every day of a current
    week has that same week as its current week. *)
Theorem get_date_range_shift :
  (forall clock anchor : date,
      get_date_range clock (Member NEXT_WEEK) (Some anchor) =
      get_date_range clock (Member CURRENT_WEEK) (Some (shift_days anchor 7))
      /\ get_date_range clock (Member LAST_WEEK) (Some anchor) =
         get_date_range clock (Member CURRENT_WEEK)
                        (Some (shift_days anchor (-7))))
  /\ (forall (clock anchor s e d : date),
         get_date_range clock (Member CURRENT_WEEK) (Some anchor) = Ok (s, e) ->
         toordinal s <= toordinal d <= toordinal e ->
         get_date_range clock (Member CURRENT_WEEK) (Some d) = Ok (s, e)).
Proof.
  split.
  - intros clock anchor. rewrite !get_date_range_member.
    assert (Hshift : forall k,
               monday_of (shift_days anchor (7 * k)) = monday_of anchor + 7 * k).
    { intro k. unfold monday_of. rewrite date_weekday_shift.
      unfold shift_days. cbn [toordinal].
      rewrite Z.mul_comm, Z_mod_plus_full.
      pose proof (date_weekday_range anchor).
      rewrite Z.mod_small by lia. lia. }
    pose proof (Hshift 1) as Hnext. pose proof (Hshift (-1)) as Hlast.
    change (7 * 1) with 7 in Hnext. change (7 * -1) with (-7) in Hlast.
    rewrite Hnext, Hlast. split; f_equal; lia.
  - intros clock anchor s e d Hweek Hd.
    rewrite get_date_range_member in Hweek |- *.
    apply window_Ok_inv in Hweek. destruct Hweek as ([= -> ->] & Hs & He).
    cbn [toordinal] in Hd.
    rewrite (monday_of_same_week anchor d Hd).
    apply window_Ok; lia.
Qed.

Lemma get_date_range_shift_witness :
  get_date_range date_min (Member CURRENT_WEEK) (Some (date_of_ymd 2024 10 6))
  = Ok (date_of_ymd 2024 9 30, date_of_ymd 2024 10 6).
Proof.
  apply (proj2 get_date_range_shift date_min (date_of_ymd 2024 10 3)).
  - reflexivity.
  - vm_compute. split; congruence.
Defined.

(* ================================================================== *)
(** * Keywords for date ranges                                         *)
(* ================================================================== *)

Lemma str_startswith_iff (prefix s : str) :
  str_startswith prefix s = true <-> exists after, s = prefix ++ after.
Proof.
  revert s. induction prefix as [ | p prefix IH ]; intro s;
    cbn [str_startswith app].
  - split; [ intros _; now exists s | reflexivity ].
  - destruct s as [ | c s ].
    + split; [ discriminate | intros (after & H); discriminate ].
    + rewrite andb_true_iff, Z.eqb_eq, IH. split.
      * intros (-> & after & ->). now exists after.
      * intros (after & [= -> ->]). split; [ reflexivity | now exists after ].
Qed.

Lemma str_contains_iff (sub s : str) :
  str_contains sub s = true <-> occurs_in sub s.
Proof.
  unfold occurs_in.
  induction s as [ | c s IH ]; cbn [str_contains];
    rewrite orb_true_iff, str_startswith_iff.
  - split.
    + intros [ (after & H) | H ]; [ | discriminate ]. now exists [], after.
    + intros (before & after & H). left.
      destruct before; [ now exists after | discriminate ].
  - rewrite IH. split.
    + intros [ (after & H) | (before & after & ->) ].
      * now exists [], after.
      * now exists (c :: before), after.
    + intros (before & after & H). destruct before as [ | b before ].
      * left. now exists after.
      * right. injection H as -> ->. now exists before, after.
Qed.

Lemma first_keyword_None (items : list (str * DateRangeRequest)) (text : str) :
  first_keyword items text = None <->
  forall key value, In (key, value) items -> ~ occurs_in key text.
Proof.
  induction items as [ | [k v] rest IH ]; cbn [first_keyword In].
  - split; [ intros _ key value [] | reflexivity ].
  - destruct (str_contains k text) eqn:E.
    + split; [ discriminate | ].
      intro H. exfalso. apply (H k v); [ now left | ].
      now apply str_contains_iff.
    + rewrite IH. split.
      * intros H key value [ [= <- <-] | Hin ]; [ | now apply (H key value) ].
        rewrite <- str_contains_iff. congruence.
      * intros H key value Hin. apply (H key value). now right.
Qed.

Lemma first_keyword_Some (items : list (str * DateRangeRequest)) (text : str)
    (r : DateRangeRequest) :
  first_keyword items text = Some r <->
  exists earlier key later,
    items = earlier ++ (key, r) :: later
    /\ occurs_in key text
    /\ forall key' value, In (key', value) earlier -> ~ occurs_in key' text.
Proof.
  induction items as [ | [k v] rest IH ]; cbn [first_keyword].
  - split; [ discriminate | ].
    intros (earlier & key & later & H & _). destruct earlier; discriminate.
  - destruct (str_contains k text) eqn:E.
    + split.
      * intros [= <-]. exists [], k, rest.
        split; [ reflexivity | split; [ now apply str_contains_iff | ] ].
        intros key' value [].
      * intros (earlier & key & later & H & Hocc & Hnone).
        destruct earlier as [ | [k' v'] earlier ]; cbn [app] in H.
        -- now injection H as -> ->.
        -- injection H as Hk Hv Hrest. exfalso.
           apply (Hnone k' v'); [ now left | ].
           rewrite <- Hk. now apply str_contains_iff.
    + rewrite IH. split.
      * intros (earlier & key & later & -> & Hocc & Hnone).
        exists ((k, v) :: earlier), key, later.
        split; [ reflexivity | split; [ exact Hocc | ] ].
        intros key' value [ [= <- <-] | Hin ];
          [ rewrite <- str_contains_iff; congruence
          | now apply (Hnone key' value) ].
      * intros (earlier & key & later & H & Hocc & Hnone).
        destruct earlier as [ | [k' v'] earlier ]; cbn [app] in H.
        -- injection H as -> -> ->.
           apply str_contains_iff in Hocc. congruence.
        -- injection H as -> -> ->. exists earlier, key, later.
           split; [ reflexivity | split; [ exact Hocc | ] ].
           intros key' value Hin. apply (Hnone key' value). now right.
Qed.

(** X10.  Whatever [str.lower] is, [parse_date_range] answers with the
    request of the first keyword, in the order of its dictionary, that
    occurs somewhere in the lowercased text, and with [None] exactly
    when none of the six keywords occurs in it; the keyword for today
    wins over every other. *)
Theorem parse_date_range_first (str_lower : str -> str) (text : str) :
  (parse_date_range str_lower text = None <->
   forall key value,
     In (key, value) date_range_keywords ->
     ~ occurs_in key (str_lower text))
  /\ (forall r,
         parse_date_range str_lower text = Some r <->
         exists earlier key later,
           date_range_keywords = earlier ++ (key, r) :: later
           /\ occurs_in key (str_lower text)
           /\ forall key' value,
                In (key', value) earlier ->
                ~ occurs_in key' (str_lower text))
  /\ (occurs_in (u "сьогодні") (str_lower text) ->
      parse_date_range str_lower text = Some TODAY).
Proof.
  unfold parse_date_range. split; [ | split ].
  - apply first_keyword_None.
  - intro r. apply first_keyword_Some.
  - intro H. apply first_keyword_Some.
    exists [], (u "сьогодні"), (tl date_range_keywords).
    split; [ reflexivity | split; [ exact H | intros key' value [] ] ].
Qed.

Lemma parse_date_range_first_witness :
  parse_date_range sample_lower (u "Розклад на СЬОГОДНІ і завтра") = Some TODAY.
Proof.
  apply (proj2 (proj2 (parse_date_range_first sample_lower _))).
  exists (u "розклад на "), (u " і завтра"). reflexivity.
Defined.



(* ================================================================== *)
(** * Formatting a schedule                                            *)
(* ================================================================== *)

Section SortedBy.

Context {A : Type} (key : A -> Z).

Lemma insert_by_perm (x : A) (l : list A) :
  Permutation (insert_by key x l) (x :: l).
Proof.
  induction l as [ | y l IH ]; cbn [insert_by]; [ reflexivity | ].
  destruct (key x <=? key y); [ reflexivity | ].
  rewrite IH. apply perm_swap.
Qed.

Lemma sorted_by_perm (l : list A) : Permutation (sorted_by key l) l.
Proof.
  unfold sorted_by. induction l as [ | x l IH ]; cbn [fold_right];
    [ reflexivity | ].
  rewrite insert_by_perm. now constructor.
Qed.

Lemma insert_by_sorted (x : A) (l : list A) :
  StronglySorted (fun a b => key a <= key b) l ->
  StronglySorted (fun a b => key a <= key b) (insert_by key x l).
Proof.
  induction 1 as [ | y l Hsorted IH Hall ]; cbn [insert_by].
  - repeat constructor.
  - destruct (Z.leb_spec (key x) (key y)) as [ Hle | Hlt ].
    + constructor; [ now constructor | ].
      constructor; [ exact Hle | ].
      apply Forall_forall. intros z Hz.
      rewrite Forall_forall in Hall. specialize (Hall z Hz). lia.
    + constructor; [ exact IH | ].
      apply Forall_forall. intros z Hz.
      apply (Permutation_in _ (insert_by_perm x l)) in Hz.
      destruct Hz as [ <- | Hz ]; [ lia | ].
      rewrite Forall_forall in Hall. now apply Hall.
Qed.

Lemma sorted_by_sorted (l : list A) :
  StronglySorted (fun a b => key a <= key b) (sorted_by key l).
Proof.
  unfold sorted_by. induction l as [ | x l IH ]; cbn [fold_right].
  - constructor.
  - now apply insert_by_sorted.
Qed.

Lemma insert_by_filter (k : Z) (x : A) (l : list A) :
  filter (fun y => key y =? k) (insert_by key x l) =
  if key x =? k then x :: filter (fun y => key y =? k) l
  else filter (fun y => key y =? k) l.
Proof.
  induction l as [ | y l IH ]; cbn [insert_by filter].
  - now destruct (key x =? k).
  - destruct (Z.leb_spec (key x) (key y)) as [ Hle | Hlt ]; cbn [filter].
    + now destruct (key x =? k).
    + rewrite IH.
      destruct (Z.eqb_spec (key x) k) as [ Hx | Hx ];
        destruct (Z.eqb_spec (key y) k) as [ Hy | Hy ];
        try reflexivity; lia.
Qed.

(** The sort is stable: the elements of one key keep their order. *)
Lemma sorted_by_stable (k : Z) (l : list A) :
  filter (fun y => key y =? k) (sorted_by key l) =
  filter (fun y => key y =? k) l.
Proof.
  unfold sorted_by. induction l as [ | x l IH ]; cbn [fold_right filter];
    [ reflexivity | ].
  rewrite insert_by_filter, IH. reflexivity.
Qed.

(** Sorting a sorted list changes nothing. *)
Lemma sorted_by_id (l : list A) :
  StronglySorted (fun a b => key a <= key b) l -> sorted_by key l = l.
Proof.
  unfold sorted_by. induction 1 as [ | x l Hsorted IH Hall ];
    cbn [fold_right]; [ reflexivity | ].
  rewrite IH. destruct l as [ | y l ]; cbn [insert_by]; [ reflexivity | ].
  inversion Hall as [ | y' l' Hxy Hrest ]; subst.
  apply Z.leb_le in Hxy. now rewrite Hxy.
Qed.

Lemma sorted_strict (l : list A) :
  StronglySorted (fun a b => key a <= key b) l ->
  NoDup (map key l) ->
  StronglySorted (fun a b => key a < key b) l.
Proof.
  induction 1 as [ | x l Hsorted IH Hall ]; cbn [map]; intro Hnodup;
    [ constructor | ].
  inversion Hnodup as [ | k ks Hnotin Hrest ]; subst.
  constructor; [ now apply IH | ].
  apply Forall_forall. intros y Hy.
  rewrite Forall_forall in Hall. specialize (Hall y Hy).
  assert (key x <> key y).
  { intro E. apply Hnotin. rewrite E. now apply in_map. }
  lia.
Qed.

End SortedBy.

Lemma date_eqb_sym (a b : date) : date_eqb a b = date_eqb b a.
Proof. unfold date_eqb. apply Z.eqb_sym. Qed.

Lemma date_eqb_refl (a : date) : date_eqb a a = true.
Proof. now apply date_eqb_eq. Qed.

Lemma day_append_get (d day : date) (item : ScheduleItem) (days : day_dict) :
  day_get d (day_append day item days) =
  if date_eqb d day then day_get d days ++ [item] else day_get d days.
Proof.
  induction days as [ | [k items] days IH ]; cbn [day_append day_get].
  - destruct (date_eqb d day); reflexivity.
  - destruct (date_eqb day k) eqn:Hday; cbn [day_get].
    + apply date_eqb_eq in Hday. subst k.
      destruct (date_eqb d day); reflexivity.
    + rewrite IH.
      destruct (date_eqb d k) eqn:Hd; [ | reflexivity ].
      apply date_eqb_eq in Hd. subst k.
      rewrite date_eqb_sym in Hday. now rewrite Hday.
Qed.

Lemma day_append_keys (day : date) (item : ScheduleItem) (days : day_dict) :
  map fst (day_append day item days) =
  if existsb (date_eqb day) (map fst days) then map fst days
  else map fst days ++ [day].
Proof.
  induction days as [ | [k items] days IH ];
    cbn [day_append map fst existsb app]; [ reflexivity | ].
  destruct (date_eqb day k); cbn [map fst orb]; [ reflexivity | ].
  rewrite IH. now destruct (existsb (date_eqb day) (map fst days)).
Qed.

Lemma day_append_NoDup (day : date) (item : ScheduleItem) (days : day_dict) :
  NoDup (map fst days) -> NoDup (map fst (day_append day item days)).
Proof.
  intro H. rewrite day_append_keys.
  destruct (existsb (date_eqb day) (map fst days)) eqn:E; [ exact H | ].
  apply NoDup_app; [ exact H | repeat constructor; auto | ].
  intros x Hx [ <- | [] ].
  apply existsb_date_In in Hx. congruence.
Qed.

Lemma day_append_nonempty (day : date) (item : ScheduleItem) (days : day_dict) :
  Forall (fun entry => snd entry <> []) days ->
  Forall (fun entry => snd entry <> []) (day_append day item days).
Proof.
  induction 1 as [ | [k items] days Hk Hrest IH ]; cbn [day_append].
  - repeat constructor. discriminate.
  - destruct (date_eqb day k); constructor; auto.
    cbn [snd]. destruct items; discriminate.
Qed.

Lemma day_get_In (d : date) (l : list ScheduleItem) (days : day_dict) :
  NoDup (map fst days) -> In (d, l) days -> day_get d days = l.
Proof.
  induction days as [ | [k items] days IH ]; cbn [map fst day_get In];
    [ intros _ [] | ].
  intros Hnodup Hin. inversion Hnodup as [ | k' ks Hnotin Hrest ]; subst.
  destruct Hin as [ [= -> ->] | Hin ].
  - now rewrite date_eqb_refl.
  - destruct (date_eqb d k) eqn:E; [ | now apply IH ].
    apply date_eqb_eq in E. subst k. exfalso. apply Hnotin.
    change d with (fst (d, l)). now apply in_map.
Qed.

Lemma day_get_key (d : date) (days : day_dict) :
  In d (map fst days) -> In (d, day_get d days) days.
Proof.
  induction days as [ | [k items] days IH ]; cbn [map fst day_get In];
    [ intros [] | ].
  destruct (date_eqb d k) eqn:E.
  - apply date_eqb_eq in E. subst k. now left.
  - intros [ <- | Hin ]; [ rewrite date_eqb_refl in E; discriminate | ].
    right. now apply IH.
Qed.

(** What the first loop leaves in [schedule_by_day]. *)
Lemma group_fold (items : list ScheduleItem) :
  forall days,
    NoDup (map fst days) ->
    Forall (fun entry => snd entry <> []) days ->
    let days' :=
      fold_left
        (fun days item => day_append (dt_date (item_start item)) item days)
        items days in
    NoDup (map fst days')
    /\ Forall (fun entry => snd entry <> []) days'
    /\ (forall d, day_get d days' = day_get d days ++ filter (on_date d) items)
    /\ (forall d,
           In d (map fst days') <->
           In d (map fst days)
           \/ exists x, In x items /\ dt_date (item_start x) = d).
Proof.
  induction items as [ | x items IH ]; intros days Hnodup Hne;
    cbn [fold_left filter].
  - repeat split; auto.
    + intro d. now rewrite app_nil_r.
    + intros [ H | (x & [] & _) ]. exact H.
  - destruct (IH (day_append (dt_date (item_start x)) x days)
                (day_append_NoDup _ _ _ Hnodup)
                (day_append_nonempty _ _ _ Hne))
      as (H1 & H2 & H3 & H4).
    cbv zeta. repeat split; auto.
    + intro d. rewrite H3, day_append_get. unfold on_date.
      rewrite (date_eqb_sym (dt_date (item_start x)) d).
      destruct (date_eqb d (dt_date (item_start x)));
        [ now rewrite <- app_assoc | reflexivity ].
    + rewrite H4, day_append_keys.
      destruct (existsb (date_eqb (dt_date (item_start x))) (map fst days))
        eqn:E.
      * intros [ H | (y & Hy & Hd) ]; [ now left | ].
        right. exists y. split; [ now right | exact Hd ].
      * rewrite in_app_iff. cbn [In].
        intros [ [ H | [ H | [] ] ] | (y & Hy & Hd) ].
        -- now left.
        -- right. exists x. split; [ now left | exact H ].
        -- right. exists y. split; [ now right | exact Hd ].
    + rewrite H4, day_append_keys.
      intros [ H | (y & [ <- | Hy ] & Hd) ].
      * left.
        destruct (existsb _ _); [ exact H | apply in_or_app; now left ].
      * left. subst d.
        destruct (existsb (date_eqb (dt_date (item_start x))) (map fst days))
          eqn:E.
        -- now apply existsb_date_In.
        -- apply in_or_app. right. now left.
      * right. now exists y.
Qed.

Lemma group_by_day_spec (items : list ScheduleItem) :
  NoDup (map fst (group_by_day items))
  /\ (forall d l,
         In (d, l) (group_by_day items) ->
         l = filter (on_date d) items /\ l <> [])
  /\ (forall x,
         In x items ->
         In (dt_date (item_start x), filter (on_date (dt_date (item_start x))) items)
            (group_by_day items)).
Proof.
  destruct (group_fold items [] (NoDup_nil _) (Forall_nil _))
    as (H1 & H2 & H3 & H4).
  cbv zeta in *. fold (group_by_day items) in *.
  split; [ exact H1 | split ].
  - intros d l Hin. split.
    + rewrite <- (day_get_In _ _ _ H1 Hin). apply H3.
    + rewrite Forall_forall in H2. exact (H2 _ Hin).
  - intros x Hx.
    assert (Hkey : In (dt_date (item_start x)) (map fst (group_by_day items))).
    { apply H4. right. now exists x. }
    apply day_get_key in Hkey. now rewrite H3 in Hkey.
Qed.

Lemma toordinal_injective (a b : date) : toordinal a = toordinal b -> a = b.
Proof. destruct a, b. cbn. now intros ->. Qed.

(** X12.  [format_schedule_for_telegram] yields one message for every
    day that has an item, the days in ascending order; the items of a
    day's message are the items received for that day (none lost, none
    added), ordered by slot, and items of one slot keep the order in
    which they were received. *)
Theorem format_schedule_days (format_date : date -> str)
    (schedule_items : list ScheduleItem) :
  exists days,
    format_schedule_for_telegram format_date schedule_items =
    map (day_message format_date) days
    /\ StronglySorted (fun a b => toordinal (fst a) < toordinal (fst b)) days
    /\ (forall d l,
           In (d, l) days ->
           l <> []
           /\ Permutation l (filter (on_date d) schedule_items)
           /\ StronglySorted (fun a b => item_slot a <= item_slot b) l
           /\ forall k,
                filter (fun x => item_slot x =? k) l =
                filter (fun x => item_slot x =? k)
                       (filter (on_date d) schedule_items))
    /\ (forall x,
           In x schedule_items ->
           exists l, In (dt_date (item_start x), l) days /\ In x l).
Proof.
  exists (days_in_order schedule_items).
  destruct (group_by_day_spec schedule_items) as (Hnodup & Hentries & Hall).
  pose proof (sorted_by_perm (fun entry : date * list ScheduleItem =>
                                toordinal (fst entry))
                (sort_each_day (group_by_day schedule_items))) as Hperm.
  fold (days_in_order schedule_items) in Hperm.
  assert (Hin : forall d l,
             In (d, l) (days_in_order schedule_items) <->
             exists l0, In (d, l0) (group_by_day schedule_items)
                        /\ l = sorted_by item_slot l0).
  { intros d l. split.
    - intro H. apply (Permutation_in _ Hperm) in H.
      unfold sort_each_day in H. apply in_map_iff in H.
      destruct H as ([d0 l0] & [= <- <-] & H0). now exists l0.
    - intros (l0 & H0 & ->).
      apply (Permutation_in _ (Permutation_sym Hperm)).
      unfold sort_each_day. apply in_map_iff. now exists (d, l0). }
  split; [ reflexivity | split; [ | split ] ].
  - apply sorted_strict; [ apply sorted_by_sorted | ].
    apply (Permutation_NoDup
             (l := map (fun entry : date * list ScheduleItem =>
                          toordinal (fst entry))
                       (sort_each_day (group_by_day schedule_items)))).
    + apply Permutation_map, Permutation_sym, Hperm.
    + unfold sort_each_day. rewrite map_map. cbn [fst].
      rewrite <- (map_map fst toordinal).
      apply Injective_map_NoDup; [ | exact Hnodup ].
      intros a b. apply toordinal_injective.
  - intros d l Hl. apply Hin in Hl. destruct Hl as (l0 & H0 & ->).
    destruct (Hentries _ _ H0) as [ -> Hne ].
    repeat split.
    + intro E. apply Hne.
      apply Permutation_nil. rewrite <- E. apply sorted_by_perm.
    + apply sorted_by_perm.
    + apply sorted_by_sorted.
    + intro k. apply sorted_by_stable.
  - intros x Hx. specialize (Hall x Hx).
    eexists. split.
    + apply Hin. eexists. split; [ exact Hall | reflexivity ].
    + apply (Permutation_in _ (Permutation_sym (sorted_by_perm _ _))).
      apply filter_In. split; [ exact Hx | ]. unfold on_date.
      apply date_eqb_refl.
Qed.

Lemma day_append_new (d : date) (x : ScheduleItem) (days : day_dict) :
  ~ In d (map fst days) -> day_append d x days = days ++ [(d, [x])].
Proof.
  induction days as [ | [k items] days IH ]; cbn [map fst In day_append app];
    [ reflexivity | ].
  intro H. destruct (date_eqb d k) eqn:E.
  - apply date_eqb_eq in E. subst k. tauto.
  - rewrite IH by tauto. reflexivity.
Qed.

Lemma day_append_last (d : date) (x : ScheduleItem) (l : list ScheduleItem)
    (days : day_dict) :
  ~ In d (map fst days) ->
  day_append d x (days ++ [(d, l)]) = days ++ [(d, l ++ [x])].
Proof.
  induction days as [ | [k items] days IH ]; cbn [map fst In day_append app].
  - now rewrite date_eqb_refl.
  - intro H. destruct (date_eqb d k) eqn:E.
    + apply date_eqb_eq in E. subst k. tauto.
    + rewrite IH by tauto. reflexivity.
Qed.

Lemma fold_block_last (d : date) (block : list ScheduleItem) :
  Forall (fun x => dt_date (item_start x) = d) block ->
  forall (l : list ScheduleItem) (days : day_dict),
    ~ In d (map fst days) ->
    fold_left
      (fun days item => day_append (dt_date (item_start item)) item days)
      block (days ++ [(d, l)])
    = days ++ [(d, l ++ block)].
Proof.
  induction 1 as [ | x block Hx Hblock IH ]; intros l days Hd;
    cbn [fold_left].
  - now rewrite app_nil_r.
  - rewrite Hx, day_append_last, IH by exact Hd.
    now rewrite <- app_assoc.
Qed.

Lemma fold_days (bucket : list ScheduleTemplateItem) (ds : list date) :
  NoDup ds ->
  forall days : day_dict,
    (forall d, In d ds -> ~ In d (map fst days)) ->
    fold_left
      (fun days item => day_append (dt_date (item_start item)) item days)
      (flat_map (day_occurrences bucket) ds) days
    = days
      ++ flat_map
           (fun d =>
              match day_occurrences bucket d with
              | [] => []
              | x :: l => [(d, x :: l)]
              end)
           ds.
Proof.
  induction 1 as [ | d ds Hnotin Hnodup IH ]; intros days Hfresh;
    cbn [flat_map]; [ now rewrite app_nil_r | ].
  rewrite fold_left_app.
  assert (Hblock : Forall (fun x => dt_date (item_start x) = d)
                          (day_occurrences bucket d)).
  { apply Forall_forall. intro x. apply day_occurrences_date. }
  destruct (day_occurrences bucket d) as [ | x l ] eqn:E.
  - cbn [fold_left app]. apply IH.
    intros d' Hd'. apply Hfresh. now right.
  - pose proof (Forall_inv Hblock) as Hx.
    pose proof (Forall_inv_tail Hblock) as Hl. cbv beta in Hx.
    cbn [fold_left]. rewrite Hx.
    rewrite day_append_new by (apply Hfresh; now left).
    rewrite (fold_block_last _ _ Hl) by (apply Hfresh; now left).
    rewrite IH.
    + now rewrite <- app_assoc.
    + intros d' Hd'. rewrite map_app, in_app_iff. cbn [map fst In].
      intros [ H | [ <- | [] ] ]; [ | contradiction ].
      revert H. apply Hfresh. now right.
Qed.

Lemma occurrence_days_ascending (bucket : list ScheduleTemplateItem)
    (ds : list date) :
  StronglySorted (fun a b => toordinal a <= toordinal b) ds ->
  StronglySorted
    (fun a b : date * list ScheduleItem =>
       toordinal (fst a) <= toordinal (fst b))
    (flat_map
       (fun d =>
          match day_occurrences bucket d with
          | [] => []
          | x :: l => [(d, sorted_by item_slot (x :: l))]
          end)
       ds).
Proof.
  induction 1 as [ | d ds Hsorted IH Hall ]; cbn [flat_map];
    [ constructor | ].
  destruct (day_occurrences bucket d) as [ | x l ]; cbn [app];
    [ exact IH | ].
  constructor; [ exact IH | ].
  apply Forall_forall. intros [d' l'] Hin. cbn [fst].
  apply in_flat_map in Hin. destruct Hin as (d0 & Hd0 & Hin).
  rewrite Forall_forall in Hall. specialize (Hall d0 Hd0).
  destruct (day_occurrences bucket d0); [ destruct Hin | ].
  destruct Hin as [ [= <- _] | [] ]. exact Hall.
Qed.

Lemma days_in_order_expand (bucket : list ScheduleTemplateItem)
    (start_ end_ : date) :
  days_in_order (expand bucket start_ end_) =
  occurrence_days bucket start_ end_.
Proof.
  unfold days_in_order, group_by_day, expand, occurrence_days.
  rewrite (fold_days bucket _ (NoDup_date_range start_ end_) [])
    by (intros d _ []).
  cbn [app].
  assert (Hsort :
            sort_each_day
              (flat_map
                 (fun d =>
                    match day_occurrences bucket d with
                    | [] => []
                    | x :: l => [(d, x :: l)]
                    end)
                 (date_range start_ end_))
            = flat_map
                (fun d =>
                   match day_occurrences bucket d with
                   | [] => []
                   | x :: l => [(d, sorted_by item_slot (x :: l))]
                   end)
                (date_range start_ end_)).
  { unfold sort_each_day.
    induction (date_range start_ end_) as [ | d ds IH ]; cbn [flat_map map];
      [ reflexivity | ].
    rewrite map_app, IH. now destruct (day_occurrences bucket d). }
  rewrite Hsort. apply sorted_by_id.
  apply occurrence_days_ascending, date_range_ascending.
Qed.

(** X13.  What [calculate_schedule] returned is formatted into one
    message for each day of the range on which the group has an
    occurrence, in calendar order, never more messages than days; the
    occurrences that [calculate_schedule] left in load order appear in
    each message sorted by slot. *)
Theorem format_calculated_schedule (format_date : date -> str)
    (self : ScheduleBook) (group : str) (start_ end_ : date)
    (bucket : list ScheduleTemplateItem) (schedule : list ScheduleItem) :
  dict_get group (_group_index self) = Some bucket ->
  calculate_schedule self group start_ end_ = Ok schedule ->
  format_schedule_for_telegram format_date schedule =
  map (day_message format_date)
      (flat_map
         (fun d =>
            match map (occurrence d) (filter (occurs_on d) bucket) with
            | [] => []
            | x :: l => [(d, sorted_by item_slot (x :: l))]
            end)
         (date_range start_ end_))
  /\ (List.length (format_schedule_for_telegram format_date schedule)
      <= List.length (date_range start_ end_))%nat.
Proof.
  intros Hget Hcalc.
  apply (calculate_schedule_Ok _ _ _ _ _ _ Hget) in Hcalc. subst schedule.
  unfold format_schedule_for_telegram. rewrite days_in_order_expand.
  split; [ reflexivity | ].
  rewrite length_map. unfold occurrence_days.
  induction (date_range start_ end_) as [ | d ds IH ]; cbn [flat_map];
    [ apply Nat.le_refl | ].
  rewrite List.length_app. cbn [List.length].
  destruct (day_occurrences bucket d); cbn [List.length]; lia.
Qed.

Lemma format_calculated_schedule_witness :
  format_schedule_for_telegram (fun _ => u "7 жовт. 2024 р.")
    [occurrence (date_of_ymd 2024 10 7) lab;
     occurrence (date_of_ymd 2024 10 7) lecture]
  = [ u "*7 жовт. 2024 р.*" ++ [10; 10]
      ++ u "1 (09:00 - 10:30): Lecture " ++ [10; 10; 10]
      ++ u "3 (14:00 - 15:30): Lab " ++ [10; 10; 10] ].
Proof.
  assert (H1 : dict_get (u "GroupD") (_group_index sample_book)
               = Some late_first) by reflexivity.
  assert (H2 : calculate_schedule sample_book (u "GroupD")
                 (date_of_ymd 2024 10 7) (date_of_ymd 2024 10 7)
               = Ok [occurrence (date_of_ymd 2024 10 7) lab;
                     occurrence (date_of_ymd 2024 10 7) lecture])
    by reflexivity.
  etransitivity;
    [ exact (proj1 (format_calculated_schedule _ _ _ _ _ _ _ H1 H2))
    | vm_compute; reflexivity ].
Defined.

(* ================================================================== *)
(** * Parsing times and dates                                          *)
(* ================================================================== *)









Section ParserFacts.

Variable py_int : str -> option Z.

Lemma int_of_str_raises (s : str) (e : exn) :
  int_of_str py_int s = Raise e -> e = ValueError.
Proof.
  unfold int_of_str. destruct (py_int s); [ discriminate | now intros [= <-] ].
Qed.



End ParserFacts.



Lemma map_result_Ok {A B : Type} (f : A -> result B) (l : list A)
    (ys : list B) :
  map_result f l = Ok ys <-> Forall2 (fun x y => f x = Ok y) l ys.
Proof.
  revert ys. induction l as [ | x l IH ]; intro ys; cbn [map_result].
  - split; [ intros [= <-]; constructor | intro H; now inversion H ].
  - destruct (f x) as [ y | e ] eqn:Hx; cbn [bind].
    + destruct (map_result f l) as [ ys' | e ] eqn:Hl; cbn [bind].
      * split.
        -- intros [= <-]. constructor; [ exact Hx | now apply IH ].
        -- intro H. inversion H as [ | x' y' l' ys'' Hy Hrest ]; subst.
           apply IH in Hrest. congruence.
      * split; [ discriminate | ].
        intro H. inversion H as [ | x' y' l' ys'' Hy Hrest ]; subst.
        apply IH in Hrest. discriminate.
    + split; [ discriminate | ].
      intro H. inversion H; subst. congruence.
Qed.

Lemma map_result_raises {A B : Type} (f : A -> result B) (l : list A)
    (e : exn) :
  map_result f l = Raise e -> exists x, In x l /\ f x = Raise e.
Proof.
  induction l as [ | x l IH ]; cbn [map_result]; [ discriminate | ].
  destruct (f x) as [ y | e' ] eqn:Hx; cbn [bind].
  - destruct (map_result f l) as [ ys | e' ]; cbn [bind]; [ discriminate | ].
    intros [= ->]. destruct (IH eq_refl) as (x' & Hin & Hx').
    exists x'. split; [ now right | exact Hx' ].
  - intros [= ->]. exists x. split; [ now left | exact Hx ].
Qed.

Lemma days_in_month_bounds (year month : Z) :
  1 <= month <= 12 ->
  _days_before_month year month + _days_in_month year month
  <= 365 + (if _is_leap year then 1 else 0)
  /\ 0 <= _days_before_month year month.
Proof.
  intro Hm. unfold _days_before_month, _days_in_month.
  assert (Hcases : month = 1 \/ month = 2 \/ month = 3 \/ month = 4
                   \/ month = 5 \/ month = 6 \/ month = 7 \/ month = 8
                   \/ month = 9 \/ month = 10 \/ month = 11 \/ month = 12)
    by lia.
  destruct (_is_leap year);
    repeat (destruct Hcases as [ -> | Hcases ];
            [ vm_compute; split; discriminate | ]);
    subst; vm_compute; split; discriminate.
Qed.

Lemma days_before_year_bounds (year : Z) :
  1 <= year <= 9999 ->
  0 <= _days_before_year year
  /\ _days_before_year year + 365 + (if _is_leap year then 1 else 0)
     <= _MAXORDINAL.
Proof.
  intro Hy. unfold _days_before_year, _MAXORDINAL.
  pose proof (Z.div_mod (year - 1) 4 ltac:(lia)) as E4.
  pose proof (Z.mod_pos_bound (year - 1) 4 ltac:(lia)) as B4.
  pose proof (Z.div_mod (year - 1) 100 ltac:(lia)) as E100.
  pose proof (Z.mod_pos_bound (year - 1) 100 ltac:(lia)) as B100.
  pose proof (Z.div_mod (year - 1) 400 ltac:(lia)) as E400.
  pose proof (Z.mod_pos_bound (year - 1) 400 ltac:(lia)) as B400.
  cbv zeta.
  destruct (Z.eq_dec year 9999) as [ -> | Hne ]; [ cbn; lia | ].
  split; [ lia | ].
  assert ((if _is_leap year then 1 else 0) <= 1)
    by (destruct (_is_leap year); lia).
  lia.
Qed.

Lemma date_new_Ok (year month day : Z) (d : date) :
  date_new year month day = Ok d <->
  d = date_of_ymd year month day
  /\ 1 <= year <= 9999 /\ 1 <= month <= 12
  /\ 1 <= day <= _days_in_month year month.
Proof.
  unfold date_new.
  destruct (Z.leb_spec 1 year), (Z.leb_spec year 9999),
    (Z.leb_spec 1 month), (Z.leb_spec month 12), (Z.leb_spec 1 day),
    (Z.leb_spec day (_days_in_month year month)); cbn [andb];
    split; try discriminate; try (intros (_ & ? & ? & ?); lia).
  - intros [= <-]. repeat split; lia.
  - now intros (-> & _).
Qed.

(** A date the constructor accepts is a day [date] can hold. *)
Lemma date_new_valid (year month day : Z) (d : date) :
  date_new year month day = Ok d -> valid_date d.
Proof.
  intro H. apply date_new_Ok in H. destruct H as (-> & Hy & Hm & Hd).
  unfold valid_date, date_of_ymd, _ymd2ord. cbn [toordinal].
  pose proof (days_in_month_bounds year month Hm).
  pose proof (days_before_year_bounds year Hy). lia.
Qed.

Section DateFacts.

Variable py_int : str -> option Z.
Variable is_digit : char -> bool.
Variable is_word : char -> bool.
Variable current_year : Z.

Lemma date_pattern_here_shape (prev : option char) (s : str) :
  date_pattern_here is_digit is_word prev s = true ->
  exists c1 c2 c4 c5,
    firstn 5 s = [c1; c2; 46; c4; c5]
    /\ is_digit c1 = true /\ is_digit c2 = true
    /\ is_digit c4 = true /\ is_digit c5 = true.
Proof.
  unfold date_pattern_here.
  destruct s as [ | c1 [ | c2 [ | c3 [ | c4 [ | c5 rest ] ] ] ] ];
    try discriminate.
  rewrite !andb_true_iff, Z.eqb_eq.
  intros ((((((_ & H1) & H2) & ->) & H4) & H5) & _).
  exists c1, c2, c4, c5. cbn [firstn]. auto.
Qed.

Lemma findall_dates_shape (s : str) :
  forall skip prev,
    Forall
      (fun m =>
         exists c1 c2 c4 c5,
           m = [c1; c2; 46; c4; c5]
           /\ is_digit c1 = true /\ is_digit c2 = true
           /\ is_digit c4 = true /\ is_digit c5 = true)
      (findall_dates is_digit is_word skip prev s).
Proof.
  induction s as [ | c s IH ]; intros skip prev; cbn [findall_dates];
    [ constructor | ].
  destruct skip as [ | k ]; [ | apply IH ].
  destruct (date_pattern_here is_digit is_word prev (c :: s)) eqn:E;
    [ | apply IH ].
  constructor; [ | apply IH ].
  exact (date_pattern_here_shape _ _ E).
Qed.

Lemma occur_in_order_cons (matches : list str) (c : char) (text : str) :
  occur_in_order matches text -> occur_in_order matches (c :: text).
Proof.
  destruct matches as [ | m rest ]; cbn [occur_in_order]; [ auto | ].
  intros (before & after & -> & Hrest).
  exists (c :: before), after. split; [ reflexivity | exact Hrest ].
Qed.

Lemma findall_dates_order (s : str) :
  forall skip prev,
    occur_in_order (findall_dates is_digit is_word skip prev s) (skipn skip s).
Proof.
  induction s as [ | c s IH ]; intros skip prev; cbn [findall_dates].
  - destruct skip; exact I.
  - destruct skip as [ | k ]; [ | cbn [skipn]; apply IH ].
    destruct (date_pattern_here is_digit is_word prev (c :: s)) eqn:E.
    + cbn [occur_in_order skipn].
      exists [], (skipn 5 (c :: s)). split.
      * cbn [app]. symmetry. apply firstn_skipn.
      * cbn [skipn]. apply (IH 4%nat).
    + cbn [skipn]. apply occur_in_order_cons. apply (IH 0%nat).
Qed.

Lemma findall_dates_no_dot (s : str) :
  ~ In 46 s ->
  forall skip prev, findall_dates is_digit is_word skip prev s = [].
Proof.
  induction s as [ | c s IH ]; intros Hdot skip prev; cbn [findall_dates];
    [ reflexivity | ].
  assert (Hs : ~ In 46 s) by (intro H; apply Hdot; now right).
  destruct skip as [ | k ]; [ | now apply IH ].
  destruct (date_pattern_here is_digit is_word prev (c :: s)) eqn:E;
    [ | now apply IH ].
  exfalso. apply date_pattern_here_shape in E.
  destruct E as (c1 & c2 & c4 & c5 & Hfirst & _).
  apply Hdot.
  rewrite <- (firstn_skipn 5 (c :: s)), Hfirst.
  apply in_or_app. left. cbn. auto.
Qed.

Lemma findall_dates_short (s : str) :
  (List.length s < 5)%nat ->
  forall skip prev, findall_dates is_digit is_word skip prev s = [].
Proof.
  induction s as [ | c s IH ]; intros Hlen skip prev; cbn [findall_dates];
    [ reflexivity | ].
  cbn [List.length] in Hlen.
  destruct skip as [ | k ]; [ | apply IH; lia ].
  destruct (date_pattern_here is_digit is_word prev (c :: s)) eqn:E;
    [ | apply IH; lia ].
  exfalso. apply date_pattern_here_shape in E.
  destruct E as (c1 & c2 & c4 & c5 & Hfirst & _).
  apply (f_equal (@List.length Z)) in Hfirst.
  rewrite length_firstn in Hfirst. cbn [List.length] in Hfirst. lia.
Qed.

Lemma date_of_match_shape (c1 c2 c4 c5 : Z) :
  is_digit 46 = false ->
  is_digit c1 = true -> is_digit c2 = true ->
  is_digit c4 = true -> is_digit c5 = true ->
  date_of_match py_int current_year [c1; c2; 46; c4; c5] =
  (month <- int_of_str py_int [c4; c5] ;;
   day <- int_of_str py_int [c1; c2] ;;
   date_new current_year month day).
Proof.
  intros Hdot H1 H2 H4 H5.
  assert (Hne : forall c, is_digit c = true -> (c =? 46) = false).
  { intros c Hc. destruct (Z.eqb_spec c 46) as [ -> | ]; congruence. }
  unfold date_of_match.
  assert (Hsplit : str_split 46 [c1; c2; 46; c4; c5] = [[c1; c2]; [c4; c5]]).
  { cbn [str_split]. rewrite (Hne c1), (Hne c2), (Hne c4), (Hne c5) by auto.
    reflexivity. }
  rewrite Hsplit. reflexivity.
Qed.

Lemma date_of_match_raises (c1 c2 c4 c5 : Z) (e : exn) :
  is_digit 46 = false ->
  is_digit c1 = true -> is_digit c2 = true ->
  is_digit c4 = true -> is_digit c5 = true ->
  date_of_match py_int current_year [c1; c2; 46; c4; c5] = Raise e ->
  e = ValueError.
Proof.
  intros Hdot H1 H2 H4 H5.
  rewrite date_of_match_shape by auto.
  unfold int_of_str, date_new.
  destruct (py_int [c4; c5]); cbn [bind]; [ | now intros [= <-] ].
  destruct (py_int [c1; c2]); cbn [bind]; [ | now intros [= <-] ].
  destruct (_ && _); [ discriminate | now intros [= <-] ].
Qed.

End DateFacts.

(** X15.  A text without a dot, or of fewer than five characters,
    holds no date: [parse_dates_from_text] returns the empty list for
    it, whatever the digits, the word characters and the year are. *)
Theorem parse_dates_none (py_int : str -> option Z)
    (is_digit is_word : char -> bool) (current_year : Z) (text : str) :
  ~ In 46 text \/ (List.length text < 5)%nat ->
  parse_dates_from_text py_int is_digit is_word current_year text = Ok [].
Proof.
  intro H. unfold parse_dates_from_text.
  assert (Hnone : findall_dates is_digit is_word 0 None text = []).
  { destruct H as [ H | H ];
      [ now apply findall_dates_no_dot | now apply findall_dates_short ]. }
  now rewrite Hnone.
Qed.

Lemma parse_dates_none_witness :
  parse_dates_from_text sample_int sample_digit sample_word 2024
                        (u "Math 0710") = Ok [].
Proof.
  apply parse_dates_none. left. vm_compute. intuition discriminate.
Defined.

(** X16.  With a dot that is no digit: [parse_dates_from_text] returns
    a list exactly when every match of the pattern is a day and a month
    of the current year that [date] accepts, one date for each match in
    the order of the text, each a day [date] can hold; a single match
    that is no such day (a month above 12, a day the month does not
    have) makes the whole call raise, and what it raises is always
    [ValueError]. *)
Theorem parse_dates_result (py_int : str -> option Z)
    (is_digit is_word : char -> bool) (current_year : Z) (text : str) :
  is_digit 46 = false ->
  (forall ds,
      parse_dates_from_text py_int is_digit is_word current_year text = Ok ds
      <->
      Forall2
        (fun m d =>
           exists c1 c2 c4 c5 month day,
             m = [c1; c2; 46; c4; c5]
             /\ py_int [c4; c5] = Some month
             /\ py_int [c1; c2] = Some day
             /\ 1 <= current_year <= 9999
             /\ 1 <= month <= 12
             /\ 1 <= day <= _days_in_month current_year month
             /\ d = date_of_ymd current_year month day)
        (findall_dates is_digit is_word 0 None text) ds)
  /\ (forall ds,
         parse_dates_from_text py_int is_digit is_word current_year text = Ok ds ->
         Forall valid_date ds)
  /\ (forall e,
         parse_dates_from_text py_int is_digit is_word current_year text
         = Raise e ->
         e = ValueError).
Proof.
  intro Hdot. unfold parse_dates_from_text.
  pose proof (findall_dates_shape is_digit is_word text 0 None) as Hshape.
  set (found := findall_dates is_digit is_word 0 None text) in *.
  clearbody found.
  split; [ | split ].
  - intro ds. rewrite map_result_Ok. split.
    + intro H. induction H as [ | m d ms ds' Hm Hrest IH ]; [ constructor | ].
      inversion Hshape as [ | m' ms' Hfirst Hothers ]; subst.
      constructor; [ | now apply IH ].
      destruct Hfirst as (c1 & c2 & c4 & c5 & -> & H1 & H2 & H4 & H5).
      rewrite (date_of_match_shape _ _ _ _ _ _ _ Hdot H1 H2 H4 H5) in Hm.
      unfold int_of_str in Hm. revert Hm.
      destruct (py_int [c4; c5]) as [ month | ] eqn:Emonth; cbn [bind];
        [ | discriminate ].
      destruct (py_int [c1; c2]) as [ day | ] eqn:Eday; cbn [bind];
        [ | discriminate ].
      intro Hm. apply date_new_Ok in Hm. destruct Hm as (-> & Hy & Hmo & Hd).
      exists c1, c2, c4, c5, month, day. auto 10.
    + intro H. induction H as [ | m d ms ds' Hm Hrest IH ]; [ constructor | ].
      inversion Hshape as [ | m' ms' Hfirst Hothers ]; subst.
      constructor; [ | now apply IH ].
      destruct Hfirst as (c1 & c2 & c4 & c5 & -> & H1 & H2 & H4 & H5).
      destruct Hm as (c1' & c2' & c4' & c5' & month & day & [= <- <- <- <-]
                      & Hmonth & Hday & Hy & Hmo & Hd & ->).
      rewrite (date_of_match_shape _ _ _ _ _ _ _ Hdot H1 H2 H4 H5).
      unfold int_of_str. rewrite Hmonth, Hday. cbn [bind].
      apply date_new_Ok. auto.
  - intros ds H. apply map_result_Ok in H.
    induction H as [ | m d ms ds' Hm Hrest IH ]; [ constructor | ].
    inversion Hshape as [ | m' ms' Hfirst Hothers ]; subst.
    constructor; [ | now apply IH ].
    destruct Hfirst as (c1 & c2 & c4 & c5 & -> & H1 & H2 & H4 & H5).
    rewrite (date_of_match_shape _ _ _ _ _ _ _ Hdot H1 H2 H4 H5) in Hm.
    unfold int_of_str in Hm. revert Hm.
    destruct (py_int [c4; c5]); cbn [bind]; [ | discriminate ].
    destruct (py_int [c1; c2]); cbn [bind]; [ | discriminate ].
    apply date_new_valid.
  - intros e H. apply map_result_raises in H. destruct H as (m & Hin & Hm).
    rewrite Forall_forall in Hshape.
    destruct (Hshape m Hin) as (c1 & c2 & c4 & c5 & -> & H1 & H2 & H4 & H5).
    exact (date_of_match_raises _ _ _ _ _ _ _ _ Hdot H1 H2 H4 H5 Hm).
Qed.

Lemma parse_dates_result_witness :
  parse_dates_from_text sample_int sample_digit sample_word 2024
                        (u "Lecture 18.30") = Raise ValueError.
Proof.
  destruct (parse_dates_from_text sample_int sample_digit sample_word 2024
                                  (u "Lecture 18.30")) as [ ds | e ] eqn:H.
  - discriminate H.
  - f_equal.
    exact (proj2 (proj2 (parse_dates_result sample_int sample_digit
                           sample_word 2024 (u "Lecture 18.30") eq_refl))
                 e H).
Defined.

(** X17.  Every match that [parse_dates_from_text] turns into a date is
    five characters of the text, two digits, a dot and two digits, and
    the matches lie in the text one behind the other, none reaching
    into the next. *)
Theorem findall_dates_matches (is_digit is_word : char -> bool) (text : str) :
  Forall
    (fun m =>
       exists c1 c2 c4 c5,
         m = [c1; c2; 46; c4; c5]
         /\ is_digit c1 = true /\ is_digit c2 = true
         /\ is_digit c4 = true /\ is_digit c5 = true)
    (findall_dates is_digit is_word 0 None text)
  /\ occur_in_order (findall_dates is_digit is_word 0 None text) text.
Proof.
  split.
  - apply findall_dates_shape.
  - exact (findall_dates_order is_digit is_word text 0 None).
Qed.

(* ================================================================== *)
(** * The user catalog                                                 *)
(* ================================================================== *)

Section UserCatalogFacts.

Context {K V : Type} (key_eqb : K -> K -> bool).
Hypothesis key_eqb_eq : forall a b, key_eqb a b = true <-> a = b.

Lemma key_eqb_refl (a : K) : key_eqb a a = true.
Proof. now apply key_eqb_eq. Qed.

Lemma info_get_set_same (key : K) (v : V) (d : @info K V) :
  info_get key_eqb key (info_set key_eqb key v d) = Some v.
Proof.
  induction d as [ | [k w] d IH ]; cbn [info_set info_get].
  - now rewrite key_eqb_refl.
  - destruct (key_eqb key k) eqn:E; cbn [info_get]; rewrite E;
      [ reflexivity | exact IH ].
Qed.

Lemma info_get_set_other (key key' : K) (v : V) (d : @info K V) :
  key <> key' ->
  info_get key_eqb key (info_set key_eqb key' v d) = info_get key_eqb key d.
Proof.
  intro Hne.
  assert (Hfalse : key_eqb key key' = false).
  { destruct (key_eqb key key') eqn:E; [ | reflexivity ].
    apply key_eqb_eq in E. contradiction. }
  induction d as [ | [k w] d IH ]; cbn [info_set info_get].
  - now rewrite Hfalse.
  - destruct (key_eqb key' k) eqn:E; cbn [info_get].
    + apply key_eqb_eq in E. subst k. now rewrite Hfalse.
    + now rewrite IH.
Qed.

Lemma info_get_None (key : K) (d : @info K V) :
  ~ In key (map fst d) -> info_get key_eqb key d = None.
Proof.
  induction d as [ | [k w] d IH ]; cbn [map fst In info_get];
    [ reflexivity | ].
  intro H. destruct (key_eqb key k) eqn:E.
  - apply key_eqb_eq in E. subst k. tauto.
  - apply IH. tauto.
Qed.

(** After an update the new values win, the other keys stay. *)
Lemma info_update_get (key : K) (other : @info K V) :
  NoDup (map fst other) ->
  forall d,
    info_get key_eqb key (info_update key_eqb d other) =
    match info_get key_eqb key other with
    | Some v => Some v
    | None => info_get key_eqb key d
    end.
Proof.
  unfold info_update.
  induction other as [ | [k v] other IH ]; cbn [map fst fold_left info_get];
    intros Hnodup d; [ reflexivity | ].
  inversion Hnodup as [ | k' ks Hnotin Hrest ]; subst.
  rewrite (IH Hrest). cbn [fst snd].
  destruct (key_eqb key k) eqn:E.
  - apply key_eqb_eq in E. subst k.
    rewrite (info_get_None _ _ Hnotin). apply info_get_set_same.
  - assert (Hne : key <> k).
    { intros ->. rewrite key_eqb_refl in E. discriminate. }
    now rewrite (info_get_set_other _ _ _ _ Hne).
Qed.

Lemma deref_store_set (s : @store K V) (r r' : nat) (d : @info K V) :
  deref (store_set s r d) r' =
  if Nat.eqb r' r && Nat.ltb r (List.length s) then d else deref s r'.
Proof.
  unfold deref. revert r r'.
  induction s as [ | d0 s IH ]; intros r r'; cbn [store_set List.length].
  - destruct (Nat.eqb r' r); cbn [andb]; destruct r'; reflexivity.
  - destruct r as [ | r ], r' as [ | r' ]; cbn [nth Nat.eqb andb];
      try reflexivity.
    rewrite IH. reflexivity.
Qed.

Lemma user_get_set (user_id user_id' : Z) (r : nat) (users : list (Z * nat)) :
  user_get user_id (user_set user_id' r users) =
  if user_id =? user_id' then Some r else user_get user_id users.
Proof.
  induction users as [ | [k r0] users IH ]; cbn [user_set user_get].
  - reflexivity.
  - destruct (Z.eqb_spec user_id' k) as [ -> | Hne ]; cbn [user_get].
    + destruct (Z.eqb_spec user_id k); reflexivity.
    + rewrite IH.
      destruct (Z.eqb_spec user_id k) as [ -> | ]; [ | reflexivity ].
      destruct (Z.eqb_spec k user_id'); [ congruence | reflexivity ].
Qed.

(** X18.  After [add_user_info(user_id, info)] the user is known, and
    what [find_user_info] finds for the user holds every key of [info]
    with the value [info] gave it and every other key with the value
    the user had before, if the user was known. *)
Theorem add_user_info_find (s s' : @store K V) (self self' : UserCatalog)
    (user_id : Z) (info_ref : nat) :
  store_ok s ->
  catalog_ok s self ->
  (info_ref < List.length s)%nat ->
  add_user_info key_eqb s self user_id info_ref = (s', self') ->
  exists r,
    find_user_info self' user_id = Some r
    /\ forall key : K,
         info_get key_eqb key (deref s' r) =
         match info_get key_eqb key (@deref K V s info_ref) with
         | Some v => Some v
         | None =>
             match find_user_info self user_id with
             | Some r0 => info_get key_eqb key (deref s r0)
             | None => None
             end
         end.
Proof.
  intros Hstore Hcatalog Hinfo. unfold add_user_info, find_user_info.
  destruct (user_get user_id (_info self)) as [ r0 | ] eqn:Hget.
  - destruct (Nat.eqb_spec r0 info_ref) as [ -> | Hne ].
    + intros [= <- <-]. exists info_ref. split; [ exact Hget | ].
      intro key. now destruct (info_get key_eqb key (deref s info_ref)).
    + intros [= <- <-]. exists r0. split; [ exact Hget | ].
      intro key. rewrite deref_store_set, Nat.eqb_refl.
      assert (Hlt : Nat.ltb r0 (List.length s) = true).
      { apply Nat.ltb_lt. apply (Hcatalog user_id). exact Hget. }
      rewrite Hlt. cbn [andb]. apply info_update_get.
      unfold store_ok in Hstore. rewrite Forall_forall in Hstore.
      apply Hstore. apply nth_In. exact Hinfo.
  - intros [= <- <-]. exists info_ref. cbn [_info].
    rewrite user_get_set, Z.eqb_refl. split; [ reflexivity | ].
    intro key. now destruct (info_get key_eqb key (deref s info_ref)).
Qed.

(** X19.  [add_user_info] for one user leaves every other user with the
    dict object the user had; the contents of that object are the same
    as before unless it is the very object the updated user has: two
    users that were given one dict object share every later update. *)
Theorem add_user_info_others (s s' : @store K V) (self self' : UserCatalog)
    (user_id other_id : Z) (info_ref : nat) :
  other_id <> user_id ->
  add_user_info key_eqb s self user_id info_ref = (s', self') ->
  find_user_info self' other_id = find_user_info self other_id
  /\ forall r,
       find_user_info self other_id = Some r ->
       (find_user_info self user_id <> Some r ->
        @deref K V s' r = deref s r)
       /\ (find_user_info self user_id = Some r ->
           (r < List.length s)%nat ->
           r <> info_ref ->
           deref s' r = info_update key_eqb (deref s r) (deref s info_ref)).
Proof.
  intros Hother. unfold add_user_info, find_user_info.
  destruct (user_get user_id (_info self)) as [ r0 | ] eqn:Hget.
  - destruct (Nat.eqb_spec r0 info_ref) as [ -> | Hne ].
    + intros [= <- <-]. split; [ reflexivity | ].
      intros r Hr. split; [ reflexivity | ].
      intros [= <-] _ Hneq. contradiction.
    + intros [= <- <-]. split; [ reflexivity | ].
      intros r Hr. split.
      * intro Hdiff. rewrite deref_store_set.
        destruct (Nat.eqb_spec r r0) as [ -> | ];
          [ congruence | reflexivity ].
      * intros [= <-] Hlt _. rewrite deref_store_set, Nat.eqb_refl.
        apply Nat.ltb_lt in Hlt. now rewrite Hlt.
  - intros [= <- <-]. cbn [_info]. rewrite user_get_set.
    destruct (Z.eqb_spec other_id user_id); [ contradiction | ].
    split; [ reflexivity | ].
    intros r Hr. split; [ reflexivity | discriminate ].
Qed.

End UserCatalogFacts.

Lemma add_user_info_find_witness :
  exists r,
    find_user_info
      (snd (add_user_info str_eqb
              [ [(u "group", u "A1")];
                [(u "lang", u "uk"); (u "group", u "B2")] ]
              {| _info := [(7, 0%nat)] |} 7 1%nat)) 7 = Some r
    /\ forall key : str,
         info_get str_eqb key
           (deref
              (fst (add_user_info str_eqb
                      [ [(u "group", u "A1")];
                        [(u "lang", u "uk"); (u "group", u "B2")] ]
                      {| _info := [(7, 0%nat)] |} 7 1%nat)) r) =
         match
           info_get str_eqb key [(u "lang", u "uk"); (u "group", u "B2")]
         with
         | Some v => Some v
         | None => info_get str_eqb key [(u "group", u "A1")]
         end.
Proof.
  apply (add_user_info_find str_eqb str_eqb_eq
           [ [(u "group", u "A1")];
             [(u "lang", u "uk"); (u "group", u "B2")] ]
           _ {| _info := [(7, 0%nat)] |} _ 7 1%nat).
  - repeat constructor; vm_compute; intuition discriminate.
  - intros user_id r. unfold find_user_info. cbn [_info user_get].
    destruct (user_id =? 7); [ | discriminate ].
    intros [= <-]. cbn [List.length]. lia.
  - cbn [List.length]. lia.
  - apply surjective_pairing.
Defined.

Lemma add_user_info_others_witness :
  find_user_info
    (snd (add_user_info str_eqb
            [ [(u "group", u "A1")]; [(u "group", u "B2")] ]
            {| _info := [(7, 0%nat); (8, 0%nat)] |} 7 1%nat)) 8 =
  Some 0%nat
  /\ deref
       (fst (add_user_info str_eqb
               [ [(u "group", u "A1")]; [(u "group", u "B2")] ]
               {| _info := [(7, 0%nat); (8, 0%nat)] |} 7 1%nat)) 0 =
     [(u "group", u "B2")].
Proof.
  assert (Hne : 8 <> 7) by lia.
  pose proof (add_user_info_others str_eqb
                [ [(u "group", u "A1")]; [(u "group", u "B2")] ] _
                {| _info := [(7, 0%nat); (8, 0%nat)] |} _ 7 8 1%nat
                Hne (surjective_pairing _)) as [Hfind Hobj].
  split; [ exact Hfind | ].
  assert (Hlt : (0 < 2)%nat) by lia.
  assert (Hd : 0%nat <> 1%nat) by lia.
  exact (proj2 (Hobj 0%nat eq_refl) eq_refl Hlt Hd).
Defined.
